(** * Exegol wrapper: terminal UI (wrapper/console/TUI.py)

    A shallow embedding of [ExegolTUI]: the consumer of the docker pull
    stream ([downloadDockerLayer]), the consumer of the docker build stream
    ([buildDockerImage]), the table printer ([printTable] and its three
    builders) and the two interactive selectors ([selectFromTable],
    [selectFromList]), followed by the properties proved about them.

    Python objects are modelled as follows.
    - A stream element (a decoded JSON dict) is a record of optional fields;
      [None] is an absent key, so [dict.get(k, d)] is [default d (field)].
    - [set] is [gset], [dict] is [gmap]; the layer id read by
      [line.get("id")] can be [None], hence keys of type [option string].
    - A stream is a Python iterator: consuming functions take the elements
      still to come and return those they left unread.
    - Raised exceptions, log calls, printed tables and prompts are explicit:
      every method runs in the monad [M] over a [World]. *)

From stdpp Require Import gmap strings list fin_maps.
From Stdlib Require Import ZArith Ascii.

Local Open Scope Z_scope.

(** ** Python strings *)

Module PyStr.

(** [needle in hay] *)
Fixpoint contains (needle hay : string) : bool :=
  if String.prefix needle hay then true
  else match hay with
       | EmptyString => false
       | String _ hay' => contains needle hay'
       end.

(** [s.replace(old, new)] for a non-empty [old]: occurrences are replaced
    from left to right and do not overlap. [skip] counts the characters of
    the occurrence just replaced that are still to be dropped. *)
Fixpoint replace_from (old new : string) (skip : nat) (s : string) : string :=
  match s with
  | EmptyString => EmptyString
  | String c s' =>
      match skip with
      | S k => replace_from old new k s'
      | O =>
          if String.prefix old s
          then new +:+ replace_from old new (Nat.pred (String.length old)) s'
          else String c (replace_from old new 0 s')
      end
  end.

Definition replace (old new s : string) : string := replace_from old new 0 s.

(** The ASCII characters for which [str.isspace] holds. The texts of the
    model are ASCII texts: a character is an [ascii]. *)
Definition isspace (c : ascii) : bool :=
  let n := nat_of_ascii c in
  ((9 <=? n)%nat && (n <=? 13)%nat) || ((28 <=? n)%nat && (n <=? 32)%nat).

(** [s.lstrip()] *)
Fixpoint lstrip (s : string) : string :=
  match s with
  | EmptyString => EmptyString
  | String c s' => if isspace c then lstrip s' else s
  end.

(** [s.rstrip()] *)
Fixpoint rstrip (s : string) : string :=
  match s with
  | EmptyString => EmptyString
  | String c s' =>
      match rstrip s' with
      | EmptyString => if isspace c then EmptyString else String c EmptyString
      | r => String c r
      end
  end.

(** [s.strip()] *)
Definition strip (s : string) : string := rstrip (lstrip s).

(** [str(x)] of an optional string: [None] prints as ["None"]. *)
Definition str_of_opt (o : option string) : string := default "None" o.

End PyStr.

(** ** Exceptions, the world and the monad of effects *)

Inductive Exception : Type :=
| IndexError
| KeyError
| AttributeError
| NotImplementedError
| NotRenderableError
| EOFError.

Inductive Res (A : Type) : Type :=
| Ok (a : A)
| Raise (e : Exception).
Arguments Ok {A} a.
Arguments Raise {A} e.

(** One element of a docker stream. Pull events carry [status], [id] and
    [progressDetail]; build events carry [stream]. A field is [None] when
    the dict has no such key; a key that is there holds a value of the type
    the docker API gives it (a string, a dict, an integer). *)
Record ProgressDetail : Type := mkProgressDetail {
  pd_current : option Z;
  pd_total : option Z
}.

Record Line : Type := mkLine {
  l_status : option string;
  l_id : option string;
  l_progressDetail : option ProgressDetail;
  l_stream : option string
}.

(** The layer id as [line.get("id")] returns it. *)
Abbreviation LayerId := (option string).

(** Calls to [wrapper.utils.ExeLog.logger]. *)
Inductive LogMethod : Type :=
| log_debug | log_verbose | log_info | log_success
| log_warning | log_error | log_critical | log_raw_debug.

Inductive LogMsg : Type :=
| MsgText (s : string)
| MsgLine (l : Line).

(** Modelled from the spec: [wrapper/utils/ExeLog.py] is not among the
    sources. The spec names three verbosity tiers (normal, verbose, debug);
    [logger.isEnabledFor(ExeLog.VERBOSE)] holds from verbose on and
    [logger.isEnabledFor(logging.DEBUG)] at debug only. *)
Inductive Verbosity : Type := Normal | Verbose | Debug.

Inductive LevelName : Type := LVL_VERBOSE | LVL_DEBUG.

Definition isEnabledFor (v : Verbosity) (l : LevelName) : bool :=
  match l, v with
  | LVL_VERBOSE, Normal => false
  | LVL_VERBOSE, _ => true
  | LVL_DEBUG, Debug => true
  | LVL_DEBUG, _ => false
  end.

(** A [rich.table.Table]: title, column headers and rows of cells. *)
Record Table : Type := mkTable {
  tb_title : option string;
  tb_columns : list (option string);
  tb_rows : list (list string)
}.

(** A call of [rich.prompt.Prompt.ask]. *)
Record PromptCall : Type := mkPromptCall {
  pc_prompt : string;
  pc_default : string;
  pc_choices : list string
}.

Record World : Type := mkWorld {
  w_verbosity : Verbosity;          (* logger configuration *)
  w_log : list (LogMethod * LogMsg); (* logger calls, oldest first *)
  w_console : list Table;           (* tables printed, oldest first *)
  w_prompts : list PromptCall;      (* prompts shown, oldest first *)
  w_stdin : list string             (* lines the user will type *)
}.

Definition M (A : Type) : Type := World -> Res A * World.

Definition ret {A} (a : A) : M A := fun w => (Ok a, w).

Definition raise {A} (e : Exception) : M A := fun w => (Raise e, w).

Definition bind {A B} (m : M A) (k : A -> M B) : M B :=
  fun w =>
    match m w with
    | (Ok a, w') => k a w'
    | (Raise e, w') => (Raise e, w')
    end.

Definition lift {A} (r : Res A) : M A := fun w => (r, w).

Global Instance M_ret : MRet M := @ret.
Global Instance M_bind : MBind M := fun A B k m => bind m k.

Definition logger (meth : LogMethod) (msg : LogMsg) : M unit :=
  fun w => (Ok tt,
            mkWorld (w_verbosity w) (w_log w ++ [(meth, msg)])
                    (w_console w) (w_prompts w) (w_stdin w)).

Definition logger_isEnabledFor (l : LevelName) : M bool :=
  fun w => (Ok (isEnabledFor (w_verbosity w) l), w).

(** A header that is [None] is not a renderable: the console cannot
    measure the column. *)
Definition headers_renderable (t : Table) : bool :=
  forallb (fun header => match header with Some _ => true | None => false end)
          (tb_columns t).

(** [console.print(table)]: a table with a header that cannot be rendered
    raises, and nothing is printed. *)
Definition console_print (t : Table) : M unit :=
  fun w =>
    if headers_renderable t
    then (Ok tt,
          mkWorld (w_verbosity w) (w_log w) (w_console w ++ [t])
                  (w_prompts w) (w_stdin w))
    else (Raise NotRenderableError, w).

(** Exceptions alone, for the operations that touch no part of the world. *)
Global Instance Res_ret : MRet Res := @Ok.
Global Instance Res_bind : MBind Res := fun A B k r =>
  match r with
  | Ok a => k a
  | Raise e => Raise e
  end.

(** ** The progress display

    Modelled from the spec: [wrapper/console/ExegolProgress.py], a subclass
    of [rich.progress.Progress] that adds [getTask], is not among the
    sources. The spec describes rows that are added, re-labelled, updated,
    started and removed through a handle; here a handle is the index the
    display hands out, and every operation on a handle that names no row
    raises [KeyError], as a lookup in the display's task table does. *)

Module ExegolProgress.

Record Task : Type := mkTask {
  description : string;
  total : Z;
  completed : Z;
  started : bool;
  layer : option LayerId            (* the extra field [layer=...] *)
}.

Record t : Type := mkProgress {
  tasks : gmap nat Task;
  task_index : nat
}.

Definition empty : t := mkProgress ∅ 0.

(** [progress.add_task(description, total=total, start=start, **fields)] *)
Definition add_task (description : string) (total : Z) (start : bool)
    (layer : option LayerId) (p : t) : t * nat :=
  (mkProgress (<[task_index p := mkTask description total 0 start layer]> (tasks p))
              (S (task_index p)),
   task_index p).

(** [progress.getTask(task_id)] *)
Definition getTask (task_id : nat) (p : t) : Res Task :=
  match tasks p !! task_id with
  | Some task => Ok task
  | None => Raise KeyError
  end.

Definition setTask (task_id : nat) (task : Task) (p : t) : t :=
  mkProgress (<[task_id := task]> (tasks p)) (task_index p).

(** [progress.update(task_id, total=..., completed=...)]: a keyword that is
    not given leaves its attribute as it is. *)
Definition update (task_id : nat) (new_total new_completed : option Z)
    (p : t) : Res t :=
  task ← getTask task_id p;
  Ok (setTask task_id
        (mkTask (description task)
                (default (total task) new_total)
                (default (completed task) new_completed)
                (started task) (layer task)) p).

(** [progress.getTask(task_id).description = text] *)
Definition set_description (task_id : nat) (text : string) (p : t) : Res t :=
  task ← getTask task_id p;
  Ok (setTask task_id
        (mkTask text (total task) (completed task) (started task) (layer task)) p).

(** [progress.start_task(task_id)] *)
Definition start_task (task_id : nat) (p : t) : Res t :=
  task ← getTask task_id p;
  Ok (setTask task_id
        (mkTask (description task) (total task) (completed task) true (layer task)) p).

(** [progress.remove_task(task_id)] *)
Definition remove_task (task_id : nat) (p : t) : Res t :=
  _ ← getTask task_id p;
  Ok (mkProgress (delete task_id (tasks p)) (task_index p)).

End ExegolProgress.

(** ** A table of the rich library *)

Module RichTable.

(** [Table(title=title, ...)] *)
Definition new (title : option string) : Table := mkTable title [] [].

(** [table.title = title] *)
Definition set_title (title : option string) (t : Table) : Table :=
  mkTable title (tb_columns t) (tb_rows t).

(** [table.add_column(header)] *)
Definition add_column (header : option string) (t : Table) : Table :=
  mkTable (tb_title t) (tb_columns t ++ [header]) (tb_rows t).

Definition pad (width : nat) (cells : list string) : list string :=
  cells ++ replicate (width - length cells) "".

(** [table.add_row] on the cells of a row: a short row is completed with empty cells; a
    row longer than the header adds columns with an empty header. *)
Definition add_row (cells : list string) (t : Table) : Table :=
  let width := Nat.max (length (tb_columns t)) (length cells) in
  mkTable (tb_title t)
          (tb_columns t ++ replicate (width - length (tb_columns t)) (Some ""))
          (map (pad width) (tb_rows t) ++ [pad width cells]).

End RichTable.

(** ** The objects shown in tables

    The classes of [wrapper/model] are not among the sources. An object is
    represented by what the methods and attributes read by [ExegolTUI]
    return, under the names they have in the source. *)

Module ExegolImage.
Record t : Type := mk {
  getId : string;
  getName : string;
  getDownloadSize : string;
  getRealSize : string;
  getSize : string;
  getStatus : string;
  getType : string
}.
End ExegolImage.

Module ContainerConfig.
Record t : Type := mk {
  getTextFeatures : string;
  getTextMounts : bool -> string;
  getTextDevices : bool -> string;
  getTextEnvs : bool -> string
}.
End ContainerConfig.

Module ExegolContainer.
Record t : Type := mk {
  getId : string;
  name : string;
  getTextStatus : string;
  image : ExegolImage.t;
  config : ContainerConfig.t
}.
End ExegolContainer.

(** A Python value found in a list handed to [printTable]. [OOther] is a
    value of any other class, one that the console cannot render and that
    is not [None], with the text [type(x)] prints as. *)
Inductive Obj : Type :=
| OImage (i : ExegolImage.t)
| OContainer (c : ExegolContainer.t)
| OStr (s : string)
| OOther (type_repr : string).

(** The class given as [object_type] to [selectFromTable]. *)
Inductive ClassName : Type := ClsExegolImage | ClsExegolContainer | ClsOther.

(** [wrapper.model.SelectableInterface]: the display key of an object, and
    its [__eq__] against a string, which decides [choice == o]. *)
Class SelectableInterface (T : Type) : Type := {
  getKey : T -> string;
  eq_str : T -> string -> bool
}.

(** A parameter with a default value: omitted by the caller, or given. *)
Inductive Arg (A : Type) : Type :=
| Omitted
| Given (a : A).
Arguments Omitted {A}.
Arguments Given {A} a.

Definition arg_or {A} (a : Arg A) (default_value : A) : A :=
  match a with
  | Omitted => default_value
  | Given v => v
  end.

(** ** The prompt of the rich library

    [Prompt.ask(prompt, default=default, choices=choices)]: an empty answer
    returns the default, an answer that, stripped, is one of [choices] is
    returned stripped, any other answer asks again. The answers are the
    lines of [w_stdin]; reading past the last one raises [EOFError]. *)

Fixpoint read_answer (default_value : string) (choices : list string)
    (answers : list string) : Res string * list string :=
  match answers with
  | [] => (Raise EOFError, [])
  | value :: answers' =>
      if String.eqb value "" then (Ok default_value, answers')
      else if bool_decide (PyStr.strip value ∈ choices)
           then (Ok (PyStr.strip value), answers')
           else read_answer default_value choices answers'
  end.

Definition Prompt_ask (prompt default_value : string) (choices : list string)
    : M string :=
  fun w =>
    let '(r, answers) := read_answer default_value choices (w_stdin w) in
    (r, mkWorld (w_verbosity w) (w_log w) (w_console w)
                (w_prompts w ++ [mkPromptCall prompt default_value choices])
                answers).

(** ** ExegolTUI *)

Module ExegolTUI.

Import ExegolProgress.

(** The local variables of [downloadDockerLayer]. *)
Record Tracker : Type := mkTracker {
  layers : gset LayerId;
  layers_downloaded : gset LayerId;
  layers_extracted : gset LayerId;
  downloading : gmap LayerId nat;
  extracting : gmap LayerId nat;
  progress : ExegolProgress.t;
  task_layers_download : nat;
  task_layers_extract : nat
}.

Definition with_progress (t : Tracker) (p : ExegolProgress.t) : Tracker :=
  mkTracker (layers t) (layers_downloaded t) (layers_extracted t)
            (downloading t) (extracting t) p
            (task_layers_download t) (task_layers_extract t).

(** The state on entry of the [for] loop (lines 22 to 41). *)
Definition initial : Tracker :=
  let '(p, d) := add_task "[bold red]Downloading layers..." 0 true None ExegolProgress.empty in
  let '(p, e) := add_task "[bold gold1]Extracting layers..." 0 false None p in
  mkTracker ∅ ∅ ∅ ∅ ∅ p d e.

(** [line.get("progressDetail", {}).get(key, 100)] *)
Definition progressDetail_get (line : Line)
    (key : ProgressDetail -> option Z) : Z :=
  match l_progressDetail line with
  | Some pd => default 100 (key pd)
  | None => 100
  end.

(** Lines 46 to 48: [status == "Pulling fs layer"]. *)
Definition pulling_fs_layer (layer_id : LayerId) (t : Tracker) : Res Tracker :=
  let layers' := {[layer_id]} ∪ layers t in
  let n := Some (Z.of_nat (size layers')) in
  p ← update (task_layers_download t) n None (progress t);
  p ← update (task_layers_extract t) n None p;
  Ok (mkTracker layers' (layers_downloaded t) (layers_extracted t)
                (downloading t) (extracting t) p
                (task_layers_download t) (task_layers_extract t)).

(** Lines 50 to 53: ["Pulling from " in status]. *)
Definition pulling_from (status : string) (line : Line) (t : Tracker) : Res Tracker :=
  let name :=
    PyStr.replace "Pulling from " "" status +:+ ":" +:+ default "latest" (l_id line) in
  p ← set_description (task_layers_download t) ("[bold red]Downloading " +:+ name) (progress t);
  p ← set_description (task_layers_extract t) ("[bold gold1]Extracting " +:+ name) p;
  Ok (with_progress t p).

(** Lines 56 to 70: [status] is ["Download complete"] or ["Pull complete"]. *)
Definition layer_complete (status : string) (layer_id : LayerId)
    (t : Tracker) : Res Tracker :=
  let pull := String.eqb status "Pull complete" in
  let task_pool := if pull then extracting t else downloading t in
  let layers_downloaded' :=
    if pull then layers_downloaded t else {[layer_id]} ∪ layers_downloaded t in
  let layers_extracted' :=
    if pull then {[layer_id]} ∪ layers_extracted t else layers_extracted t in
  '(task_pool, p) ←
     match task_pool !! layer_id with
     | Some layer_task =>
         p ← remove_task layer_task (progress t);
         Ok (delete layer_id task_pool, p)
     | None => Ok (task_pool, progress t)
     end;
  p ← update (task_layers_download t) None (Some (Z.of_nat (size layers_downloaded'))) p;
  p ← update (task_layers_extract t) None (Some (Z.of_nat (size layers_extracted'))) p;
  Ok (mkTracker (layers t) layers_downloaded' layers_extracted'
                (if pull then downloading t else task_pool)
                (if pull then task_pool else extracting t)
                p (task_layers_download t) (task_layers_extract t)).

(** Lines 72 to 84: [status] is ["Downloading"] or ["Extracting"]. *)
Definition layer_progress (status : string) (layer_id : LayerId) (line : Line)
    (t : Tracker) : Res Tracker :=
  let extract := String.eqb status "Extracting" in
  let task_pool := if extract then extracting t else downloading t in
  p ← (if extract then
         task ← getTask (task_layers_extract t) (progress t);
         if negb (started task) then start_task (task_layers_extract t) (progress t)
         else Ok (progress t)
       else Ok (progress t));
  '(task_pool, p, task_id) ←
     match task_pool !! layer_id with
     | Some task_id => Ok (task_pool, p, task_id)
     | None =>
         let '(p, task_id) :=
           add_task ("[" +:+ (if String.eqb status "Downloading" then "blue" else "green")
                         +:+ "]" +:+ status +:+ " " +:+ PyStr.str_of_opt layer_id)
                    (progressDetail_get line pd_total) true (Some layer_id) p in
         Ok (<[layer_id := task_id]> task_pool, p, task_id)
     end;
  p ← update task_id None (Some (progressDetail_get line pd_current)) p;
  Ok (mkTracker (layers t) (layers_downloaded t) (layers_extracted t)
                (if extract then downloading t else task_pool)
                (if extract then task_pool else extracting t)
                p (task_layers_download t) (task_layers_extract t)).

(** The body of the [for] loop (lines 43 to 90). The boolean returned is
    true when the body ends in [break]. *)
Definition loop_body (line : Line) (quick_exit : bool) (t : Tracker)
    : M (Tracker * bool) :=
  let status := default "" (l_status line) in
  let layer_id := l_id line in
  if String.eqb status "Pulling fs layer" then
    t ← lift (pulling_fs_layer layer_id t); mret (t, false)
  else if PyStr.contains "Pulling from " status then
    t ← lift (pulling_from status line t); mret (t, false)
  else if String.eqb status "Download complete" || String.eqb status "Pull complete" then
    t ← lift (layer_complete status layer_id t); mret (t, false)
  else if String.eqb status "Downloading" || String.eqb status "Extracting" then
    t ← lift (layer_progress status layer_id line t); mret (t, false)
  else if PyStr.contains "Image is up to date" status
          || PyStr.contains "Status: Downloaded newer image for" status then
    _ ← logger log_success (MsgText status);
    mret (t, quick_exit)
  else
    _ ← logger log_debug (MsgLine line);
    mret (t, false).

(** [for line in stream: ...] from a given state of the local variables.
    Returns the state at the exit of the loop and what is left in the
    iterator. *)
Fixpoint for_line_in (stream : list Line) (quick_exit : bool) (t : Tracker)
    : M (Tracker * list Line) :=
  match stream with
  | [] => mret (t, [])
  | line :: stream' =>
      '(t, break) ← loop_body line quick_exit t;
      if break : bool then mret (t, stream') else for_line_in stream' quick_exit t
  end.

(** [downloadDockerLayer(stream, quick_exit)]. Python returns [None]; the
    model returns the local variables at exit, for the properties below,
    and the unread rest of [stream], for the caller that shares it. *)
Definition downloadDockerLayer (stream : list Line) (quick_exit : bool)
    : M (Tracker * list Line) :=
  for_line_in stream quick_exit initial.

(** [re.match(r"Successfully built [a-z0-9]{12}", text)] *)
Definition is_lower_alnum (c : ascii) : bool :=
  let n := nat_of_ascii c in
  ((97 <=? n)%nat && (n <=? 122)%nat) || ((48 <=? n)%nat && (n <=? 57)%nat).

Fixpoint lower_alnum_run (n : nat) (s : string) : bool :=
  match n with
  | O => true
  | S k =>
      match s with
      | String c s' => is_lower_alnum c && lower_alnum_run k s'
      | EmptyString => false
      end
  end.

Fixpoint string_drop (n : nat) (s : string) : string :=
  match n, s with
  | S k, String _ s' => string_drop k s'
  | _, _ => s
  end.

Definition match_successfully_built (text : string) : bool :=
  String.prefix "Successfully built " text
  && lower_alnum_run 12 (string_drop 19 text).

(** [re.match(r"^Successfully tagged ", text)] *)
Definition match_successfully_tagged (text : string) : bool :=
  String.prefix "Successfully tagged " text.

(** Lines 97 to 106: the log call made for one line of the build stream. *)
Definition log_build_line (stream_text : string) : M unit :=
  if negb (String.eqb (PyStr.strip stream_text) "") then
    if PyStr.contains "Step" stream_text then
      logger log_info (MsgText (PyStr.rstrip stream_text))
    else if PyStr.contains "--->" stream_text
            || PyStr.contains "Removing intermediate container " stream_text
            || match_successfully_built stream_text
            || match_successfully_tagged stream_text then
      logger log_verbose (MsgText (PyStr.rstrip stream_text))
    else
      logger log_raw_debug (MsgText stream_text)
  else mret tt.

(** [for line in build_stream: ...] (lines 95 to 109). [build_stream] is the
    iterator the docker client returns, so the nested call of
    [downloadDockerLayer] reads from it and the loop goes on with what that
    call left unread. The recursion is on [fuel]; one unit per element of
    the stream is enough ([buildDockerImage] below). *)
Fixpoint buildDockerImage_loop (fuel : nat) (build_stream : list Line) : M unit :=
  match fuel, build_stream with
  | S fuel', line :: build_stream' =>
      let stream_text := default "" (l_stream line) in
      _ ← log_build_line stream_text;
      if PyStr.contains ": FROM " stream_text then
        _ ← logger log_info (MsgText "Downloading docker image");
        '(_, unread) ← downloadDockerLayer build_stream' true;
        buildDockerImage_loop fuel' unread
      else buildDockerImage_loop fuel' build_stream'
  | _, _ => mret tt
  end.

Definition buildDockerImage (build_stream : list Line) : M unit :=
  buildDockerImage_loop (length build_stream) build_stream.

(** The [for] loop of [__buildImageTable] (lines 151 to 156). An element
    that is not an image has no [getName] method. *)
Fixpoint add_image_rows (verbose_mode : bool) (data : list Obj) (table : Table)
    : Res Table :=
  match data with
  | [] => Ok table
  | OImage image :: data' =>
      let row :=
        if verbose_mode
        then [ExegolImage.getId image; ExegolImage.getName image;
              ExegolImage.getDownloadSize image; ExegolImage.getRealSize image;
              ExegolImage.getStatus image; ExegolImage.getType image]
        else [ExegolImage.getName image; ExegolImage.getSize image;
              ExegolImage.getStatus image; ExegolImage.getType image] in
      add_image_rows verbose_mode data' (RichTable.add_row row table)
  | _ :: _ => Raise AttributeError
  end.

(** [__buildImageTable(table, data)] *)
Definition __buildImageTable (table : Table) (data : list Obj) : M Table :=
  let table := RichTable.set_title (Some "Available images") table in
  verbose_mode ← logger_isEnabledFor LVL_VERBOSE;
  let table := if verbose_mode : bool
               then RichTable.add_column (Some "Id") table else table in
  let table := RichTable.add_column (Some "Image tag") table in
  let table :=
    if verbose_mode : bool
    then RichTable.add_column (Some "Disk size")
           (RichTable.add_column (Some "Download size") table)
    else RichTable.add_column (Some "Size") table in
  let table := RichTable.add_column (Some "Status") table in
  let table := RichTable.add_column (Some "Type") table in
  lift (add_image_rows verbose_mode data table).

(** The [for] loop of [__buildContainerTable] (lines 176 to 183). An
    element that is not a container has no [name] attribute. *)
Fixpoint add_container_rows (verbose_mode debug_mode : bool) (data : list Obj)
    (table : Table) : Res Table :=
  match data with
  | [] => Ok table
  | OContainer container :: data' =>
      let cfg := ExegolContainer.config container in
      let row :=
        if verbose_mode
        then [ExegolContainer.getId container; ExegolContainer.name container;
              ExegolContainer.getTextStatus container;
              ExegolImage.getName (ExegolContainer.image container);
              ContainerConfig.getTextFeatures cfg;
              ContainerConfig.getTextMounts cfg debug_mode;
              ContainerConfig.getTextDevices cfg debug_mode;
              ContainerConfig.getTextEnvs cfg debug_mode]
        else [ExegolContainer.name container;
              ExegolContainer.getTextStatus container;
              ExegolImage.getName (ExegolContainer.image container);
              ContainerConfig.getTextFeatures cfg] in
      add_container_rows verbose_mode debug_mode data' (RichTable.add_row row table)
  | _ :: _ => Raise AttributeError
  end.

(** [__buildContainerTable(table, data)] *)
Definition __buildContainerTable (table : Table) (data : list Obj) : M Table :=
  let table :=
    RichTable.set_title (Some "[gold3][g]Available containers[/g][/gold3]") table in
  verbose_mode ← logger_isEnabledFor LVL_VERBOSE;
  debug_mode ← logger_isEnabledFor LVL_DEBUG;
  let table := if verbose_mode : bool
               then RichTable.add_column (Some "Id") table else table in
  let table := RichTable.add_column (Some "Container tag") table in
  let table := RichTable.add_column (Some "State") table in
  let table := RichTable.add_column (Some "Image tag") table in
  let table := RichTable.add_column (Some "Configurations") table in
  let table :=
    if verbose_mode : bool
    then RichTable.add_column (Some "Envs")
           (RichTable.add_column (Some "Devices")
              (RichTable.add_column (Some "Mounts") table))
    else table in
  lift (add_container_rows verbose_mode debug_mode data table).

(** The [for] loop of [__buildStringTable] (lines 192 and 193). A row cell
    that is not a string (nor another renderable) is refused by the table. *)
Fixpoint add_string_rows (data : list Obj) (table : Table) : Res Table :=
  match data with
  | [] => Ok table
  | OStr string :: data' => add_string_rows data' (RichTable.add_row [string] table)
  | _ :: _ => Raise NotRenderableError
  end.

(** [__buildStringTable(table, data, title="Key")] *)
Definition __buildStringTable (table : Table) (data : list Obj)
    (title : Arg (option string)) : M Table :=
  let title := arg_or title (Some "Key") in
  let table := RichTable.set_title None table in
  let table := RichTable.add_column title table in
  lift (add_string_rows data table).

(** [printTable(data, title=None)] *)
Definition printTable (data : list Obj) (title : Arg (option string)) : M unit :=
  let title := arg_or title None in
  let table := RichTable.new title in
  match data with
  | [] => logger log_info (MsgText "No data supplied")
  | first :: _ =>
      table ← match first with
              | OImage _ => __buildImageTable table data
              | OContainer _ => __buildContainerTable table data
              | OStr _ => __buildStringTable table data (Given title)
              | OOther type_repr =>
                  _ ← logger log_error
                        (MsgText ("Print table of " +:+ type_repr +:+ " is not implemented"));
                  raise NotImplementedError
              end;
      console_print table
  end.

Section Selectors.

Context {image_selectable : SelectableInterface ExegolImage.t}.
Context {container_selectable : SelectableInterface ExegolContainer.t}.

(** [obj.getKey()] *)
Definition obj_getKey (obj : Obj) : Res string :=
  match obj with
  | OImage i => Ok (getKey i)
  | OContainer c => Ok (getKey c)
  | OStr _ | OOther _ => Raise AttributeError
  end.

(** [choice == o] for a string [choice]: a string compares by value with a
    string, and defers to the [__eq__] of a selectable object. *)
Definition str_eq_obj (choice : string) (o : Obj) : bool :=
  match o with
  | OImage i => eq_str i choice
  | OContainer c => eq_str c choice
  | OStr s => String.eqb choice s
  | OOther _ => false
  end.

(** [[obj.getKey() for obj in data]] *)
Fixpoint getKeys (data : list Obj) : Res (list string) :=
  match data with
  | [] => Ok []
  | obj :: data' =>
      k ← obj_getKey obj;
      ks ← getKeys data';
      Ok (k :: ks)
  end.

(** Lines 213 to 215: the first [o] of [data] with [choice == o]. *)
Fixpoint first_equal (choice : string) (data : list Obj) : option Obj :=
  match data with
  | [] => None
  | o :: data' => if str_eq_obj choice o then Some o else first_equal choice data'
  end.

(** [selectFromTable(data, object_type=None, default=None)]. The result is
    [None] when the function falls off its end after [logger.critical]. *)
Definition selectFromTable (data : list Obj) (object_type : option ClassName)
    (default_choice : option string) : M (option Obj) :=
  match data with
  | [] =>
      _ ← match object_type with
          | Some ClsExegolImage => logger log_warning (MsgText "No images were found")
          | Some ClsExegolContainer => logger log_warning (MsgText "No container were found")
          | _ => logger log_warning (MsgText "No container were found")
          end;
      raise IndexError
  | _ :: _ =>
      _ ← printTable data Omitted;
      choices ← lift (getKeys data);
      default_choice ←
        match default_choice with
        | None =>
            match choices with
            | first :: _ => mret first
            | [] => raise IndexError
            end
        | Some d => mret d
        end;
      choice ← Prompt_ask "[blue][?][/blue] Select an object by his name"
                          default_choice choices;
      match first_equal choice data with
      | Some o => mret (Some o)
      | None =>
          _ ← logger log_critical (MsgText "Unknown error, cannot fetch selected object.");
          mret None
      end
  end.

End Selectors.

(** The [data] of [selectFromList]: a list of strings or a dict, whose
    items are kept in insertion order. *)
Inductive ListOrDict (V : Type) : Type :=
| PyList (l : list string)
| PyDict (d : list (string * V)).
Arguments PyList {V} l.
Arguments PyDict {V} d.

(** What [selectFromList] returns: the chosen string, or the value the dict
    maps it to. *)
Inductive Selected (V : Type) : Type :=
| SelString (s : string)
| SelValue (v : V).
Arguments SelString {V} s.
Arguments SelValue {V} v.

(** [data[choice]] *)
Fixpoint dict_getitem {V} (d : list (string * V)) (key : string) : Res V :=
  match d with
  | [] => Raise KeyError
  | (k, v) :: d' => if String.eqb k key then Ok v else dict_getitem d' key
  end.

(** [selectFromList(data, subject="an option", title="Options", default=None)] *)
Definition selectFromList {V} (data : ListOrDict V) (subject : Arg string)
    (title : Arg string) (default_choice : option string) : M (Selected V) :=
  let subject := arg_or subject "an option" in
  let title := arg_or title "Options" in
  let submit_data :=
    match data with
    | PyList l => l
    | PyDict d => map fst d
    end in
  match submit_data with
  | [] =>
      _ ← logger log_warning (MsgText "No options were found");
      raise IndexError
  | first :: _ =>
      _ ← printTable (map OStr submit_data) (Given (Some title));
      let default_choice := default first default_choice in
      choice ← Prompt_ask ("[blue][?][/blue] Select " +:+ subject)
                          default_choice submit_data;
      match data with
      | PyDict d => v ← lift (dict_getitem d choice); mret (SelValue v)
      | PyList _ => mret (SelString choice)
      end
  end.

End ExegolTUI.

(** ** Vocabulary of the properties *)

Import ExegolProgress ExegolTUI.

(** [line.get("status", '')] *)
Definition status_of (line : Line) : string := default "" (l_status line).

(** The two aggregate rows of the display. *)
Definition download_row (t : Tracker) : option Task :=
  tasks (progress t) !! task_layers_download t.

Definition extract_row (t : Tracker) : option Task :=
  tasks (progress t) !! task_layers_extract t.

(** The pool of per-layer tasks and the set of finished layers of a phase:
    [true] is the extract phase, [false] the download phase. *)
Definition task_pool (extract : bool) (t : Tracker) : gmap LayerId nat :=
  if extract then extracting t else downloading t.

Definition layer_pool (extract : bool) (t : Tracker) : gset LayerId :=
  if extract then layers_extracted t else layers_downloaded t.

Definition phase_row (extract : bool) (t : Tracker) : option Task :=
  if extract then extract_row t else download_row t.

(** The events as the [if]/[elif] chain of the loop tells them apart. *)
Definition is_discover (line : Line) : bool :=
  String.eqb (status_of line) "Pulling fs layer".

Definition is_finish (line : Line) : bool :=
  String.eqb (status_of line) "Download complete"
  || String.eqb (status_of line) "Pull complete".

Definition is_progress (line : Line) : bool :=
  String.eqb (status_of line) "Downloading"
  || String.eqb (status_of line) "Extracting".

Definition is_extracting (line : Line) : bool :=
  String.eqb (status_of line) "Extracting".

Definition is_operation_complete (line : Line) : bool :=
  negb (PyStr.contains "Pulling from " (status_of line))
  && (PyStr.contains "Image is up to date" (status_of line)
      || PyStr.contains "Status: Downloaded newer image for" (status_of line)).

(** The phase a finish or progress event belongs to. *)
Definition phase_of (line : Line) : bool :=
  String.eqb (status_of line) "Pull complete"
  || String.eqb (status_of line) "Extracting".

(** The events of the two phases: a progress event and a finish event of
    the download phase ([extract] false) or of the extract phase. *)
Definition progress_event (extract : bool) (lid : LayerId)
    (pd : option ProgressDetail) (text : option string) : Line :=
  mkLine (Some (if extract then "Extracting" else "Downloading")) lid pd text.

Definition finish_event (extract : bool) (lid : LayerId)
    (pd : option ProgressDetail) (text : option string) : Line :=
  mkLine (Some (if extract then "Pull complete" else "Download complete"))
         lid pd text.

(** A sequence of events is valid from a set of discovered layers when
    every finish event names a layer that a ["Pulling fs layer"] event has
    announced before it. *)
Fixpoint valid_from (seen : gset LayerId) (stream : list Line) : bool :=
  match stream with
  | [] => true
  | line :: stream' =>
      if is_discover line then valid_from ({[l_id line]} ∪ seen) stream'
      else if is_finish line then
        bool_decide (l_id line ∈ seen) && valid_from seen stream'
      else valid_from seen stream'
  end.

Definition valid_events (stream : list Line) : bool := valid_from ∅ stream.

(** The layers announced by the ["Pulling fs layer"] events of a stream. *)
Fixpoint discovered (stream : list Line) : gset LayerId :=
  match stream with
  | [] => ∅
  | line :: stream' =>
      if is_discover line then {[l_id line]} ∪ discovered stream'
      else discovered stream'
  end.

(** The started flag of the extract row at the exit of
    [downloadDockerLayer]. *)
Definition extract_started (r : Res (Tracker * list Line) * World) : option bool :=
  match r with
  | (Ok (t, _), _) => started <$> extract_row t
  | (Raise _, _) => None
  end.

(** What the loop keeps true of the display and the pools. The shape: both
    aggregate rows exist, every task of a pool is a row of the display other
    than the aggregate rows, no task is in two places, and the display
    never hands out an index twice. *)
Record tracker_shape (t : Tracker) : Prop := mk_tracker_shape {
  sh_rows_distinct : task_layers_download t ≠ task_layers_extract t;
  sh_rows : ∀ ph, is_Some (phase_row ph t);
  sh_bound :
    ∀ i, is_Some (tasks (progress t) !! i) → (i < task_index (progress t))%nat;
  sh_pool :
    ∀ ph l i, task_pool ph t !! l = Some i →
      is_Some (tasks (progress t) !! i)
      ∧ i ≠ task_layers_download t ∧ i ≠ task_layers_extract t;
  sh_inj :
    ∀ ph1 ph2 l1 l2 i,
      task_pool ph1 t !! l1 = Some i → task_pool ph2 t !! l2 = Some i →
      ph1 = ph2 ∧ l1 = l2
}.

(** The counters: each aggregate row shows the number of layers seen as its
    total and the number of layers finished in its phase as its completed
    count. *)
Definition rows_show_sets (t : Tracker) : Prop :=
  ∀ ph, ∃ row,
    phase_row ph t = Some row
    ∧ total row = Z.of_nat (size (layers t))
    ∧ completed row = Z.of_nat (size (layer_pool ph t)).

Definition tracker_wf (t : Tracker) : Prop :=
  tracker_shape t ∧ rows_show_sets t.

(** One iteration of the loop of [buildDockerImage]. *)
Definition build_step (line : Line) (k : list Line → M unit) (stream : list Line) : M unit :=
  let stream_text := default "" (l_stream line) in
  _ ← log_build_line stream_text;
  if PyStr.contains ": FROM " stream_text then
    _ ← logger log_info (MsgText "Downloading docker image");
    '(_, unread) ← downloadDockerLayer stream true;
    k unread
  else k stream.

(** The world after [console.print(table)], and the world with the logger
    set to a verbosity. *)
Definition printed (w : World) (table : Table) : World :=
  mkWorld (w_verbosity w) (w_log w) (w_console w ++ [table])
          (w_prompts w) (w_stdin w).

Definition with_verbosity (v : Verbosity) (w : World) : World :=
  mkWorld v (w_log w) (w_console w) (w_prompts w) (w_stdin w).

Definition warned (w : World) (text : string) : World :=
  mkWorld (w_verbosity w) (w_log w ++ [(log_warning, MsgText text)])
          (w_console w) (w_prompts w) (w_stdin w).

(** The display key of an image or of a container. *)
Definition key_of `{SelectableInterface ExegolImage.t}
    `{SelectableInterface ExegolContainer.t} (o : Obj) : string :=
  match o with
  | OImage i => getKey i
  | OContainer c => getKey c
  | OStr s => s
  | OOther _ => ""
  end.

(** What the prompt of the selectors needs of an implementation of
    [SelectableInterface]: an object equals a string exactly when the
    string is its key. *)
Definition key_equality (T : Type) `{SelectableInterface T} : Prop :=
  ∀ (o : T) (s : string), eq_str o s = true ↔ getKey o = s.

(** A list of images only, or of containers only. *)
Definition all_images (data : list Obj) : Prop :=
  Forall (fun o => ∃ i, o = OImage i) data.

Definition all_containers (data : list Obj) : Prop :=
  Forall (fun o => ∃ c, o = OContainer c) data.

(** ** Vocabulary of the further properties *)

(** The events that change the local variables: those of the first four
    branches of the loop. *)
Definition is_tracked (line : Line) : bool :=
  is_discover line
  || PyStr.contains "Pulling from " (status_of line)
  || is_finish line
  || is_progress line.

(** The events of the first five branches: every event but those the last
    branch logs at debug level. *)
Definition is_known (line : Line) : bool :=
  is_tracked line || is_operation_complete line.

(** The local variables after one event, without the world. *)
Definition track (line : Line) (t : Tracker) : Res Tracker :=
  if is_discover line then pulling_fs_layer (l_id line) t
  else if PyStr.contains "Pulling from " (status_of line) then
    pulling_from (status_of line) line t
  else if is_finish line then layer_complete (status_of line) (l_id line) t
  else if is_progress line then
    layer_progress (status_of line) (l_id line) line t
  else Ok t.

Fixpoint tracks (stream : list Line) (t : Tracker) : Res Tracker :=
  match stream with
  | [] => Ok t
  | line :: stream' => t' ← track line t; tracks stream' t'
  end.

(** The log calls one event causes. *)
Definition line_log (line : Line) : list (LogMethod * LogMsg) :=
  if is_operation_complete line then [(log_success, MsgText (status_of line))]
  else if is_tracked line then []
  else [(log_debug, MsgLine line)].

(** The events the loop reads and those it leaves: in quick-exit mode it
    stops after the first operation-complete event. *)
Fixpoint events_read (quick_exit : bool) (stream : list Line) : list Line :=
  match stream with
  | [] => []
  | line :: stream' =>
      if quick_exit && is_operation_complete line then [line]
      else line :: events_read quick_exit stream'
  end.

Fixpoint events_unread (quick_exit : bool) (stream : list Line) : list Line :=
  match stream with
  | [] => []
  | line :: stream' =>
      if quick_exit && is_operation_complete line then stream'
      else events_unread quick_exit stream'
  end.

(** The world after some more log calls. *)
Definition logged (w : World) (entries : list (LogMethod * LogMsg)) : World :=
  mkWorld (w_verbosity w) (w_log w ++ entries)
          (w_console w) (w_prompts w) (w_stdin w).

(** The layers named by the finish events of a phase. *)
Fixpoint finished (extract : bool) (stream : list Line) : gset LayerId :=
  match stream with
  | [] => ∅
  | line :: stream' =>
      if is_finish line && bool_decide (extract = phase_of line)
      then {[l_id line]} ∪ finished extract stream'
      else finished extract stream'
  end.

(** Every row of the display is an aggregate row or the task of a layer in
    one of the two pools. *)
Definition no_orphan_rows (t : Tracker) : Prop :=
  ∀ i, is_Some (tasks (progress t) !! i) →
    i = task_layers_download t ∨ i = task_layers_extract t
    ∨ ∃ ph l, task_pool ph t !! l = Some i.

(** The cells of the row of an image and of a container (lines 153 to 156
    and 178 to 183). *)
Definition image_row (verbose_mode : bool) (image : ExegolImage.t) : list string :=
  if verbose_mode
  then [ExegolImage.getId image; ExegolImage.getName image;
        ExegolImage.getDownloadSize image; ExegolImage.getRealSize image;
        ExegolImage.getStatus image; ExegolImage.getType image]
  else [ExegolImage.getName image; ExegolImage.getSize image;
        ExegolImage.getStatus image; ExegolImage.getType image].

Definition container_row (verbose_mode debug_mode : bool)
    (container : ExegolContainer.t) : list string :=
  let cfg := ExegolContainer.config container in
  if verbose_mode
  then [ExegolContainer.getId container; ExegolContainer.name container;
        ExegolContainer.getTextStatus container;
        ExegolImage.getName (ExegolContainer.image container);
        ContainerConfig.getTextFeatures cfg;
        ContainerConfig.getTextMounts cfg debug_mode;
        ContainerConfig.getTextDevices cfg debug_mode;
        ContainerConfig.getTextEnvs cfg debug_mode]
  else [ExegolContainer.name container;
        ExegolContainer.getTextStatus container;
        ExegolImage.getName (ExegolContainer.image container);
        ContainerConfig.getTextFeatures cfg].

(** The headers of the two tables at a verbosity. *)
Definition image_columns (verbose_mode : bool) : list (option string) :=
  if verbose_mode
  then [Some "Id"; Some "Image tag"; Some "Download size"; Some "Disk size";
        Some "Status"; Some "Type"]
  else [Some "Image tag"; Some "Size"; Some "Status"; Some "Type"].

Definition container_columns (verbose_mode : bool) : list (option string) :=
  if verbose_mode
  then [Some "Id"; Some "Container tag"; Some "State"; Some "Image tag";
        Some "Configurations"; Some "Mounts"; Some "Devices"; Some "Envs"]
  else [Some "Container tag"; Some "State"; Some "Image tag";
        Some "Configurations"].

(** The world after [selectFromList] has shown its table and asked. *)
Definition asked (w : World) (items : list string) (subject title : Arg string)
    (default_value : string) (rest : list string) : World :=
  mkWorld (w_verbosity w) (w_log w)
    (w_console w ++
       [mkTable None [Some (arg_or title "Options")] (map (fun x => [x]) items)])
    (w_prompts w ++
       [mkPromptCall ("[blue][?][/blue] Select " +:+ arg_or subject "an option")
                     default_value items])
    rest.

(** The layers in progress in a phase after some events, from those in
    progress before them: a progress event of the phase puts its layer in,
    a finish event of the phase takes it out. *)
Fixpoint in_progress_from (extract : bool) (before : gset LayerId)
    (stream : list Line) : gset LayerId :=
  match stream with
  | [] => before
  | line :: stream' =>
      in_progress_from extract
        (if is_finish line && bool_decide (extract = phase_of line)
         then before ∖ {[l_id line]}
         else if is_progress line && bool_decide (extract = phase_of line)
              then {[l_id line]} ∪ before
              else before)
        stream'
  end.

(** ** Sample data

    An implementation of [SelectableInterface] that takes the name as key,
    and the streams, records and worlds at which the properties below are
    instantiated. *)

Definition image_by_name : SelectableInterface ExegolImage.t :=
  {| getKey := ExegolImage.getName;
     eq_str := fun i s => String.eqb (ExegolImage.getName i) s |}.

Definition container_by_name : SelectableInterface ExegolContainer.t :=
  {| getKey := ExegolContainer.name;
     eq_str := fun c s => String.eqb (ExegolContainer.name c) s |}.

Definition sample_world : World := mkWorld Normal [] [] [] [].

Definition pull_event (status : string) (lid : LayerId) : Line :=
  mkLine (Some status) lid None None.

Definition build_event (text : string) : Line :=
  mkLine None None None (Some text).

Definition sample_pull : list Line :=
  [pull_event "Pulling from library/ubuntu" (Some "focal");
   pull_event "Pulling fs layer" (Some "a");
   pull_event "Downloading" (Some "a");
   pull_event "Download complete" (Some "a");
   pull_event "Extracting" (Some "a");
   pull_event "Pull complete" (Some "a")].

Definition sample_stable : ExegolImage.t :=
  ExegolImage.mk "1a2b" "stable" "5GB" "12GB" "12GB" "Up to date" "remote".

Definition sample_dev : ExegolImage.t :=
  ExegolImage.mk "3c4d" "dev" "6GB" "14GB" "6GB" "Not installed" "remote".

(** * Properties *)

(** ** The display *)

Section Display.

Implicit Types (p : ExegolProgress.t) (i j : nat) (r : Task).

Lemma getTask_Some p i r : tasks p !! i = Some r → getTask i p = Ok r.
Proof. unfold getTask. by intros ->. Qed.

Lemma update_Some p i r a b :
  tasks p !! i = Some r →
  update i a b p =
    Ok (setTask i (mkTask (description r) (default (total r) a)
                          (default (completed r) b) (started r) (layer r)) p).
Proof. intros H. unfold update. by rewrite (getTask_Some _ _ _ H). Qed.

Lemma set_description_Some p i r text :
  tasks p !! i = Some r →
  set_description i text p =
    Ok (setTask i (mkTask text (total r) (completed r) (started r) (layer r)) p).
Proof. intros H. unfold set_description. by rewrite (getTask_Some _ _ _ H). Qed.

Lemma start_task_Some p i r :
  tasks p !! i = Some r →
  start_task i p =
    Ok (setTask i (mkTask (description r) (total r) (completed r) true (layer r)) p).
Proof. intros H. unfold start_task. by rewrite (getTask_Some _ _ _ H). Qed.

Lemma remove_task_Some p i r :
  tasks p !! i = Some r →
  remove_task i p = Ok (mkProgress (delete i (tasks p)) (task_index p)).
Proof. intros H. unfold remove_task. by rewrite (getTask_Some _ _ _ H). Qed.

Lemma setTask_lookup p i j r :
  tasks (setTask i r p) !! j = if decide (i = j) then Some r else tasks p !! j.
Proof. unfold setTask; simpl. apply lookup_insert. Qed.

Lemma setTask_is_Some p i j r :
  is_Some (tasks p !! i) →
  is_Some (tasks (setTask i r p) !! j) ↔ is_Some (tasks p !! j).
Proof.
  intros Hi. rewrite setTask_lookup. case_decide; subst; naive_solver.
Qed.

End Display.

(** ** The loop of downloadDockerLayer keeps the display well formed *)

Section Shape.

Implicit Types (t : Tracker) (lid : LayerId) (ph : bool) (i : nat) (r : Task).

Lemma initial_wf : tracker_wf initial.
Proof.
  split; [split|]; simpl.
  - done.
  - intros [|]; by eexists.
  - intros i [r Hi]. unfold initial in Hi; simpl in Hi.
    destruct (decide (i = 1%nat)) as [->|]; [lia|].
    rewrite lookup_insert_ne in Hi by done.
    destruct (decide (i = 0%nat)) as [->|]; [lia|].
    by rewrite lookup_insert_ne in Hi.
  - intros [|] l i Hi; simpl in Hi; by rewrite lookup_empty in Hi.
  - intros [|] ph2 l1 l2 i Hi; simpl in Hi; by rewrite lookup_empty in Hi.
  - intros [|]; eexists; (split; [reflexivity | done]).
Qed.

(** The shape does not depend on the three sets. *)
Lemma shape_ext t t' :
  tracker_shape t →
  downloading t' = downloading t → extracting t' = extracting t →
  progress t' = progress t →
  task_layers_download t' = task_layers_download t →
  task_layers_extract t' = task_layers_extract t →
  tracker_shape t'.
Proof.
  intros [Sa Sb Sc Sd Se] Hd He Hp Hid Hie.
  split; unfold phase_row, extract_row, download_row, task_pool in *;
    rewrite ?Hd, ?He, ?Hp, ?Hid, ?Hie; done.
Qed.

(** Writing a row that exists keeps the shape. *)
Lemma shape_setTask t i r :
  tracker_shape t → is_Some (tasks (progress t) !! i) →
  tracker_shape (with_progress t (setTask i r (progress t))).
Proof.
  intros [Sa Sb Sc Sd Se] Hi. split; simpl; try done.
  - intros ph. specialize (Sb ph).
    destruct ph; unfold phase_row, extract_row, download_row in *; simpl;
      by apply setTask_is_Some.
  - intros j Hj. apply Sc. by apply (setTask_is_Some _ i j r).
  - intros ph l j Hj. destruct (Sd ph l j) as (? & ? & ?); [by destruct ph|].
    split; [|done]. by apply setTask_is_Some.
Qed.

(** Removing a task of a pool from the pool and from the display keeps the
    shape. *)
Lemma shape_remove t ph lid i :
  tracker_shape t → task_pool ph t !! lid = Some i →
  tracker_shape
    (mkTracker (layers t) (layers_downloaded t) (layers_extracted t)
       (if ph then downloading t else delete lid (downloading t))
       (if ph then delete lid (extracting t) else extracting t)
       (mkProgress (delete i (tasks (progress t))) (task_index (progress t)))
       (task_layers_download t) (task_layers_extract t)).
Proof.
  intros [Sa Sb Sc Sd Se] Hi.
  destruct (Sd ph lid i Hi) as (His & Hnd & Hne).
  assert (Hsub : ∀ ph' l j,
    task_pool ph' (mkTracker (layers t) (layers_downloaded t) (layers_extracted t)
       (if ph then downloading t else delete lid (downloading t))
       (if ph then delete lid (extracting t) else extracting t)
       (mkProgress (delete i (tasks (progress t))) (task_index (progress t)))
       (task_layers_download t) (task_layers_extract t)) !! l = Some j →
    task_pool ph' t !! l = Some j ∧ j ≠ i).
  { intros ph' l j Hj.
    assert (Hold : task_pool ph' t !! l = Some j ∧ (ph' = ph → l ≠ lid)).
    { destruct ph, ph'; simpl in *; try (split; [done | congruence]).
      - apply lookup_delete_Some in Hj as [Hx Hy]. split; [done | by intros _ ->].
      - apply lookup_delete_Some in Hj as [Hx Hy]. split; [done | by intros _ ->]. }
    destruct Hold as [Hold Hneq]. split; [done|].
    intros ->. destruct (Se ph' ph l lid i Hold Hi) as [-> ->]. by apply Hneq. }
  split; simpl; try done.
  - intros ph'. specialize (Sb ph').
    destruct ph'; unfold phase_row, extract_row, download_row in *; simpl in *;
      by rewrite lookup_delete_ne.
  - intros j [r Hj]. apply Sc. apply lookup_delete_Some in Hj as [_ Hj]. eauto.
  - intros ph' l j Hj. apply Hsub in Hj as [Hj Hji].
    destruct (Sd ph' l j Hj) as (? & ? & ?).
    split; [|done]. by rewrite lookup_delete_ne.
  - intros ph1 ph2 l1 l2 j Ha Hb.
    apply Hsub in Ha as [Ha _]. apply Hsub in Hb as [Hb _]. eauto.
Qed.

(** Adding a row for a layer that has no task in a pool, and recording it
    there, keeps the shape. *)
Lemma shape_add t ph lid r :
  tracker_shape t → task_pool ph t !! lid = None →
  tracker_shape
    (mkTracker (layers t) (layers_downloaded t) (layers_extracted t)
       (if ph then downloading t
        else <[lid := task_index (progress t)]> (downloading t))
       (if ph then <[lid := task_index (progress t)]> (extracting t)
        else extracting t)
       (mkProgress (<[task_index (progress t) := r]> (tasks (progress t)))
                   (S (task_index (progress t))))
       (task_layers_download t) (task_layers_extract t)).
Proof.
  intros [Sa Sb Sc Sd Se] Hnone.
  set (n := task_index (progress t)).
  assert (Hfresh : tasks (progress t) !! n = None).
  { destruct (tasks (progress t) !! n) eqn:E; [|done].
    assert (n < n)%nat by (apply Sc; eauto). lia. }
  assert (Hsub : ∀ ph' l j,
    task_pool ph' (mkTracker (layers t) (layers_downloaded t) (layers_extracted t)
       (if ph then downloading t else <[lid := n]> (downloading t))
       (if ph then <[lid := n]> (extracting t) else extracting t)
       (mkProgress (<[n := r]> (tasks (progress t))) (S n))
       (task_layers_download t) (task_layers_extract t)) !! l = Some j →
    (ph' = ph ∧ l = lid ∧ j = n) ∨ (task_pool ph' t !! l = Some j ∧ j ≠ n)).
  { intros ph' l j Hj.
    assert (Hold : (ph' = ph ∧ l = lid ∧ j = n) ∨ task_pool ph' t !! l = Some j).
    { destruct ph, ph'; simpl in *; try (by right).
      - apply lookup_insert_Some in Hj as [[Hx Hy]|[Hx Hy]]; [by left | by right].
      - apply lookup_insert_Some in Hj as [[Hx Hy]|[Hx Hy]]; [by left | by right]. }
    destruct Hold as [?|Hold]; [by left|right]. split; [done|].
    intros ->. destruct (Sd ph' l n Hold) as ([? ?] & _). congruence. }
  assert (Hrow : ∀ ph', n ≠ (if ph' then task_layers_extract t else task_layers_download t)).
  { intros ph' ->. destruct (Sb ph') as [? Hr].
    destruct ph'; unfold phase_row, extract_row, download_row in Hr; congruence. }
  split; simpl; try done.
  - intros ph'. specialize (Sb ph'). specialize (Hrow ph').
    destruct ph'; unfold phase_row, extract_row, download_row in *; simpl in *;
      by rewrite lookup_insert_ne.
  - intros j [r' Hj]. apply lookup_insert_Some in Hj as [[<- _]|[_ Hj]]; [lia|].
    assert (j < n)%nat by (apply Sc; eauto). lia.
  - intros ph' l j Hj. apply Hsub in Hj as [(-> & -> & ->)|[Hj Hjn]].
    + rewrite lookup_insert_eq. split; [by eexists|].
      split; [apply (Hrow false) | apply (Hrow true)].
    + destruct (Sd ph' l j Hj) as (? & ? & ?).
      split; [|done]. by rewrite lookup_insert_ne.
  - intros ph1 ph2 l1 l2 j Ha Hb.
    apply Hsub in Ha as [(-> & -> & ->)|[Ha Han]];
      apply Hsub in Hb as [(-> & -> & Hbn)|[Hb Hbn]]; try done.
    eauto.
Qed.

End Shape.

Section Branches.

Implicit Types (t : Tracker) (line : Line) (lid : LayerId) (ph : bool).

Local Ltac shape_from H := eapply shape_ext; [exact H | reflexivity ..].

(** The aggregate rows of a well-formed state, by name. *)
Lemma wf_two_rows t :
  tracker_wf t →
  ∃ rd re,
    tasks (progress t) !! task_layers_download t = Some rd
    ∧ tasks (progress t) !! task_layers_extract t = Some re
    ∧ total rd = Z.of_nat (size (layers t))
    ∧ total re = Z.of_nat (size (layers t))
    ∧ completed rd = Z.of_nat (size (layers_downloaded t))
    ∧ completed re = Z.of_nat (size (layers_extracted t)).
Proof.
  intros [_ Hrows].
  destruct (Hrows false) as (rd & Hd & ? & ?).
  destruct (Hrows true) as (re & He & ? & ?).
  by exists rd, re.
Qed.

(** Writing both aggregate rows keeps the shape. *)
Lemma shape_set_rows t rd re :
  tracker_shape t →
  tracker_shape
    (with_progress t
       (setTask (task_layers_extract t) re
          (setTask (task_layers_download t) rd (progress t)))).
Proof.
  intros Hsh.
  pose proof (sh_rows t Hsh false) as Hd. pose proof (sh_rows t Hsh true) as He.
  unfold phase_row, download_row, extract_row in Hd, He.
  pose proof (shape_setTask t (task_layers_download t) rd Hsh Hd) as H1.
  eapply (shape_setTask _ (task_layers_extract t) re) in H1.
  - shape_from H1.
  - simpl. by apply setTask_is_Some.
Qed.

Lemma pulling_fs_layer_ok t lid :
  tracker_wf t →
  ∃ t', pulling_fs_layer lid t = Ok t'
        ∧ tracker_wf t'
        ∧ layers t' = {[lid]} ∪ layers t
        ∧ (∀ ph, layer_pool ph t' = layer_pool ph t)
        ∧ (∀ ph, task_pool ph t' = task_pool ph t)
        ∧ started <$> extract_row t' = started <$> extract_row t.
Proof.
  intros Hwf.
  destruct (wf_two_rows t Hwf) as (rd & re & Hd & He & Htd & Hte & Hcd & Hce).
  pose proof (sh_rows_distinct t (proj1 Hwf)) as Hne.
  unfold pulling_fs_layer.
  rewrite (update_Some _ _ _ _ _ Hd); simpl.
  erewrite update_Some; last first.
  { rewrite setTask_lookup. rewrite decide_False by done. exact He. }
  simpl. eexists; split; [reflexivity|].
  split; [split|split; [done|split; [by intros [|]|split; [by intros [|]|]]]].
  - pose proof (shape_set_rows t
      (mkTask (description rd) (Z.of_nat (size ({[lid]} ∪ layers t)))
              (completed rd) (started rd) (layer rd))
      (mkTask (description re) (Z.of_nat (size ({[lid]} ∪ layers t)))
              (completed re) (started re) (layer re)) (proj1 Hwf)) as Hs.
    shape_from Hs.
  - intros [|]; unfold phase_row, extract_row, download_row; simpl.
    + rewrite lookup_insert_eq. eexists; split; [done|]. by simpl.
    + rewrite lookup_insert_ne by done. rewrite lookup_insert_eq.
      eexists; split; [done|]. by simpl.
  - unfold extract_row; simpl. rewrite lookup_insert_eq. simpl. by rewrite He.
Qed.

Lemma pulling_from_ok t status line :
  tracker_wf t →
  ∃ t', pulling_from status line t = Ok t'
        ∧ tracker_wf t'
        ∧ layers t' = layers t
        ∧ (∀ ph, layer_pool ph t' = layer_pool ph t)
        ∧ (∀ ph, task_pool ph t' = task_pool ph t)
        ∧ started <$> extract_row t' = started <$> extract_row t.
Proof.
  intros Hwf.
  destruct (wf_two_rows t Hwf) as (rd & re & Hd & He & Htd & Hte & Hcd & Hce).
  pose proof (sh_rows_distinct t (proj1 Hwf)) as Hne.
  unfold pulling_from.
  rewrite (set_description_Some _ _ _ _ Hd); simpl.
  erewrite set_description_Some; last first.
  { rewrite setTask_lookup. rewrite decide_False by done. exact He. }
  simpl. eexists; split; [reflexivity|].
  split; [split|split; [done|split; [by intros [|]|split; [by intros [|]|]]]].
  - apply shape_set_rows, Hwf.
  - intros [|]; unfold phase_row, extract_row, download_row; simpl.
    + rewrite lookup_insert_eq. eexists; split; [done|]. by simpl.
    + rewrite lookup_insert_ne by done. rewrite lookup_insert_eq.
      eexists; split; [done|]. by simpl.
  - unfold extract_row; simpl. rewrite lookup_insert_eq. simpl. by rewrite He.
Qed.

(** Writing the completed counts of both aggregate rows, from a state of
    the right shape whose rows show the right totals. *)
Lemma wf_set_completed (m : Tracker) (LD LE : gset LayerId) rd re :
  tracker_shape m →
  tasks (progress m) !! task_layers_download m = Some rd →
  tasks (progress m) !! task_layers_extract m = Some re →
  total rd = Z.of_nat (size (layers m)) →
  total re = Z.of_nat (size (layers m)) →
  tracker_wf
    (mkTracker (layers m) LD LE (downloading m) (extracting m)
       (setTask (task_layers_extract m)
          (mkTask (description re) (total re) (Z.of_nat (size LE))
                  (started re) (layer re))
          (setTask (task_layers_download m)
             (mkTask (description rd) (total rd) (Z.of_nat (size LD))
                     (started rd) (layer rd))
             (progress m)))
       (task_layers_download m) (task_layers_extract m)).
Proof.
  intros Hsh Hd He Htd Hte.
  pose proof (sh_rows_distinct m Hsh) as Hne.
  split.
  - pose proof (shape_set_rows m
      (mkTask (description rd) (total rd) (Z.of_nat (size LD)) (started rd) (layer rd))
      (mkTask (description re) (total re) (Z.of_nat (size LE)) (started re) (layer re))
      Hsh) as Hs.
    shape_from Hs.
  - intros [|]; unfold phase_row, extract_row, download_row; simpl.
    + rewrite lookup_insert_eq. eexists; split; [done|]. by simpl.
    + rewrite lookup_insert_ne by done. rewrite lookup_insert_eq.
      eexists; split; [done|]. by simpl.
Qed.

Lemma layer_complete_ok (t : Tracker) status (lid : LayerId) :
  tracker_wf t →
  let ph := String.eqb status "Pull complete" in
  ∃ t', layer_complete status lid t = Ok t'
        ∧ tracker_wf t'
        ∧ layers t' = layers t
        ∧ layer_pool ph t' = {[lid]} ∪ layer_pool ph t
        ∧ layer_pool (negb ph) t' = layer_pool (negb ph) t
        ∧ task_pool ph t' = delete lid (task_pool ph t)
        ∧ task_pool (negb ph) t' = task_pool (negb ph) t
        ∧ started <$> extract_row t' = started <$> extract_row t
        ∧ (∀ i, task_pool ph t !! lid = Some i → tasks (progress t') !! i = None)
        ∧ (∀ ph', total <$> phase_row ph' t' = total <$> phase_row ph' t).
Proof.
  intros Hwf ph.
  destruct (wf_two_rows t Hwf) as (rd & re & Hd & He & Htd & Hte & Hcd & Hce).
  destruct Hwf as [Hsh _].
  pose proof (sh_rows_distinct t Hsh) as Hne.
  unfold layer_complete. fold ph.
  change (if ph then extracting t else downloading t) with (task_pool ph t).
  destruct (task_pool ph t !! lid) as [i|] eqn:Hl.
  - destruct (sh_pool t Hsh ph lid i Hl) as ([r Hi] & Hid & Hie).
    rewrite (remove_task_Some _ _ _ Hi). simpl.
    erewrite update_Some; last by (simpl; rewrite lookup_delete_ne by done; exact Hd).
    simpl.
    erewrite update_Some; last first.
    { rewrite setTask_lookup, decide_False by done. simpl.
      rewrite lookup_delete_ne by done. exact He. }
    simpl. eexists; split; [reflexivity|].
    pose proof (shape_remove t ph lid i Hsh Hl) as Hs.
    split.
    { clearbody ph. destruct ph;
        (eapply (wf_set_completed _ _ _ rd re Hs); simpl;
         [by rewrite lookup_delete_ne | by rewrite lookup_delete_ne | done | done]). }
    clearbody ph.
    unfold extract_row, phase_row, download_row, extract_row.
    destruct ph; simpl; rewrite ?lookup_insert_eq; simpl in *;
      (repeat split; try done;
       [ by rewrite ?lookup_insert_ne, ?lookup_insert_eq, ?He by done
       | intros ? [= <-]; by rewrite !lookup_insert_ne, lookup_delete_eq by done
       | intros [|]; rewrite ?lookup_insert_ne, ?lookup_insert_eq by done; simpl;
           by rewrite ?lookup_delete_ne, ?Hd, ?He by done ]).
  - simpl.
    erewrite update_Some; last exact Hd.
    simpl.
    erewrite update_Some; last first.
    { rewrite setTask_lookup, decide_False by done. exact He. }
    simpl. eexists; split; [reflexivity|].
    split.
    { clearbody ph. destruct ph;
        (eapply (wf_set_completed t _ _ rd re Hsh); simpl; done). }
    clearbody ph.
    unfold extract_row, phase_row, download_row, extract_row.
    destruct ph; simpl; rewrite ?lookup_insert_eq; simpl in *;
      (repeat split; try done;
       [ by rewrite delete_id
       | by rewrite ?lookup_insert_ne, ?lookup_insert_eq, ?He by done
       | intros [|]; rewrite ?lookup_insert_ne, ?lookup_insert_eq by done; simpl;
           by rewrite ?Hd, ?He by done ]).
Qed.

(** The counters survive a change that leaves the sets alone and keeps the
    total and the completed count of both aggregate rows. *)
Lemma rows_kept (t t' : Tracker) :
  rows_show_sets t →
  layers t' = layers t →
  (∀ ph, layer_pool ph t' = layer_pool ph t) →
  (∀ ph, (λ r, (total r, completed r)) <$> phase_row ph t'
         = (λ r, (total r, completed r)) <$> phase_row ph t) →
  rows_show_sets t'.
Proof.
  intros Hrows HL HP Hk ph.
  destruct (Hrows ph) as (row & Hrow & Ht & Hc).
  specialize (Hk ph). rewrite Hrow in Hk. simpl in Hk.
  destruct (phase_row ph t') as [row'|]; [|done].
  simpl in Hk. injection Hk as Ht' Hc'.
  exists row'. rewrite HL, HP. split; [done|]. split; congruence.
Qed.

(** Lines 73 to 76: the extract row is started by the first ["Extracting"]
    event. *)
Lemma start_extract_ok (t : Tracker) (ph : bool) re :
  tasks (progress t) !! task_layers_extract t = Some re →
  ∃ re',
    (if ph then
       task ← getTask (task_layers_extract t) (progress t);
       if negb (started task) then start_task (task_layers_extract t) (progress t)
       else Ok (progress t)
     else Ok (progress t))
    = Ok (setTask (task_layers_extract t) re' (progress t))
    ∧ total re' = total re ∧ completed re' = completed re
    ∧ started re' = ph || started re.
Proof.
  intros He.
  assert (Hid : progress t = setTask (task_layers_extract t) re (progress t)).
  { unfold setTask. rewrite insert_id by done. by destruct (progress t). }
  destruct ph; simpl.
  - rewrite (getTask_Some _ _ _ He). simpl.
    destruct (started re) eqn:Hst; simpl.
    + exists re. by rewrite <- Hid.
    + rewrite (start_task_Some _ _ _ He). by eexists.
  - exists re. by rewrite <- Hid.
Qed.

Lemma layer_progress_ok (t : Tracker) status (lid : LayerId) line :
  tracker_wf t →
  let ph := String.eqb status "Extracting" in
  ∃ t' i r,
    layer_progress status lid line t = Ok t'
    ∧ tracker_wf t'
    ∧ layers t' = layers t
    ∧ (∀ ph', layer_pool ph' t' = layer_pool ph' t)
    ∧ task_pool ph t' = <[lid := i]> (task_pool ph t)
    ∧ task_pool (negb ph) t' = task_pool (negb ph) t
    ∧ tasks (progress t') !! i = Some r
    ∧ completed r = progressDetail_get line pd_current
    ∧ (task_pool ph t !! lid = None →
         i = task_index (progress t) ∧ tasks (progress t) !! i = None
         ∧ total r = progressDetail_get line pd_total ∧ layer r = Some lid)
    ∧ (∀ j, task_pool ph t !! lid = Some j → i = j)
    ∧ started <$> extract_row t' = (λ row, ph || started row) <$> extract_row t.
Proof.
  intros Hwf ph.
  destruct (wf_two_rows t Hwf) as (rd & re & Hd & He & Htd & Hte & Hcd & Hce).
  destruct Hwf as [Hsh Hrows].
  pose proof (sh_rows_distinct t Hsh) as Hne.
  destruct (start_extract_ok t ph re He) as (re' & Hstart & Hte' & Hce' & Hst').
  unfold layer_progress. fold ph. rewrite Hstart. simpl.
  change (if ph then extracting t else downloading t) with (task_pool ph t).
  pose proof (shape_setTask t (task_layers_extract t) re' Hsh (mk_is_Some _ _ He)) as Hs1.
  destruct (task_pool ph t !! lid) as [j|] eqn:Hl.
  - destruct (sh_pool t Hsh ph lid j Hl) as ([rj Hj] & Hjd & Hje).
    simpl.
    erewrite update_Some; last first.
    { rewrite setTask_lookup, decide_False by done. exact Hj. }
    simpl. eexists _, j, _. split; [reflexivity|].
    assert (Hpool : (if ph then downloading t else task_pool ph t) = downloading t
                    ∧ (if ph then task_pool ph t else extracting t) = extracting t)
      by (by destruct ph).
    destruct Hpool as [-> ->].
    split.
    { split.
      - eapply (shape_setTask _ j) in Hs1.
        + shape_from Hs1.
        + simpl. apply setTask_is_Some; by eexists.
      - apply (rows_kept t); [done..|].
        intros [|]; unfold phase_row, extract_row, download_row; simpl.
        + rewrite lookup_insert_ne, lookup_insert_eq, He by done. simpl. congruence.
        + by rewrite !lookup_insert_ne, Hd by done. }
    split; [done|]. split; [by intros [|]|].
    split; [by rewrite insert_id|]. split; [by destruct ph|].
    simpl. rewrite lookup_insert_eq. split; [done|]. split; [done|].
    split; [done|]. split; [by intros ? [= <-]|].
    unfold extract_row; simpl.
    rewrite lookup_insert_ne, lookup_insert_eq, He by done. simpl. by rewrite Hst'.
  - simpl.
    erewrite update_Some; last first.
    { simpl. apply lookup_insert_eq. }
    simpl. eexists _, (task_index (progress t)), _. split; [reflexivity|].
    pose proof (shape_add _ ph lid
      (mkTask ("[" +:+ (if String.eqb status "Downloading" then "blue" else "green")
                   +:+ "]" +:+ status +:+ " " +:+ PyStr.str_of_opt lid)
              (progressDetail_get line pd_total) 0 true (Some lid)) Hs1) as Hs2.
    simpl in Hs2. specialize (Hs2 ltac:(by destruct ph)).
    assert (Hfresh : tasks (progress t) !! task_index (progress t) = None).
    { destruct (tasks (progress t) !! task_index (progress t)) eqn:E; [|done].
      assert (task_index (progress t) < task_index (progress t))%nat
        by (apply (sh_bound t Hsh); eauto). lia. }
    assert (Hnd : task_index (progress t) ≠ task_layers_download t) by congruence.
    assert (Hnx : task_index (progress t) ≠ task_layers_extract t) by congruence.
    split.
    { split.
      - eapply (shape_setTask _ (task_index (progress t))) in Hs2.
        + clearbody ph. destruct ph; shape_from Hs2.
        + simpl. rewrite lookup_insert_eq. by eexists.
      - apply (rows_kept t); [done..|].
        intros [|]; unfold phase_row, extract_row, download_row; simpl.
        + rewrite !lookup_insert_ne, lookup_insert_eq, He by done. simpl. congruence.
        + by rewrite !lookup_insert_ne, Hd by done. }
    split; [done|]. split; [by intros [|]|].
    split; [by destruct ph|]. split; [by destruct ph|].
    simpl. rewrite lookup_insert_eq. split; [done|]. split; [done|].
    split; [done|]. split; [done|].
    unfold extract_row; simpl.
    rewrite !lookup_insert_ne, lookup_insert_eq, He by done. simpl. by rewrite Hst'.
Qed.

End Branches.

(** ** One iteration of the loop *)

Section LoopBody.

Implicit Types (t : Tracker) (line : Line) (w : World) (q : bool).

(** The branch taken by each kind of event. *)
Lemma loop_body_discover line q t w :
  is_discover line = true →
  loop_body line q t w =
    (t' ← lift (pulling_fs_layer (l_id line) t); mret (t', false)) w.
Proof.
  unfold is_discover, loop_body, status_of. by intros ->.
Qed.

Lemma loop_body_finish line q t w :
  is_finish line = true →
  loop_body line q t w =
    (t' ← lift (layer_complete (status_of line) (l_id line) t); mret (t', false)) w.
Proof.
  unfold is_finish, loop_body, status_of.
  intros [H|H]%orb_true_iff; apply String.eqb_eq in H; by rewrite H.
Qed.

Lemma loop_body_progress line q t w :
  is_progress line = true →
  loop_body line q t w =
    (t' ← lift (layer_progress (status_of line) (l_id line) line t); mret (t', false)) w.
Proof.
  unfold is_progress, loop_body, status_of.
  intros [H|H]%orb_true_iff; apply String.eqb_eq in H; by rewrite H.
Qed.

Lemma loop_body_operation_complete line q t w :
  is_operation_complete line = true →
  loop_body line q t w =
    (Ok (t, q),
     mkWorld (w_verbosity w) (w_log w ++ [(log_success, MsgText (status_of line))])
             (w_console w) (w_prompts w) (w_stdin w)).
Proof.
  unfold is_operation_complete, loop_body, status_of.
  intros [Hpf Hoc]%andb_true_iff. apply negb_true_iff in Hpf.
  destruct (String.eqb_spec (default "" (l_status line)) "Pulling fs layer") as [E|_];
    [by rewrite E in Hoc|].
  rewrite Hpf.
  destruct (String.eqb_spec (default "" (l_status line)) "Download complete") as [E|_];
    [by rewrite E in Hoc|].
  destruct (String.eqb_spec (default "" (l_status line)) "Pull complete") as [E|_];
    [by rewrite E in Hoc|].
  destruct (String.eqb_spec (default "" (l_status line)) "Downloading") as [E|_];
    [by rewrite E in Hoc|].
  destruct (String.eqb_spec (default "" (l_status line)) "Extracting") as [E|_];
    [by rewrite E in Hoc|].
  simpl. by rewrite Hoc.
Qed.

(** An iteration from a well-formed state raises nothing, ends in a
    well-formed state, and changes the sets and the started flag of the
    extract row as the kind of its event says. It ends in [break] exactly
    in quick-exit mode on an operation-complete event. *)
Lemma loop_body_ok line q t w :
  tracker_wf t →
  ∃ t' w',
    loop_body line q t w = (Ok (t', q && is_operation_complete line), w')
    ∧ tracker_wf t'
    ∧ layers t' = (if is_discover line then {[l_id line]} ∪ layers t else layers t)
    ∧ (∀ ph, layer_pool ph t' =
             if is_finish line && bool_decide (ph = phase_of line)
             then {[l_id line]} ∪ layer_pool ph t else layer_pool ph t)
    ∧ started <$> extract_row t' =
        (λ row, is_extracting line || started row) <$> extract_row t.
Proof.
  intros Hwf.
  destruct (is_discover line) eqn:Hdis.
  { rewrite loop_body_discover by done.
    destruct (pulling_fs_layer_ok t (l_id line) Hwf) as (t' & -> & Hwf' & HL & HP & _ & Hst).
    unfold is_discover in Hdis. apply String.eqb_eq in Hdis.
    unfold is_operation_complete, is_finish, is_extracting. rewrite Hdis. simpl.
    exists t', w. rewrite andb_false_r. split_and!; try done; rewrite ?Hst; by destruct (extract_row t). }
  destruct (PyStr.contains "Pulling from " (status_of line)) eqn:Hpf.
  { unfold loop_body. fold (status_of line). unfold is_discover in Hdis.
    rewrite Hdis, Hpf.
    destruct (pulling_from_ok t (status_of line) line Hwf)
      as (t' & Hrun & Hwf' & HL & HP & _ & Hst).
    unfold mbind, M_bind, bind, lift. rewrite Hrun. simpl.
    assert (Hno : is_finish line = false ∧ is_extracting line = false).
    { unfold is_finish, is_extracting.
      destruct (String.eqb_spec (status_of line) "Download complete") as [E|_];
        [by rewrite E in Hpf|].
      destruct (String.eqb_spec (status_of line) "Pull complete") as [E|_];
        [by rewrite E in Hpf|].
      destruct (String.eqb_spec (status_of line) "Extracting") as [E|_];
        [by rewrite E in Hpf|].
      done. }
    destruct Hno as [Hnf Hne].
    unfold is_operation_complete. rewrite Hpf, Hnf, Hne. simpl.
    exists t', w. rewrite andb_false_r. split_and!; try done; rewrite ?Hst; by destruct (extract_row t). }
  destruct (is_finish line) eqn:Hfin.
  { rewrite loop_body_finish by done.
    assert (Hph : String.eqb (status_of line) "Pull complete" = phase_of line
                  ∧ is_extracting line = false
                  ∧ is_operation_complete line = false).
    { unfold is_finish in Hfin. unfold phase_of, is_extracting, is_operation_complete.
      apply orb_true_iff in Hfin as [E|E]; apply String.eqb_eq in E; by rewrite E. }
    destruct Hph as (Hph & Hne & Hoc).
    destruct (layer_complete_ok t (status_of line) (l_id line) Hwf)
      as (t' & Hrun & Hwf' & HL & HP1 & HP2 & _ & _ & Hst & _).
    rewrite Hph in HP1, HP2.
    unfold mbind, M_bind, bind, lift. rewrite Hrun. simpl.
    exists t', w. rewrite Hoc, Hne, andb_false_r.
    split_and!; try done; rewrite ?Hst; try by destruct (extract_row t).
    intros ph. case_bool_decide as Hc; [by subst|].
      replace ph with (negb (phase_of line)); [done|].
      destruct ph, (phase_of line); simpl; congruence. }
  destruct (is_progress line) eqn:Hpro.
  { rewrite loop_body_progress by done.
    assert (Hph : String.eqb (status_of line) "Extracting" = is_extracting line
                  ∧ is_operation_complete line = false).
    { unfold is_progress in Hpro. unfold is_extracting, is_operation_complete.
      apply orb_true_iff in Hpro as [E|E]; apply String.eqb_eq in E; by rewrite E. }
    destruct Hph as (Hph & Hoc).
    destruct (layer_progress_ok t (status_of line) (l_id line) line Hwf)
      as (t' & i & r & Hrun & Hwf' & HL & HP & _ & _ & _ & _ & _ & _ & Hst).
    rewrite Hph in Hst.
    unfold mbind, M_bind, bind, lift. rewrite Hrun. simpl.
    exists t', w. rewrite Hoc, andb_false_r. split_and!; done. }
  assert (Hne : is_extracting line = false).
  { unfold is_progress in Hpro. unfold is_extracting.
    by apply orb_false_iff in Hpro as [_ ->]. }
  destruct (is_operation_complete line) eqn:Hoc.
  { rewrite loop_body_operation_complete by done.
    eexists t, _. rewrite andb_true_r, Hne.
    split_and!; try done; by destruct (extract_row t). }
  unfold loop_body. fold (status_of line).
  unfold is_discover in Hdis. unfold is_finish in Hfin. unfold is_progress in Hpro.
  unfold is_operation_complete in Hoc. rewrite Hpf in Hoc. simpl in Hoc.
  rewrite Hdis, Hpf, Hfin, Hpro, Hoc.
  eexists t, _. rewrite andb_false_r, Hne.
  split_and!; try done; by destruct (extract_row t).
Qed.

End LoopBody.

(** ** The whole loop *)

Section Loop.

Implicit Types (t : Tracker) (line : Line) (w : World) (q : bool)
  (stream : list Line).

Lemma for_line_in_cons line stream q t w t' w' :
  loop_body line q t w = (Ok (t', q && is_operation_complete line), w') →
  for_line_in (line :: stream) q t w =
    if q && is_operation_complete line then (Ok (t', stream), w')
    else for_line_in stream q t' w'.
Proof.
  intros H. simpl. unfold mbind, M_bind, bind. rewrite H.
  by destruct (q && is_operation_complete line).
Qed.

Lemma valid_from_app seen stream stream' :
  valid_from seen (stream ++ stream') = true → valid_from seen stream = true.
Proof.
  revert seen. induction stream as [|line stream IH]; intros seen; [done|].
  simpl. destruct (is_discover line); [apply IH|].
  destruct (is_finish line); [|apply IH].
  intros [? ?]%andb_true_iff. apply andb_true_iff. eauto.
Qed.

(** A valid event keeps the finished layers among the discovered ones. *)
Lemma subset_step line stream t t' :
  layers t' = (if is_discover line then {[l_id line]} ∪ layers t else layers t) →
  (∀ ph, layer_pool ph t' =
         if is_finish line && bool_decide (ph = phase_of line)
         then {[l_id line]} ∪ layer_pool ph t else layer_pool ph t) →
  (∀ ph, layer_pool ph t ⊆ layers t) →
  valid_from (layers t) (line :: stream) = true →
  (∀ ph, layer_pool ph t' ⊆ layers t') ∧ valid_from (layers t') stream = true.
Proof.
  intros HL HP Hsub Hval. simpl in Hval.
  assert (Hex : is_discover line = true → is_finish line = false).
  { unfold is_discover, is_finish. intros E%String.eqb_eq. by rewrite E. }
  destruct (is_discover line).
  - rewrite Hex in HP by done. simpl in HP. rewrite HL. split; [|done].
    intros ph. rewrite HP. by apply union_subseteq_r'.
  - rewrite HL. destruct (is_finish line); simpl in HP.
    + apply andb_true_iff in Hval as [Hin Hval]. apply bool_decide_eq_true in Hin.
      split; [|done]. intros ph. rewrite HP.
      case_bool_decide; [|done].
      apply union_least; [by apply singleton_subseteq_l | done].
    + split; [|done]. intros ph. by rewrite HP.
Qed.

(** The loop from a well-formed state raises nothing. It reads a prefix of
    the stream (all of it outside quick-exit mode) and ends in a
    well-formed state; the extract row is started when an ["Extracting"]
    event was read or it was already; and when the events read are valid,
    the finished layers stay among the discovered ones. *)
Lemma for_line_in_ok stream q t w :
  tracker_wf t →
  ∃ t' unread w' consumed,
    for_line_in stream q t w = (Ok (t', unread), w')
    ∧ tracker_wf t'
    ∧ stream = consumed ++ unread
    ∧ (q = false → unread = [])
    ∧ started <$> extract_row t' =
        (λ row, existsb is_extracting consumed || started row) <$> extract_row t
    ∧ layers t' = discovered consumed ∪ layers t
    ∧ ((∀ ph, layer_pool ph t ⊆ layers t) →
       valid_from (layers t) consumed = true →
       ∀ ph, layer_pool ph t' ⊆ layers t').
Proof.
  revert t w. induction stream as [|line stream IH]; intros t w Hwf.
  - exists t, [], w, []. simpl.
    split_and!; try done;
      try (by destruct (extract_row t)); by rewrite union_empty_l_L.
  - destruct (loop_body_ok line q t w Hwf) as (t1 & w1 & Hbody & Hwf1 & HL & HP & Hst).
    rewrite (for_line_in_cons _ _ _ _ _ _ _ Hbody).
    destruct (q && is_operation_complete line) eqn:Hbreak.
    + exists t1, stream, w1, [line]. split_and!; try done.
      * intros ->. done.
      * rewrite Hst. simpl. destruct (extract_row t); [|done]. simpl.
        by rewrite orb_false_r.
      * rewrite HL. simpl. destruct (is_discover line); [|by rewrite union_empty_l_L].
        by rewrite union_empty_r_L.
      * intros Hsub Hval. by apply (subset_step line [] t t1).
    + destruct (IH t1 w1 Hwf1)
        as (t' & unread & w' & consumed & Hrun & Hwf' & Hs & Hq & Hst' & HL' & Hsub').
      exists t', unread, w', (line :: consumed). split_and!; try done.
      * simpl. by rewrite Hs.
      * rewrite Hst'.
        destruct (extract_row t1) as [r1|], (extract_row t) as [r0|];
          simpl in *; try done.
        injection Hst as ->.
        by destruct (existsb is_extracting consumed), (is_extracting line), (started r0).
      * rewrite HL', HL. simpl. destruct (is_discover line); [|done].
        rewrite (union_comm_L {[l_id line]} (discovered consumed)).
        by rewrite (assoc_L (∪)).
      * intros Hsub Hval.
        destruct (subset_step line consumed t t1 HL HP Hsub Hval). by apply Hsub'.
Qed.

End Loop.

(** ** downloadDockerLayer *)

Section Download.

Implicit Types (t : Tracker) (line : Line) (w : World) (q : bool)
  (stream : list Line).

(** Outside quick-exit mode the loop reads the whole stream, so that the
    run over a stream followed by more events is the run over the stream
    followed by the run over the events. *)
Lemma for_line_in_app stream stream' t w :
  tracker_wf t →
  ∃ t1 w1,
    for_line_in stream false t w = (Ok (t1, []), w1)
    ∧ tracker_wf t1
    ∧ layers t1 = discovered stream ∪ layers t
    ∧ for_line_in (stream ++ stream') false t w = for_line_in stream' false t1 w1.
Proof.
  revert t w. induction stream as [|line stream IH]; intros t w Hwf.
  - exists t, w. simpl. split_and!; try done. by rewrite union_empty_l_L.
  - destruct (loop_body_ok line false t w Hwf) as (t1 & w1 & Hbody & Hwf1 & HL & _).
    simpl app. rewrite !(for_line_in_cons _ _ _ _ _ _ _ Hbody). simpl.
    destruct (IH t1 w1 Hwf1) as (t2 & w2 & Hrun & Hwf2 & HL2 & Happ).
    exists t2, w2. split_and!; try done.
    rewrite HL2, HL. destruct (is_discover line); [|done].
    rewrite (union_comm_L {[l_id line]} (discovered stream)).
    by rewrite (assoc_L (∪)).
Qed.

(** The run over a stream followed by one event, outside quick-exit mode,
    is the run over the stream followed by one iteration of the loop. *)
Lemma downloadDockerLayer_snoc stream line w :
  ∃ t w1 t' w',
    downloadDockerLayer stream false w = (Ok (t, []), w1)
    ∧ tracker_wf t
    ∧ layers t = discovered stream
    ∧ loop_body line false t w1 = (Ok (t', false), w')
    ∧ downloadDockerLayer (stream ++ [line]) false w = (Ok (t', []), w').
Proof.
  unfold downloadDockerLayer.
  destruct (for_line_in_app stream [line] initial w initial_wf)
    as (t & w1 & Hrun & Hwf & HL & Happ).
  destruct (loop_body_ok line false t w1 Hwf) as (t' & w' & Hbody & _).
  exists t, w1, t', w'. split_and!; try done.
  - rewrite HL. simpl. by rewrite union_empty_r_L.
  - rewrite Happ, (for_line_in_cons _ _ _ _ _ _ _ Hbody). done.
Qed.

End Download.

(** C1. After any prefix of a valid sequence of events, in either mode,
    [downloadDockerLayer] has raised nothing, the layers whose download is
    complete and the layers whose extraction is complete are among the
    layers discovered, and each of the two aggregate rows shows the number
    of discovered layers as its total and the number of layers complete in
    its phase as its completed count. *)
Theorem completed_within_seen_and_rows_show_sizes
    (stream pre : list Line) (quick_exit : bool) (w : World) :
  valid_events stream = true →
  pre `prefix_of` stream →
  ∃ t unread w' rd re,
    downloadDockerLayer pre quick_exit w = (Ok (t, unread), w')
    ∧ layers_downloaded t ⊆ layers t
    ∧ layers_extracted t ⊆ layers t
    ∧ download_row t = Some rd
    ∧ extract_row t = Some re
    ∧ total rd = Z.of_nat (size (layers t))
    ∧ completed rd = Z.of_nat (size (layers_downloaded t))
    ∧ total re = Z.of_nat (size (layers t))
    ∧ completed re = Z.of_nat (size (layers_extracted t)).
Proof.
  intros Hval [rest ->].
  destruct (for_line_in_ok pre quick_exit initial w initial_wf)
    as (t & unread & w' & consumed & Hrun & Hwf & Hs & _ & _ & _ & Hsub).
  destruct (wf_two_rows t Hwf) as (rd & re & Hd & He & Htd & Hte & Hcd & Hce).
  assert (Hsub' : ∀ ph, layer_pool ph t ⊆ layers t).
  { apply Hsub; [by intros [|]|].
    apply valid_from_app with (stream' := unread). rewrite <- Hs.
    by apply valid_from_app with (stream' := rest). }
  exists t, unread, w', rd, re. split_and!; try done.
  - apply (Hsub' false).
  - apply (Hsub' true).
Qed.

(** The extract row is created not started (line 41). *)
Lemma extract_row_initial :
  extract_row initial = Some (mkTask "[bold gold1]Extracting layers..." 0 0 false None).
Proof. reflexivity. Qed.

(** C2, as the code has it. The extract row is started exactly when an
    ["Extracting"] event has been read: the flag at exit tells whether the
    events read contain one. *)
Theorem extract_row_started_by_extracting
    (stream : list Line) (quick_exit : bool) (w : World) :
  ∃ t unread w' consumed,
    downloadDockerLayer stream quick_exit w = (Ok (t, unread), w')
    ∧ stream = consumed ++ unread
    ∧ extract_started (downloadDockerLayer stream quick_exit w)
      = Some (existsb is_extracting consumed).
Proof.
  destruct (for_line_in_ok stream quick_exit initial w initial_wf)
    as (t & unread & w' & consumed & Hrun & _ & Hs & _ & Hst & _).
  exists t, unread, w', consumed. unfold downloadDockerLayer. rewrite Hrun.
  split_and!; try done. simpl. rewrite Hst, extract_row_initial. simpl.
  by rewrite orb_false_r.
Qed.

Section Finish.

Implicit Types (t : Tracker) (lid : LayerId).

Lemma setTask_same (p : ExegolProgress.t) i r :
  tasks p !! i = Some r → setTask i r p = p.
Proof.
  intros H. unfold setTask. rewrite insert_id by done. by destruct p.
Qed.

Lemma task_eta (r : Task) c :
  completed r = c →
  mkTask (description r) (total r) c (started r) (layer r) = r.
Proof. intros <-. by destruct r. Qed.

(** A finish event for a layer that is already marked finished and has no
    task in the pool changes nothing. *)
Lemma layer_complete_again t status lid :
  tracker_wf t →
  lid ∈ layer_pool (String.eqb status "Pull complete") t →
  task_pool (String.eqb status "Pull complete") t !! lid = None →
  layer_complete status lid t = Ok t.
Proof.
  intros Hwf Hin Hnone.
  destruct (wf_two_rows t Hwf) as (rd & re & Hd & He & Htd & Hte & Hcd & Hce).
  unfold layer_complete.
  change (if String.eqb status "Pull complete" then extracting t else downloading t)
    with (task_pool (String.eqb status "Pull complete") t).
  rewrite Hnone. simpl.
  destruct (String.eqb status "Pull complete"); simpl in Hin;
    rewrite (subseteq_union_1_L {[lid]}) by (by apply singleton_subseteq_l);
    rewrite (update_Some _ _ _ _ _ Hd); simpl;
    rewrite task_eta, setTask_same by done;
    rewrite (update_Some _ _ _ _ _ He); simpl;
    rewrite task_eta, setTask_same by done;
    by destruct t.
Qed.

End Finish.

(** C3. After any events, a finish event leaves the task of its layer
    absent from the pool of its phase and from the display, and the same
    event once more raises nothing and leaves the local variables, the
    display and the world as they were after the first. *)
Theorem finish_event_removes_task_and_is_idempotent
    (stream : list Line) (extract : bool) (lid : LayerId)
    (pd : option ProgressDetail) (text : option string) (w : World) :
  ∃ t0 w0 t1 w1,
    downloadDockerLayer stream false w = (Ok (t0, []), w0)
    ∧ downloadDockerLayer (stream ++ [finish_event extract lid pd text]) false w
      = (Ok (t1, []), w1)
    ∧ task_pool extract t1 !! lid = None
    ∧ (∀ i, task_pool extract t0 !! lid = Some i → tasks (progress t1) !! i = None)
    ∧ downloadDockerLayer
        (stream ++ [finish_event extract lid pd text; finish_event extract lid pd text])
        false w
      = (Ok (t1, []), w1).
Proof.
  set (line := finish_event extract lid pd text).
  assert (Hfin : is_finish line = true) by (by destruct extract).
  assert (Hst : status_of line = if extract then "Pull complete" else "Download complete")
    by done.
  assert (Hph : String.eqb (status_of line) "Pull complete" = extract)
    by (by destruct extract).
  destruct (downloadDockerLayer_snoc stream line w)
    as (t0 & w0 & t1 & w1 & Hrun0 & Hwf0 & _ & Hbody & Hrun1).
  rewrite loop_body_finish in Hbody by done.
  destruct (layer_complete_ok t0 (status_of line) lid Hwf0)
    as (t1' & Hlc & Hwf1 & _ & HP & _ & HT & _ & _ & Hgone & _).
  rewrite Hph in HP, HT, Hgone.
  unfold mbind, M_bind, bind, lift in Hbody. simpl in Hbody, Hlc.
  rewrite Hlc in Hbody. simpl in Hbody. injection Hbody as <- <-.
  exists t0, w0, t1', w0. split_and!; try done.
  - rewrite HT. apply lookup_delete_eq.
  - destruct (downloadDockerLayer_snoc (stream ++ [line]) line w)
      as (t1'' & w1' & t2 & w2 & Hrun1' & _ & _ & Hbody2 & Hrun2).
    rewrite <- (assoc_L (++)) in Hrun2. simpl in Hrun2. rewrite Hrun2.
    rewrite Hrun1 in Hrun1'. injection Hrun1' as <- <-.
    rewrite loop_body_finish in Hbody2 by done.
    unfold mbind, M_bind, bind, lift in Hbody2.
    change (l_id line) with lid in Hbody2.
    rewrite (layer_complete_again t1' (status_of line) lid) in Hbody2; try done.
    + simpl in Hbody2. by injection Hbody2 as <- <-.
    + rewrite Hph, HP. apply elem_of_union_l. by apply elem_of_singleton.
    + rewrite Hph, HT. apply lookup_delete_eq.
Qed.

(** C4. No stream makes [downloadDockerLayer] raise, whatever fields its
    events lack; and after any events, a ["Downloading"] or ["Extracting"]
    event without [progressDetail], or with an empty one, sets the
    completed count of the task of its layer to 100, and gives it the total
    100 when it creates the task. *)
Theorem missing_fields_are_tolerated :
  (∀ (stream : list Line) (quick_exit : bool) (w : World),
     ∃ t unread w',
       downloadDockerLayer stream quick_exit w = (Ok (t, unread), w'))
  ∧ (∀ (stream : list Line) (extract empty_detail : bool) (lid : LayerId)
       (text : option string) (w : World),
       ∃ t0 w0 t1 w1 i r,
         downloadDockerLayer stream false w = (Ok (t0, []), w0)
         ∧ downloadDockerLayer
             (stream ++
                [progress_event extract lid
                   (if empty_detail then Some (mkProgressDetail None None) else None)
                   text])
             false w
           = (Ok (t1, []), w1)
         ∧ task_pool extract t1 !! lid = Some i
         ∧ tasks (progress t1) !! i = Some r
         ∧ completed r = 100
         ∧ (task_pool extract t0 !! lid = None → total r = 100)).
Proof.
  split.
  - intros stream q w.
    destruct (for_line_in_ok stream q initial w initial_wf)
      as (t & unread & w' & _ & Hrun & _).
    by exists t, unread, w'.
  - intros stream extract empty_detail lid text w.
    set (line := progress_event extract lid _ text).
    assert (Hpro : is_progress line = true) by (by destruct extract).
    assert (Hph : String.eqb (status_of line) "Extracting" = extract)
      by (by destruct extract).
    assert (Hget : progressDetail_get line pd_current = 100
                   ∧ progressDetail_get line pd_total = 100).
    { unfold progressDetail_get. simpl. by destruct empty_detail. }
    destruct Hget as [Hcur Htot].
    destruct (downloadDockerLayer_snoc stream line w)
      as (t0 & w0 & t1 & w1 & Hrun0 & Hwf0 & _ & Hbody & Hrun1).
    rewrite loop_body_progress in Hbody by done.
    destruct (layer_progress_ok t0 (status_of line) lid line Hwf0)
      as (t1' & i & r & Hlp & _ & _ & _ & HT & _ & Hr & Hc & Hnew & _).
    rewrite Hph in HT, Hnew. rewrite Hcur in Hc. rewrite Htot in Hnew.
    unfold mbind, M_bind, bind, lift in Hbody.
    change (l_id line) with lid in Hbody.
    rewrite Hlp in Hbody. simpl in Hbody. injection Hbody as <- <-.
    exists t0, w0, t1', w0, i, r. split_and!; try done.
    + rewrite HT. apply lookup_insert_eq.
    + intros Hnone. by destruct (Hnew Hnone) as (_ & _ & ? & _).
Qed.

(** C9. A layer that no ["Pulling fs layer"] event has announced is not
    needed for the other events to act. A progress event for it has a task
    in the pool of its phase afterwards, a new row of the display when the
    pool had none. A finish event for it puts it in the set of finished
    layers of its phase and the aggregate row of the phase shows the size
    of that set, one more than before when the layer was not in it; the set
    of discovered layers and the total of the row stay as they were. *)
Theorem undiscovered_layers_are_tracked
    (stream : list Line) (extract : bool) (lid : LayerId)
    (pd : option ProgressDetail) (text : option string) (w : World) :
  lid ∉ discovered stream →
  ∃ t0 w0 row0,
    downloadDockerLayer stream false w = (Ok (t0, []), w0)
    ∧ (lid ∉ layers t0)
    ∧ phase_row extract t0 = Some row0
    ∧ (∃ t1 w1 i r,
         downloadDockerLayer (stream ++ [progress_event extract lid pd text]) false w
         = (Ok (t1, []), w1)
         ∧ task_pool extract t1 !! lid = Some i
         ∧ tasks (progress t1) !! i = Some r
         ∧ (task_pool extract t0 !! lid = None →
              tasks (progress t0) !! i = None ∧ layer r = Some lid)
         ∧ layers t1 = layers t0)
    ∧ (∃ t2 w2 row2,
         downloadDockerLayer (stream ++ [finish_event extract lid pd text]) false w
         = (Ok (t2, []), w2)
         ∧ lid ∈ layer_pool extract t2
         ∧ layers t2 = layers t0
         ∧ phase_row extract t2 = Some row2
         ∧ completed row2 = Z.of_nat (size (layer_pool extract t2))
         ∧ (lid ∉ layer_pool extract t0 → completed row2 = completed row0 + 1)
         ∧ total row2 = total row0).
Proof.
  intros Hnew.
  set (progress_line := progress_event extract lid pd text).
  set (finish_line := finish_event extract lid pd text).
  destruct (downloadDockerLayer_snoc stream progress_line w)
    as (t0 & w0 & t1 & w1 & Hrun0 & Hwf0 & HL0 & Hbody1 & Hrun1).
  destruct (downloadDockerLayer_snoc stream finish_line w)
    as (t0' & w0' & t2 & w2 & Hrun0' & _ & _ & Hbody2 & Hrun2).
  rewrite Hrun0 in Hrun0'. injection Hrun0' as <- <-.
  destruct (proj2 Hwf0 extract) as (row0 & Hrow0 & Ht0 & Hc0).
  exists t0, w0, row0. split_and!; try done.
  - by rewrite HL0.
  - assert (Hpro : is_progress progress_line = true) by (by destruct extract).
    assert (Hph : String.eqb (status_of progress_line) "Extracting" = extract)
      by (by destruct extract).
    rewrite loop_body_progress in Hbody1 by done.
    destruct (layer_progress_ok t0 (status_of progress_line) lid progress_line Hwf0)
      as (t1' & i & r & Hlp & _ & HL & _ & HT & _ & Hr & _ & Hfresh & _).
    rewrite Hph in HT, Hfresh.
    unfold mbind, M_bind, bind, lift in Hbody1.
    change (l_id progress_line) with lid in Hbody1.
    rewrite Hlp in Hbody1. simpl in Hbody1. injection Hbody1 as <- <-.
    exists t1', w0, i, r. split_and!; try done.
    + rewrite HT. apply lookup_insert_eq.
    + intros Hnone. by destruct (Hfresh Hnone) as (_ & ? & _ & ?).
  - assert (Hfin : is_finish finish_line = true) by (by destruct extract).
    assert (Hph : String.eqb (status_of finish_line) "Pull complete" = extract)
      by (by destruct extract).
    rewrite loop_body_finish in Hbody2 by done.
    destruct (layer_complete_ok t0 (status_of finish_line) lid Hwf0)
      as (t2' & Hlc & Hwf2 & HL & HP & _ & _ & _ & _ & _ & Htot).
    rewrite Hph in HP.
    unfold mbind, M_bind, bind, lift in Hbody2.
    change (l_id finish_line) with lid in Hbody2.
    rewrite Hlc in Hbody2. simpl in Hbody2. injection Hbody2 as <- <-.
    destruct (proj2 Hwf2 extract) as (row2 & Hrow2 & Ht2 & Hc2).
    exists t2', w0, row2. split_and!; try done.
    + rewrite HP. apply elem_of_union_l. by apply elem_of_singleton.
    + intros Hnotin. rewrite Hc2, Hc0, HP.
      rewrite size_union by (by apply disjoint_singleton_l).
      rewrite size_singleton. lia.
    + specialize (Htot extract). rewrite Hrow2, Hrow0 in Htot. by injection Htot.
Qed.

(** ** buildDockerImage *)

Section Build.

Implicit Types (t : Tracker) (line : Line) (w : World) (stream : list Line).


(** What the nested call leaves unread is no longer than what it was
    given. *)
Lemma downloadDockerLayer_unread stream q w :
  ∃ t unread w',
    downloadDockerLayer stream q w = (Ok (t, unread), w')
    ∧ (length unread ≤ length stream)%nat.
Proof.
  destruct (for_line_in_ok stream q initial w initial_wf)
    as (t & unread & w' & consumed & Hrun & _ & Hs & _).
  exists t, unread, w'. split; [done|].
  rewrite Hs, length_app. lia.
Qed.

(** One unit of fuel per element of the stream is enough: more fuel gives
    the same run. *)
Lemma buildDockerImage_loop_fuel fuel fuel' stream w :
  (length stream ≤ fuel)%nat → (length stream ≤ fuel')%nat →
  buildDockerImage_loop fuel stream w = buildDockerImage_loop fuel' stream w.
Proof.
  revert fuel' stream w.
  induction fuel as [|fuel IH]; intros fuel' stream w H1 H2.
  - destruct stream; [|simpl in H1; lia]. by destruct fuel'.
  - destruct stream as [|line stream]; [by destruct fuel'|].
    destruct fuel' as [|fuel']; simpl in H1, H2; [lia|].
    simpl. unfold mbind, M_bind, bind.
    destruct (log_build_line (default "" (l_stream line)) w) as [[[]|e] w1]; [|done].
    destruct (PyStr.contains ": FROM " (default "" (l_stream line))).
    + destruct (logger log_info (MsgText "Downloading docker image") w1)
        as [[[]|e] w2]; [|done].
      destruct (downloadDockerLayer_unread stream true w2)
        as (t & unread & w3 & -> & Hlen).
      apply IH; lia.
    + apply IH; lia.
Qed.

(** The loop of [buildDockerImage], unfolded once. *)
Lemma buildDockerImage_cons line stream w :
  buildDockerImage (line :: stream) w = build_step line buildDockerImage stream w.
Proof.
  unfold buildDockerImage, build_step. simpl. unfold mbind, M_bind, bind.
  destruct (log_build_line (default "" (l_stream line)) w) as [[[]|e] w1]; [|done].
  destruct (PyStr.contains ": FROM " (default "" (l_stream line))); [|done].
  destruct (logger log_info (MsgText "Downloading docker image") w1)
    as [[[]|e] w2]; [|done].
  destruct (downloadDockerLayer_unread stream true w2)
    as (t & unread & w3 & -> & Hlen).
  by apply buildDockerImage_loop_fuel.
Qed.

End Build.


(** ** printTable *)

Section Tables.

Implicit Types (table : Table) (w : World) (data : list Obj).

Lemma add_image_rows_ok verbose_mode data table :
  all_images data →
  ∃ table', add_image_rows verbose_mode data table = Ok table'
            ∧ tb_title table' = tb_title table.
Proof.
  intros Hall. revert table.
  induction Hall as [|o data [i ->] _ IH]; intros table; [by eexists|].
  simpl. destruct (IH (RichTable.add_row
    (if verbose_mode
     then [ExegolImage.getId i; ExegolImage.getName i; ExegolImage.getDownloadSize i;
           ExegolImage.getRealSize i; ExegolImage.getStatus i; ExegolImage.getType i]
     else [ExegolImage.getName i; ExegolImage.getSize i; ExegolImage.getStatus i;
           ExegolImage.getType i]) table)) as (table' & -> & Ht).
  by exists table'.
Qed.

Lemma add_container_rows_ok verbose_mode debug_mode data table :
  all_containers data →
  ∃ table', add_container_rows verbose_mode debug_mode data table = Ok table'
            ∧ tb_title table' = tb_title table.
Proof.
  intros Hall. revert table.
  induction Hall as [|o data [c ->] _ IH]; intros table; [by eexists|].
  simpl. edestruct IH as (table' & -> & Ht). by exists table'.
Qed.

Lemma add_string_rows_ok (strings : list string) table header :
  tb_columns table = [header] →
  ∃ table', add_string_rows (map OStr strings) table = Ok table'
            ∧ tb_title table' = tb_title table
            ∧ tb_columns table' = [header]
            ∧ length (tb_rows table') = (length (tb_rows table) + length strings)%nat.
Proof.
  revert table. induction strings as [|s strings IH]; intros table Hc.
  - exists table. simpl. split_and!; try done; lia.
  - simpl. destruct (IH (RichTable.add_row [s] table)) as (table' & -> & Ht & Hc' & Hr).
    + unfold RichTable.add_row. simpl. by rewrite Hc.
    + exists table'. split_and!; try done.
      rewrite Hr. unfold RichTable.add_row. simpl.
      rewrite length_app, length_map. simpl. lia.
Qed.

Lemma console_print_renderable table w :
  headers_renderable table = true →
  console_print table w = (Ok tt, printed w table).
Proof. intros H. unfold console_print. by rewrite H. Qed.

Lemma console_print_not_renderable table w :
  headers_renderable table = false →
  console_print table w = (Raise NotRenderableError, w).
Proof. intros H. unfold console_print. by rewrite H. Qed.

(** The columns a long row adds have the empty text as header, so that
    adding rows keeps a table printable. *)
Lemma add_row_renderable cells table :
  headers_renderable table = true →
  headers_renderable (RichTable.add_row cells table) = true.
Proof.
  unfold headers_renderable, RichTable.add_row. simpl. intros H.
  rewrite forallb_app, H. simpl.
  induction (Nat.max (length (tb_columns table)) (length cells)
             - length (tb_columns table))%nat; [done|]. simpl. done.
Qed.

Lemma add_image_rows_renderable verbose_mode data table table' :
  add_image_rows verbose_mode data table = Ok table' →
  headers_renderable table = true → headers_renderable table' = true.
Proof.
  revert table. induction data as [|o data IH]; intros table Hrun Hh.
  - by injection Hrun as <-.
  - destruct o; try done. simpl in Hrun.
    apply (IH _ Hrun). by apply add_row_renderable.
Qed.

Lemma add_container_rows_renderable verbose_mode debug_mode data table table' :
  add_container_rows verbose_mode debug_mode data table = Ok table' →
  headers_renderable table = true → headers_renderable table' = true.
Proof.
  revert table. induction data as [|o data IH]; intros table Hrun Hh.
  - by injection Hrun as <-.
  - destruct o; try done. simpl in Hrun.
    apply (IH _ Hrun). by apply add_row_renderable.
Qed.

(** A non-empty list of images, or of containers, is printed: the call
    raises nothing and hands one table to the console. *)
Lemma printTable_selectable first others title w :
  all_images (first :: others) ∨ all_containers (first :: others) →
  ∃ table, printTable (first :: others) title w = (Ok tt, printed w table).
Proof.
  intros [Hall|Hall].
  - pose proof Hall as Hfirst. apply Forall_cons in Hfirst as [[i ->] _].
    unfold printTable, __buildImageTable, logger_isEnabledFor.
    unfold mbind, M_bind, bind, lift.
    edestruct (add_image_rows_ok (isEnabledFor (w_verbosity w) LVL_VERBOSE)
                 (OImage i :: others)) as (table' & Hrun & _); [done|].
    rewrite Hrun. exists table'. apply console_print_renderable.
    apply (add_image_rows_renderable _ _ _ _ Hrun).
    by destruct (isEnabledFor (w_verbosity w) LVL_VERBOSE).
  - pose proof Hall as Hfirst. apply Forall_cons in Hfirst as [[c ->] _].
    unfold printTable, __buildContainerTable, logger_isEnabledFor.
    unfold mbind, M_bind, bind, lift.
    edestruct (add_container_rows_ok (isEnabledFor (w_verbosity w) LVL_VERBOSE)
                 (isEnabledFor (w_verbosity w) LVL_DEBUG)
                 (OContainer c :: others)) as (table' & Hrun & _); [done|].
    rewrite Hrun. exists table'. apply console_print_renderable.
    apply (add_container_rows_renderable _ _ _ _ _ Hrun).
    by destruct (isEnabledFor (w_verbosity w) LVL_VERBOSE).
Qed.

End Tables.

(** C7. Three images printed at normal verbosity give a table with the
    columns Image tag, Size, Status, Type, in this order, and three rows; at
    verbose level, and at debug level, the columns are Id, Image tag,
    Download size, Disk size, Status, Type, and Size is not one of them. *)
Theorem image_table_columns
    (i1 i2 i3 : ExegolImage.t) (title : Arg (option string)) (w : World) :
  (∃ table,
     printTable [OImage i1; OImage i2; OImage i3] title (with_verbosity Normal w)
     = (Ok tt, printed (with_verbosity Normal w) table)
     ∧ tb_columns table = [Some "Image tag"; Some "Size"; Some "Status"; Some "Type"]
     ∧ length (tb_rows table) = 3%nat)
  ∧ (∀ debug : bool,
       ∃ table,
         printTable [OImage i1; OImage i2; OImage i3] title
                    (with_verbosity (if debug then Debug else Verbose) w)
         = (Ok tt, printed (with_verbosity (if debug then Debug else Verbose) w) table)
         ∧ tb_columns table
           = [Some "Id"; Some "Image tag"; Some "Download size"; Some "Disk size";
              Some "Status"; Some "Type"]
         ∧ (Some "Size" ∉ tb_columns table)
         ∧ length (tb_rows table) = 3%nat).
Proof.
  split.
  - eexists. split; [reflexivity|]. by split.
  - intros [|]; (eexists; split; [reflexivity|]; split; [done|]; split; [|done]);
      simpl; intros Hin; repeat (apply elem_of_cons in Hin as [Hin|Hin]; [done|]);
      by apply elem_of_nil in Hin.
Qed.

(** The titles and headers of the tables [printTable] builds: the title of
    a table of images or of containers is fixed by the builder, a table of
    strings has no title and the text given as [title] as the header of its
    one column. *)
Lemma printTable_titles (title : Arg (option string)) (w : World) :
  (∀ i images, ∃ table,
     printTable (map OImage (i :: images)) title w = (Ok tt, printed w table)
     ∧ tb_title table = Some "Available images")
  ∧ (∀ c containers, ∃ table,
       printTable (map OContainer (c :: containers)) title w = (Ok tt, printed w table)
       ∧ tb_title table = Some "[gold3][g]Available containers[/g][/gold3]")
  ∧ (∀ s strings header, ∃ table,
       printTable (map OStr (s :: strings)) (Given (Some header)) w
       = (Ok tt, printed w table)
       ∧ tb_title table = None
       ∧ tb_columns table = [Some header]
       ∧ length (tb_rows table) = S (length strings)).
Proof.
  split_and!.
  - intros i images.
    change (map OImage (i :: images)) with (OImage i :: map OImage images).
    unfold printTable, __buildImageTable, logger_isEnabledFor.
    unfold mbind, M_bind, bind, lift. cbv beta iota zeta.
    edestruct (add_image_rows_ok (isEnabledFor (w_verbosity w) LVL_VERBOSE)
                 (OImage i :: map OImage images)) as (table' & Hrun & Ht).
    { apply Forall_cons. split; [by eexists|].
      apply Forall_forall. intros x [y [-> _]]%list_elem_of_fmap. by eexists. }
    rewrite Hrun. exists table'. split.
    + apply console_print_renderable.
      apply (add_image_rows_renderable _ _ _ _ Hrun).
      by destruct (isEnabledFor (w_verbosity w) LVL_VERBOSE).
    + rewrite Ht. by destruct (isEnabledFor (w_verbosity w) LVL_VERBOSE).
  - intros c containers.
    change (map OContainer (c :: containers))
      with (OContainer c :: map OContainer containers).
    unfold printTable, __buildContainerTable, logger_isEnabledFor.
    unfold mbind, M_bind, bind, lift. cbv beta iota zeta.
    edestruct (add_container_rows_ok (isEnabledFor (w_verbosity w) LVL_VERBOSE)
                 (isEnabledFor (w_verbosity w) LVL_DEBUG)
                 (OContainer c :: map OContainer containers)) as (table' & Hrun & Ht).
    { apply Forall_cons. split; [by eexists|].
      apply Forall_forall. intros x [y [-> _]]%list_elem_of_fmap. by eexists. }
    rewrite Hrun. exists table'. split.
    + apply console_print_renderable.
      apply (add_container_rows_renderable _ _ _ _ _ Hrun).
      by destruct (isEnabledFor (w_verbosity w) LVL_VERBOSE).
    + rewrite Ht. by destruct (isEnabledFor (w_verbosity w) LVL_VERBOSE).
  - intros s strings header.
    destruct (add_string_rows_ok (s :: strings)
                (RichTable.add_column (Some header)
                   (RichTable.set_title None (RichTable.new (Some header))))
                (Some header) eq_refl) as (table' & Hrun & Ht & Hc & Hr).
    change (map OStr (s :: strings)) with (OStr s :: map OStr strings) in *.
    unfold printTable, __buildStringTable. unfold mbind, M_bind, bind, lift.
    cbv beta iota zeta.
    change (arg_or (Given (arg_or (Given (Some header)) None)) (Some "Key"))
      with (Some header).
    change (arg_or (Given (Some header)) None) with (Some header).
    rewrite Hrun.
    exists table'. split_and!; try done.
    apply console_print_renderable. unfold headers_renderable. by rewrite Hc.
Qed.

(** C10, at the inputs where the code departs from the claim. For a list
    of strings printed without a title, the header of the one column is
    [None], the default of [printTable], and not ["Key"], the default of
    [__buildStringTable]: the console cannot render it, the call raises and
    no table is printed. *)
Theorem printTable_strings_without_title
    (s : string) (strings : list string) (w : World) :
  printTable (map OStr (s :: strings)) Omitted w = (Raise NotRenderableError, w).
Proof.
  destruct (add_string_rows_ok (s :: strings)
              (RichTable.add_column None
                 (RichTable.set_title None (RichTable.new None)))
              None eq_refl) as (table' & Hrun & _ & Hc & _).
  change (map OStr (s :: strings)) with (OStr s :: map OStr strings) in *.
  unfold printTable, __buildStringTable. unfold mbind, M_bind, bind, lift.
  cbv beta iota zeta.
  change (arg_or (Given (arg_or Omitted None)) (Some "Key")) with (@None string).
  change (arg_or Omitted None) with (@None string).
  rewrite Hrun.
  apply console_print_not_renderable. unfold headers_renderable. by rewrite Hc.
Qed.

(** ** The selectors *)

Section Select.

Context {image_selectable : SelectableInterface ExegolImage.t}.
Context {container_selectable : SelectableInterface ExegolContainer.t}.

Implicit Types (data : list Obj) (w : World).

Lemma getKeys_selectable data :
  all_images data ∨ all_containers data →
  getKeys data = Ok (map key_of data).
Proof.
  assert (Hgen : Forall (λ o, (∃ i, o = OImage i) ∨ (∃ c, o = OContainer c)) data →
                 getKeys data = Ok (map key_of data)).
  { induction 1 as [|o data Ho _ IH]; [done|].
    simpl. rewrite IH. by destruct Ho as [[i ->]|[c ->]]. }
  intros [H|H]; apply Hgen; eapply Forall_impl; eauto.
Qed.

Lemma str_eq_obj_key o choice :
  key_equality ExegolImage.t → key_equality ExegolContainer.t →
  (∃ i, o = OImage i) ∨ (∃ c, o = OContainer c) →
  str_eq_obj choice o = true ↔ key_of o = choice.
Proof.
  intros Hi Hc [[i ->]|[c ->]]; simpl; [apply Hi | apply Hc].
Qed.

(** The loop of lines 213 to 215 returns the first record with the chosen
    key. *)
Lemma first_equal_key data choice :
  key_equality ExegolImage.t → key_equality ExegolContainer.t →
  all_images data ∨ all_containers data →
  choice ∈ map key_of data →
  ∃ o before after,
    first_equal choice data = Some o
    ∧ data = before ++ o :: after
    ∧ key_of o = choice
    ∧ Forall (λ x, key_of x ≠ choice) before.
Proof.
  intros Hi Hc Hall.
  assert (Hgen : Forall (λ o, (∃ i, o = OImage i) ∨ (∃ c, o = OContainer c)) data).
  { destruct Hall as [H|H]; eapply Forall_impl; eauto. }
  clear Hall. induction Hgen as [|o data Ho _ IH]; intros Hin.
  - by apply elem_of_nil in Hin.
  - simpl. destruct (str_eq_obj choice o) eqn:E.
    + exists o, [], data. split_and!; try done.
      by apply (str_eq_obj_key o choice Hi Hc Ho).
    + assert (Hne : key_of o ≠ choice).
      { intros Hk. apply (str_eq_obj_key o choice Hi Hc Ho) in Hk. congruence. }
      simpl in Hin. apply elem_of_cons in Hin as [Hin|Hin]; [congruence|].
      destruct (IH Hin) as (o' & before & after & Hf & -> & Hk & Hb).
      exists o', (o :: before), after. split_and!; try done.
      by apply Forall_cons.
Qed.

(** The answer of the prompt is the default or one of the choices. *)
Lemma read_answer_choice default_value choices answers c rest :
  read_answer default_value choices answers = (Ok c, rest) →
  c = default_value ∨ c ∈ choices.
Proof.
  induction answers as [|value answers IH]; simpl; [done|].
  destruct (String.eqb value ""); [by intros [= <- _]; left|].
  case_bool_decide as Hin; [by intros [= <- _]; right | done].
Qed.

End Select.

(** C5. On an empty list, and on an empty dict, the selectors log a
    warning and raise [IndexError], which is returned to the caller; the
    console has received no table. *)
Theorem selectors_raise_IndexError_on_empty_input
    `{SelectableInterface ExegolImage.t} `{SelectableInterface ExegolContainer.t}
    (V : Type) (object_type : option ClassName) (default_choice : option string)
    (subject title : Arg string) (w : World) :
  selectFromTable [] object_type default_choice w
  = (Raise IndexError,
     warned w (match object_type with
               | Some ClsExegolImage => "No images were found"
               | _ => "No container were found"
               end))
  ∧ selectFromList (@PyList V []) subject title default_choice w
    = (Raise IndexError, warned w "No options were found")
  ∧ selectFromList (@PyDict V []) subject title default_choice w
    = (Raise IndexError, warned w "No options were found")
  ∧ (∀ text, w_console (warned w text) = w_console w).
Proof.
  split_and!; try done.
  by destruct object_type as [[| |]|].
Qed.

(** C6. For a non-empty list of images, or of containers, whose [__eq__]
    against a string compares the key: the table is printed, the prompt
    offers the keys as choices and, when no default is given, the key of
    the first record as default; and the record returned is the first of
    the list whose key is the answer of the prompt. *)
Theorem selectFromTable_returns_chosen_record
    `{SelectableInterface ExegolImage.t} `{SelectableInterface ExegolContainer.t}
    (first : Obj) (others : list Obj) (object_type : option ClassName)
    (default_choice : option string) (w : World) (c : string) (rest : list string) :
  key_equality ExegolImage.t →
  key_equality ExegolContainer.t →
  all_images (first :: others) ∨ all_containers (first :: others) →
  read_answer (default (key_of first) default_choice)
              (map key_of (first :: others)) (w_stdin w) = (Ok c, rest) →
  default_choice = None ∨ c ∈ map key_of (first :: others) →
  ∃ o before after w',
    selectFromTable (first :: others) object_type default_choice w = (Ok (Some o), w')
    ∧ first :: others = before ++ o :: after
    ∧ key_of o = c
    ∧ Forall (λ x, key_of x ≠ c) before
    ∧ length (w_console w') = S (length (w_console w))
    ∧ w_prompts w'
      = w_prompts w ++
        [mkPromptCall "[blue][?][/blue] Select an object by his name"
                      (default (key_of first) default_choice)
                      (map key_of (first :: others))].
Proof.
  intros Hi Hc Hall Hans Hchoice.
  assert (Hin : c ∈ map key_of (first :: others)).
  { destruct Hchoice as [->|?]; [|done].
    apply read_answer_choice in Hans as [->|?]; [|done]. simpl. apply elem_of_cons. by left. }
  destruct (first_equal_key (first :: others) c Hi Hc Hall Hin)
    as (o & before & after & Hf & Hd & Hk & Hb).
  destruct (printTable_selectable first others Omitted w Hall) as (table & Hprint).
  unfold selectFromTable. unfold mbind, M_bind, bind.
  rewrite Hprint. unfold lift. rewrite (getKeys_selectable _ Hall).
  change (map key_of (first :: others)) with (key_of first :: map key_of others) in *.
  destruct default_choice as [d|]; simpl default in *; cbv beta iota;
    unfold mret, M_ret, ret, Prompt_ask; simpl w_stdin; rewrite Hans, Hf;
    (eexists o, before, after, _; split; [reflexivity|]);
    (split_and!; try done; simpl; rewrite length_app; simpl; lia).
Qed.

(** ** The properties at the samples *)

(** C1 at the sample pull stream, read up to its fourth event. *)
Lemma completed_within_seen_at_sample :
  valid_events sample_pull = true
  ∧ take 4 sample_pull `prefix_of` sample_pull
  ∧ ∃ t unread w' rd re,
      downloadDockerLayer (take 4 sample_pull) false sample_world
      = (Ok (t, unread), w')
      ∧ layers_downloaded t ⊆ layers t
      ∧ layers_extracted t ⊆ layers t
      ∧ download_row t = Some rd
      ∧ extract_row t = Some re
      ∧ total rd = Z.of_nat (size (layers t))
      ∧ completed rd = Z.of_nat (size (layers_downloaded t))
      ∧ total re = Z.of_nat (size (layers t))
      ∧ completed re = Z.of_nat (size (layers_extracted t)).
Proof.
  split; [vm_compute; reflexivity|].
  split; [by exists (drop 4 sample_pull)|].
  apply (completed_within_seen_and_rows_show_sizes sample_pull).
  - vm_compute; reflexivity.
  - by exists (drop 4 sample_pull).
Defined.

(** C2 as the claim has it fails: a ["Pull complete"] event alone is an
    extract-finished event and leaves the extract row not started. *)
Lemma pull_complete_leaves_extract_row_not_started :
  is_finish (finish_event true (Some "a") None None) = true
  ∧ phase_of (finish_event true (Some "a") None None) = true
  ∧ extract_started
      (downloadDockerLayer [finish_event true (Some "a") None None] false sample_world)
    = Some false.
Proof. split_and!; vm_compute; reflexivity. Qed.

(** C6 at a list of two images, the user typing the name of the second. *)
Lemma selectFromTable_at_sample :
  @key_equality ExegolImage.t image_by_name
  ∧ @key_equality ExegolContainer.t container_by_name
  ∧ (all_images [OImage sample_stable; OImage sample_dev]
     ∨ all_containers [OImage sample_stable; OImage sample_dev])
  ∧ read_answer "stable" ["stable"; "dev"] ["dev"] = (Ok "dev", [])
  ∧ ∃ o before after w',
      @selectFromTable image_by_name container_by_name
        [OImage sample_stable; OImage sample_dev] (Some ClsExegolImage) None
        (mkWorld Normal [] [] [] ["dev"])
      = (Ok (Some o), w')
      ∧ [OImage sample_stable; OImage sample_dev] = before ++ o :: after
      ∧ @key_of image_by_name container_by_name o = "dev"
      ∧ Forall (λ x, @key_of image_by_name container_by_name x ≠ "dev") before
      ∧ length (w_console w') = 1%nat
      ∧ w_prompts w'
        = [mkPromptCall "[blue][?][/blue] Select an object by his name"
                        "stable" ["stable"; "dev"]].
Proof.
  assert (Hi : @key_equality ExegolImage.t image_by_name)
    by (intros o s; apply String.eqb_eq).
  assert (Hc : @key_equality ExegolContainer.t container_by_name)
    by (intros o s; apply String.eqb_eq).
  assert (Hall : all_images [OImage sample_stable; OImage sample_dev]
                 ∨ all_containers [OImage sample_stable; OImage sample_dev])
    by (left; repeat constructor; by eexists).
  assert (Hans : read_answer "stable" ["stable"; "dev"] ["dev"] = (Ok "dev", []))
    by (vm_compute; reflexivity).
  split_and!; try done.
  apply (@selectFromTable_returns_chosen_record image_by_name container_by_name
           (OImage sample_stable) [OImage sample_dev] (Some ClsExegolImage) None
           (mkWorld Normal [] [] [] ["dev"]) "dev" [] Hi Hc Hall Hans).
  by left.
Defined.


(** C9 at a layer ["b"] when only ["a"] was announced. *)
Lemma undiscovered_layer_at_sample :
  (Some "b" ∉ discovered [pull_event "Pulling fs layer" (Some "a")])
  ∧ ∃ t0 w0 row0,
      downloadDockerLayer [pull_event "Pulling fs layer" (Some "a")] false sample_world
      = (Ok (t0, []), w0)
      ∧ (Some "b" ∉ layers t0)
      ∧ phase_row false t0 = Some row0
      ∧ (∃ t1 w1 i r,
           downloadDockerLayer
             ([pull_event "Pulling fs layer" (Some "a")]
              ++ [progress_event false (Some "b") None None]) false sample_world
           = (Ok (t1, []), w1)
           ∧ task_pool false t1 !! Some "b" = Some i
           ∧ tasks (progress t1) !! i = Some r
           ∧ (task_pool false t0 !! Some "b" = None →
                tasks (progress t0) !! i = None ∧ layer r = Some (Some "b"))
           ∧ layers t1 = layers t0)
      ∧ (∃ t2 w2 row2,
           downloadDockerLayer
             ([pull_event "Pulling fs layer" (Some "a")]
              ++ [finish_event false (Some "b") None None]) false sample_world
           = (Ok (t2, []), w2)
           ∧ Some "b" ∈ layer_pool false t2
           ∧ layers t2 = layers t0
           ∧ phase_row false t2 = Some row2
           ∧ completed row2 = Z.of_nat (size (layer_pool false t2))
           ∧ (Some "b" ∉ layer_pool false t0 → completed row2 = completed row0 + 1)
           ∧ total row2 = total row0).
Proof.
  assert (H : Some "b" ∉ discovered [pull_event "Pulling fs layer" (Some "a")]).
  { simpl. rewrite union_empty_r_L. apply not_elem_of_singleton. congruence. }
  split; [exact H|].
  exact (undiscovered_layers_are_tracked
           [pull_event "Pulling fs layer" (Some "a")] false (Some "b") None None
           sample_world H).
Defined.

(** * Further properties *)

(** ** The loop as a fold over the events read *)

Section Fold.

Implicit Types (t : Tracker) (line : Line) (w : World) (q : bool)
  (stream : list Line).

(** An operation-complete event is none of the tracked ones. *)
Lemma operation_complete_not_tracked line :
  is_operation_complete line = true → is_tracked line = false.
Proof.
  unfold is_operation_complete, is_tracked, is_discover, is_finish, is_progress.
  intros [Hpf Hoc]%andb_true_iff. apply negb_true_iff in Hpf. rewrite Hpf.
  destruct (String.eqb_spec (status_of line) "Pulling fs layer") as [E|_];
    [by rewrite E in Hoc|].
  destruct (String.eqb_spec (status_of line) "Download complete") as [E|_];
    [by rewrite E in Hoc|].
  destruct (String.eqb_spec (status_of line) "Pull complete") as [E|_];
    [by rewrite E in Hoc|].
  destruct (String.eqb_spec (status_of line) "Downloading") as [E|_];
    [by rewrite E in Hoc|].
  destruct (String.eqb_spec (status_of line) "Extracting") as [E|_];
    [by rewrite E in Hoc|].
  done.
Qed.

(** One iteration is the change of the local variables together with the
    log calls of the event; the mode only decides the [break]. *)
Lemma loop_body_track line q t w :
  loop_body line q t w =
    match track line t with
    | Ok t' => (Ok (t', q && is_operation_complete line), logged w (line_log line))
    | Raise e => (Raise e, w)
    end.
Proof.
  assert (Hw : logged w [] = w).
  { unfold logged. rewrite app_nil_r. by destruct w. }
  destruct (is_operation_complete line) eqn:Hoc.
  { rewrite loop_body_operation_complete by done.
    pose proof (operation_complete_not_tracked line Hoc) as Hnt.
    unfold track, line_log. rewrite Hoc.
    unfold is_tracked in Hnt.
    apply orb_false_iff in Hnt as [Hnt Hp]. apply orb_false_iff in Hnt as [Hnt Hf].
    apply orb_false_iff in Hnt as [Hd Hpf].
    rewrite Hd, Hpf, Hf, Hp. by rewrite andb_true_r. }
  unfold line_log, is_tracked, track. rewrite Hoc, andb_false_r.
  destruct (is_discover line) eqn:Hdis.
  { rewrite loop_body_discover by done. simpl. unfold mbind, M_bind, bind, lift.
    destruct (pulling_fs_layer (l_id line) t); by rewrite ?Hw. }
  destruct (PyStr.contains "Pulling from " (status_of line)) eqn:Hpf.
  { unfold loop_body. fold (status_of line). unfold is_discover in Hdis.
    rewrite Hdis, Hpf. simpl. unfold mbind, M_bind, bind, lift.
    destruct (pulling_from (status_of line) line t); by rewrite ?Hw. }
  destruct (is_finish line) eqn:Hfin.
  { rewrite loop_body_finish by done. simpl. unfold mbind, M_bind, bind, lift.
    destruct (layer_complete (status_of line) (l_id line) t); by rewrite ?Hw. }
  destruct (is_progress line) eqn:Hpro.
  { rewrite loop_body_progress by done. simpl. unfold mbind, M_bind, bind, lift.
    destruct (layer_progress (status_of line) (l_id line) line t); by rewrite ?Hw. }
  simpl. unfold loop_body. fold (status_of line).
  unfold is_discover in Hdis. unfold is_finish in Hfin. unfold is_progress in Hpro.
  unfold is_operation_complete in Hoc. rewrite Hpf in Hoc. simpl in Hoc.
  by rewrite Hdis, Hpf, Hfin, Hpro, Hoc.
Qed.

(** The change of the local variables by one event, from a well-formed
    state. *)
Lemma track_ok line t :
  tracker_wf t →
  ∃ t',
    track line t = Ok t'
    ∧ tracker_wf t'
    ∧ layers t' = (if is_discover line then {[l_id line]} ∪ layers t else layers t)
    ∧ (∀ ph, layer_pool ph t' =
             if is_finish line && bool_decide (ph = phase_of line)
             then {[l_id line]} ∪ layer_pool ph t else layer_pool ph t).
Proof.
  intros Hwf.
  destruct (loop_body_ok line false t (mkWorld Normal [] [] [] []) Hwf)
    as (t' & w' & Hbody & Hwf' & HL & HP & _).
  rewrite loop_body_track in Hbody.
  destruct (track line t) as [t''|]; [|done].
  injection Hbody as <- _. by exists t''.
Qed.

Lemma logged_logged w a b : logged (logged w a) b = logged w (a ++ b).
Proof. unfold logged. simpl. by rewrite (assoc_L (++)). Qed.

(** The loop is the fold of [track] over the events read, and its log the
    log calls of those events. *)
Lemma for_line_in_tracks stream q t w :
  tracker_wf t →
  ∃ t',
    tracks (events_read q stream) t = Ok t'
    ∧ tracker_wf t'
    ∧ for_line_in stream q t w =
        (Ok (t', events_unread q stream),
         logged w (flat_map line_log (events_read q stream))).
Proof.
  revert t w. induction stream as [|line stream IH]; intros t w Hwf.
  - exists t. split_and!; try done. simpl. unfold logged.
    rewrite app_nil_r. by destruct w.
  - destruct (track_ok line t Hwf) as (t1 & Htrack & Hwf1 & _).
    assert (Hbody : loop_body line q t w
                    = (Ok (t1, q && is_operation_complete line),
                       logged w (line_log line)))
      by (by rewrite loop_body_track, Htrack).
    rewrite (for_line_in_cons _ _ _ _ _ _ _ Hbody). simpl.
    destruct (q && is_operation_complete line) eqn:Hbreak.
    + exists t1. simpl. rewrite Htrack. split_and!; try done.
      by rewrite app_nil_r.
    + destruct (IH t1 (logged w (line_log line)) Hwf1) as (t' & Hts & Hwf' & Hrun).
      exists t'. simpl. rewrite Htrack. simpl. split_and!; try done.
      by rewrite Hrun, logged_logged.
Qed.

End Fold.

Section Reads.

Implicit Types (t : Tracker) (line : Line) (w : World) (q : bool)
  (stream : list Line).

Lemma events_read_unread q stream :
  stream = events_read q stream ++ events_unread q stream.
Proof.
  induction stream as [|line stream IH]; [done|]. simpl.
  destruct (q && is_operation_complete line); [done|]. simpl. by rewrite <- IH.
Qed.

Lemma events_read_all stream :
  events_read false stream = stream ∧ events_unread false stream = [].
Proof. induction stream as [|line stream [IH1 IH2]]; [done|]. simpl. by rewrite IH1. Qed.

Lemma events_read_no_complete stream :
  Forall (λ x, is_operation_complete x = false) stream →
  events_read true stream = stream ∧ events_unread true stream = [].
Proof.
  induction 1 as [|line stream Hx _ [IH1 IH2]]; [done|]. simpl.
  by rewrite Hx, IH1.
Qed.

(** Reading the events read once more, in any mode, reads them all. *)
Lemma events_read_idem q q' stream :
  (q' = true → q = true) →
  events_read q' (events_read q stream) = events_read q stream.
Proof.
  intros Hq. induction stream as [|line stream IH]; [done|]. simpl.
  destruct (q && is_operation_complete line) eqn:E; simpl.
  - by destruct (q' && is_operation_complete line).
  - destruct (q' && is_operation_complete line) eqn:E'; [|by rewrite IH].
    apply andb_true_iff in E' as [-> E']. rewrite Hq, E' in E by done. done.
Qed.

(** The sets after a fold are those before it with the layers the events
    announce and finish. *)
Lemma tracks_sets stream t t' :
  tracker_wf t → tracks stream t = Ok t' →
  layers t' = discovered stream ∪ layers t
  ∧ ∀ ph, layer_pool ph t' = finished ph stream ∪ layer_pool ph t.
Proof.
  revert t. induction stream as [|line stream IH]; intros t Hwf Hrun.
  - injection Hrun as <-. simpl. split; [|intros ph]; by rewrite union_empty_l_L.
  - simpl in Hrun. destruct (track_ok line t Hwf) as (t1 & Ht & Hwf1 & HL & HP).
    rewrite Ht in Hrun. simpl in Hrun.
    destruct (IH t1 Hwf1 Hrun) as [HL' HP']. split.
    + rewrite HL', HL. simpl. destruct (is_discover line); [|done].
      rewrite (union_comm_L {[l_id line]} (discovered stream)).
      by rewrite (assoc_L (∪)).
    + intros ph. rewrite HP', HP. simpl.
      destruct (is_finish line && bool_decide (ph = phase_of line)); [|done].
      rewrite (union_comm_L {[l_id line]} (finished ph stream)).
      by rewrite (assoc_L (∪)).
Qed.

Lemma discovered_app stream stream' :
  discovered (stream ++ stream') = discovered stream ∪ discovered stream'.
Proof.
  induction stream as [|line stream IH]; simpl; [by rewrite union_empty_l_L|].
  destruct (is_discover line); [|done]. by rewrite IH, (assoc_L (∪)).
Qed.

Lemma finished_app ph stream stream' :
  finished ph (stream ++ stream') = finished ph stream ∪ finished ph stream'.
Proof.
  induction stream as [|line stream IH]; simpl; [by rewrite union_empty_l_L|].
  destruct (is_finish line && bool_decide (ph = phase_of line)); [|done].
  by rewrite IH, (assoc_L (∪)).
Qed.

(** Events that are not tracked leave the local variables alone. *)
Lemma track_not_tracked line t : is_tracked line = false → track line t = Ok t.
Proof.
  unfold is_tracked, track. intros H.
  apply orb_false_iff in H as [H Hp]. apply orb_false_iff in H as [H Hf].
  apply orb_false_iff in H as [Hd Hpf]. by rewrite Hd, Hpf, Hf, Hp.
Qed.

Lemma tracks_filter_tracked stream t :
  tracks (List.filter is_tracked stream) t = tracks stream t.
Proof.
  revert t. induction stream as [|line stream IH]; intros t; [done|]. simpl.
  destruct (is_tracked line) eqn:E; simpl.
  - destruct (track line t); simpl; [apply IH | done].
  - rewrite (track_not_tracked line t E). simpl. apply IH.
Qed.

Lemma tracks_filter_known stream t :
  tracks (List.filter is_known stream) t = tracks stream t.
Proof.
  revert t. induction stream as [|line stream IH]; intros t; [done|]. simpl.
  destruct (is_known line) eqn:E; simpl.
  - destruct (track line t); simpl; [apply IH | done].
  - apply orb_false_iff in E as [E _].
    rewrite (track_not_tracked line t E). simpl. apply IH.
Qed.

(** Dropping the events of no known kind and reading commute: such an
    event never ends the run. *)
Lemma events_read_filter_known q stream :
  events_read q (List.filter is_known stream)
  = List.filter is_known (events_read q stream)
  ∧ events_unread q (List.filter is_known stream)
    = List.filter is_known (events_unread q stream).
Proof.
  induction stream as [|line stream [IH1 IH2]]; [done|]. simpl.
  destruct (is_known line) eqn:E; simpl.
  - destruct (q && is_operation_complete line); simpl; rewrite ?E; [done|].
    by rewrite IH1.
  - apply orb_false_iff in E as [Et Eoc]. rewrite Eoc, andb_false_r. simpl.
    unfold is_known. by rewrite Et, Eoc.
Qed.

(** The run of [downloadDockerLayer], from the fold. *)
Lemma downloadDockerLayer_tracks stream q w :
  ∃ t,
    tracks (events_read q stream) initial = Ok t
    ∧ tracker_wf t
    ∧ downloadDockerLayer stream q w =
        (Ok (t, events_unread q stream),
         logged w (flat_map line_log (events_read q stream))).
Proof. apply for_line_in_tracks, initial_wf. Qed.

End Reads.

(** X1. [downloadDockerLayer] reads its stream to the end, or in
    quick-exit mode up to the first operation-complete event, and leaves
    the rest unread. Its only effect on the world is the log: one success
    call for each operation-complete event read and one debug call for each
    event read that is of no known kind, in the order of the events. *)
Theorem downloadDockerLayer_reads_and_logs
    (stream : list Line) (quick_exit : bool) (w : World) :
  ∃ t,
    downloadDockerLayer stream quick_exit w =
      (Ok (t, events_unread quick_exit stream),
       logged w (flat_map line_log (events_read quick_exit stream)))
    ∧ stream = events_read quick_exit stream ++ events_unread quick_exit stream
    ∧ events_read false stream = stream
    ∧ events_unread false stream = [].
Proof.
  destruct (downloadDockerLayer_tracks stream quick_exit w) as (t & _ & _ & Hrun).
  exists t. split; [done|]. split; [apply events_read_unread|].
  apply events_read_all.
Qed.

(** X2. At exit the set of seen layers is the set of the layers announced
    by the events read, and the set of finished layers of each phase is
    the set of the layers named by the finish events of that phase. *)
Theorem sets_are_the_announced_and_finished_layers
    (stream : list Line) (quick_exit : bool) (w : World) :
  ∃ t unread w',
    downloadDockerLayer stream quick_exit w = (Ok (t, unread), w')
    ∧ layers t = discovered (events_read quick_exit stream)
    ∧ layers_downloaded t = finished false (events_read quick_exit stream)
    ∧ layers_extracted t = finished true (events_read quick_exit stream).
Proof.
  destruct (downloadDockerLayer_tracks stream quick_exit w) as (t & Hts & _ & Hrun).
  destruct (tracks_sets _ _ _ initial_wf Hts) as [HL HP].
  exists t, (events_unread quick_exit stream),
    (logged w (flat_map line_log (events_read quick_exit stream))).
  pose proof (HP false) as HPd. pose proof (HP true) as HPe.
  simpl in HL, HPd, HPe. rewrite union_empty_r_L in HL, HPd, HPe.
  by split_and!.
Qed.

(** X3. More events never shrink the sets nor lower the counters: after a
    stream followed by more events, each set contains what it held after
    the stream alone, and the total and the completed count of each
    aggregate row are at least what they were. *)
Theorem sets_and_counters_never_decrease
    (stream more : list Line) (w : World) :
  ∃ t1 w1 t2 w2,
    downloadDockerLayer stream false w = (Ok (t1, []), w1)
    ∧ downloadDockerLayer (stream ++ more) false w = (Ok (t2, []), w2)
    ∧ layers t1 ⊆ layers t2
    ∧ (∀ ph, layer_pool ph t1 ⊆ layer_pool ph t2)
    ∧ (∀ ph, ∃ row1 row2,
         phase_row ph t1 = Some row1 ∧ phase_row ph t2 = Some row2
         ∧ total row1 ≤ total row2 ∧ completed row1 ≤ completed row2).
Proof.
  destruct (downloadDockerLayer_tracks stream false w) as (t1 & Hts1 & Hwf1 & Hrun1).
  destruct (downloadDockerLayer_tracks (stream ++ more) false w)
    as (t2 & Hts2 & Hwf2 & Hrun2).
  destruct (events_read_all stream) as [Hr1 Hu1].
  destruct (events_read_all (stream ++ more)) as [Hr2 Hu2].
  rewrite Hr1 in Hts1. rewrite Hr2 in Hts2. rewrite Hu1 in Hrun1. rewrite Hu2 in Hrun2.
  destruct (tracks_sets _ _ _ initial_wf Hts1) as [HL1 HP1].
  destruct (tracks_sets _ _ _ initial_wf Hts2) as [HL2 HP2].
  assert (HsubL : layers t1 ⊆ layers t2).
  { rewrite HL1, HL2, discovered_app.
    apply union_mono_r. apply union_subseteq_l. }
  assert (HsubP : ∀ ph, layer_pool ph t1 ⊆ layer_pool ph t2).
  { intros ph. rewrite HP1, HP2, finished_app.
    apply union_mono_r. apply union_subseteq_l. }
  eexists t1, _, t2, _. split_and!; try done.
  intros ph.
  destruct (proj2 Hwf1 ph) as (row1 & Hrow1 & Ht1 & Hc1).
  destruct (proj2 Hwf2 ph) as (row2 & Hrow2 & Ht2 & Hc2).
  exists row1, row2. split_and!; try done.
  - rewrite Ht1, Ht2. apply Nat2Z.inj_le. by apply subseteq_size.
  - rewrite Hc1, Hc2. apply Nat2Z.inj_le. by apply subseteq_size.
Qed.

(** X4. A run in quick-exit mode ends in the state, and with the log, of a
    run to the end over just the events it read. *)
Theorem quick_exit_is_the_full_run_over_the_events_read
    (stream : list Line) (w : World) :
  ∃ t w',
    downloadDockerLayer stream true w = (Ok (t, events_unread true stream), w')
    ∧ downloadDockerLayer (events_read true stream) false w = (Ok (t, []), w').
Proof.
  destruct (downloadDockerLayer_tracks stream true w) as (t & Hts & _ & Hrun).
  destruct (downloadDockerLayer_tracks (events_read true stream) false w)
    as (t' & Hts' & _ & Hrun').
  rewrite (events_read_idem true false) in Hts', Hrun' by done.
  rewrite (proj2 (events_read_all _)) in Hrun'.
  rewrite Hts in Hts'. injection Hts' as <-.
  by eexists t, _.
Qed.

(** X5. On a stream without an operation-complete event the mode makes no
    difference. *)
Theorem quick_exit_without_completion_reads_all
    (stream : list Line) (w : World) :
  Forall (λ x, is_operation_complete x = false) stream →
  downloadDockerLayer stream true w = downloadDockerLayer stream false w
  ∧ ∃ t w', downloadDockerLayer stream true w = (Ok (t, []), w').
Proof.
  intros Hno.
  destruct (downloadDockerLayer_tracks stream true w) as (t & Hts & _ & Hrun).
  destruct (downloadDockerLayer_tracks stream false w) as (t' & Hts' & _ & Hrun').
  destruct (events_read_no_complete stream Hno) as [Hr Hu].
  destruct (events_read_all stream) as [Hr' Hu'].
  rewrite Hr in Hts, Hrun. rewrite Hu in Hrun.
  rewrite Hr' in Hts', Hrun'. rewrite Hu' in Hrun'.
  rewrite Hts in Hts'. injection Hts' as <-.
  split; [by rewrite Hrun, Hrun'|]. by eexists t, _.
Qed.

(** X6. Events of no known kind, those the last branch logs at debug
    level, never matter to the local variables: in either mode, dropping
    them from the stream gives the same state at exit and leaves unread
    what was unread, without them. In a run to the end the
    operation-complete events do not matter either, so that only the four
    tracked kinds do; in quick-exit mode they matter, since the first of
    them ends the run. *)
Theorem events_of_no_known_kind_do_not_change_the_state
    (stream : list Line) (quick_exit : bool) (w : World) :
  (∃ t w1 w2,
     downloadDockerLayer stream quick_exit w
     = (Ok (t, events_unread quick_exit stream), w1)
     ∧ downloadDockerLayer (List.filter is_known stream) quick_exit w
       = (Ok (t, List.filter is_known (events_unread quick_exit stream)), w2))
  ∧ (∃ t w1 w2,
       downloadDockerLayer stream false w = (Ok (t, []), w1)
       ∧ downloadDockerLayer (List.filter is_tracked stream) false w
         = (Ok (t, []), w2)).
Proof.
  split.
  - destruct (downloadDockerLayer_tracks stream quick_exit w) as (t & Hts & _ & Hrun).
    destruct (downloadDockerLayer_tracks (List.filter is_known stream) quick_exit w)
      as (t' & Hts' & _ & Hrun').
    destruct (events_read_filter_known quick_exit stream) as [Hr Hu].
    rewrite Hr in Hts'. rewrite Hu in Hrun'.
    rewrite tracks_filter_known, Hts in Hts'. injection Hts' as <-.
    by eexists t, _, _.
  - destruct (downloadDockerLayer_tracks stream false w) as (t & Hts & _ & Hrun).
    destruct (downloadDockerLayer_tracks (List.filter is_tracked stream) false w)
      as (t' & Hts' & _ & Hrun').
    rewrite (proj1 (events_read_all _)) in Hts.
    rewrite (proj1 (events_read_all _)) in Hts'.
    rewrite (proj2 (events_read_all _)) in Hrun.
    rewrite (proj2 (events_read_all _)) in Hrun'.
    rewrite tracks_filter_tracked, Hts in Hts'. injection Hts' as <-.
    by eexists t, _, _.
Qed.

(** ** The rows of the display after each kind of event *)

Section Rows.

Implicit Types (t : Tracker) (line : Line) (lid : LayerId) (ph : bool).

Lemma pulling_fs_layer_dom t lid t' :
  tracker_wf t → pulling_fs_layer lid t = Ok t' →
  task_layers_download t' = task_layers_download t
  ∧ task_layers_extract t' = task_layers_extract t
  ∧ ∀ i, is_Some (tasks (progress t') !! i) ↔ is_Some (tasks (progress t) !! i).
Proof.
  intros Hwf Hrun.
  destruct (wf_two_rows t Hwf) as (rd & re & Hd & He & _).
  pose proof (sh_rows_distinct t (proj1 Hwf)) as Hne.
  unfold pulling_fs_layer in Hrun.
  rewrite (update_Some _ _ _ _ _ Hd) in Hrun; simpl in Hrun.
  erewrite update_Some in Hrun; last first.
  { rewrite setTask_lookup. rewrite decide_False by done. exact He. }
  simpl in Hrun. injection Hrun as <-. simpl. split_and!; try done.
  intros i.
  destruct (decide (i = task_layers_extract t)) as [->|];
    [rewrite lookup_insert_eq, He; by split; eexists|].
  rewrite lookup_insert_ne by done.
  destruct (decide (i = task_layers_download t)) as [->|];
    [rewrite lookup_insert_eq, Hd; by split; eexists|].
  by rewrite lookup_insert_ne.
Qed.

Lemma pulling_from_dom t status line t' :
  tracker_wf t → pulling_from status line t = Ok t' →
  task_layers_download t' = task_layers_download t
  ∧ task_layers_extract t' = task_layers_extract t
  ∧ ∀ i, is_Some (tasks (progress t') !! i) ↔ is_Some (tasks (progress t) !! i).
Proof.
  intros Hwf Hrun.
  destruct (wf_two_rows t Hwf) as (rd & re & Hd & He & _).
  pose proof (sh_rows_distinct t (proj1 Hwf)) as Hne.
  unfold pulling_from in Hrun.
  rewrite (set_description_Some _ _ _ _ Hd) in Hrun; simpl in Hrun.
  erewrite set_description_Some in Hrun; last first.
  { rewrite setTask_lookup. rewrite decide_False by done. exact He. }
  simpl in Hrun. injection Hrun as <-. simpl. split_and!; try done.
  intros i.
  destruct (decide (i = task_layers_extract t)) as [->|];
    [rewrite lookup_insert_eq, He; by split; eexists|].
  rewrite lookup_insert_ne by done.
  destruct (decide (i = task_layers_download t)) as [->|];
    [rewrite lookup_insert_eq, Hd; by split; eexists|].
  by rewrite lookup_insert_ne.
Qed.

Lemma layer_complete_dom t status lid t' :
  tracker_wf t → layer_complete status lid t = Ok t' →
  task_layers_download t' = task_layers_download t
  ∧ task_layers_extract t' = task_layers_extract t
  ∧ ∀ i, is_Some (tasks (progress t') !! i) ↔
         is_Some (tasks (progress t) !! i)
         ∧ task_pool (String.eqb status "Pull complete") t !! lid ≠ Some i.
Proof.
  intros Hwf Hrun.
  destruct (wf_two_rows t Hwf) as (rd & re & Hd & He & _).
  destruct Hwf as [Hsh _].
  pose proof (sh_rows_distinct t Hsh) as Hne.
  unfold layer_complete in Hrun.
  change (if String.eqb status "Pull complete" then extracting t else downloading t)
    with (task_pool (String.eqb status "Pull complete") t) in Hrun.
  destruct (task_pool (String.eqb status "Pull complete") t !! lid) as [j|] eqn:Hl.
  - destruct (sh_pool t Hsh _ lid j Hl) as ([r Hj] & Hjd & Hje).
    rewrite (remove_task_Some _ _ _ Hj) in Hrun. simpl in Hrun.
    erewrite update_Some in Hrun;
      last by (simpl; rewrite lookup_delete_ne by done; exact Hd).
    simpl in Hrun.
    erewrite update_Some in Hrun; last first.
    { rewrite setTask_lookup, decide_False by done. simpl.
      rewrite lookup_delete_ne by done. exact He. }
    simpl in Hrun. injection Hrun as <-. simpl. split_and!; try done.
    intros i.
    destruct (decide (i = task_layers_extract t)) as [->|].
    { rewrite lookup_insert_eq, He. split; [|by eexists].
      intros _. split; [by eexists | congruence]. }
    rewrite lookup_insert_ne by done.
    destruct (decide (i = task_layers_download t)) as [->|].
    { rewrite lookup_insert_eq, Hd. split; [|by eexists].
      intros _. split; [by eexists | congruence]. }
    rewrite lookup_insert_ne by done.
    destruct (decide (i = j)) as [->|].
    { rewrite lookup_delete_eq. split; [by intros [? ?] | by intros [_ ?]]. }
    rewrite lookup_delete_ne by done. split; [|by intros [? _]].
    intros Hi. split; [done | congruence].
  - simpl in Hrun.
    erewrite update_Some in Hrun; last exact Hd.
    simpl in Hrun.
    erewrite update_Some in Hrun; last first.
    { rewrite setTask_lookup, decide_False by done. exact He. }
    simpl in Hrun. injection Hrun as <-. simpl. split_and!; try done.
    intros i.
    destruct (decide (i = task_layers_extract t)) as [->|].
    { rewrite lookup_insert_eq, He. split; [|by eexists].
      intros _. split; [by eexists | done]. }
    rewrite lookup_insert_ne by done.
    destruct (decide (i = task_layers_download t)) as [->|].
    { rewrite lookup_insert_eq, Hd. split; [|by eexists].
      intros _. split; [by eexists | done]. }
    rewrite lookup_insert_ne by done. split; [done | by intros [? _]].
Qed.

(** The row of a layer after a progress event: a new row when the pool had
    no task for the layer, the old row with a new completed count
    otherwise. Every other row but the extract row is as it was. *)
Lemma layer_progress_rows t status lid line t' :
  tracker_wf t → layer_progress status lid line t = Ok t' →
  task_layers_download t' = task_layers_download t
  ∧ task_layers_extract t' = task_layers_extract t
  ∧ ∃ i r,
      task_pool (String.eqb status "Extracting") t' !! lid = Some i
      ∧ tasks (progress t') !! i = Some r
      ∧ match task_pool (String.eqb status "Extracting") t !! lid with
        | None =>
            i = task_index (progress t)
            ∧ r = mkTask ("[" +:+ (if String.eqb status "Downloading"
                                   then "blue" else "green")
                              +:+ "]" +:+ status +:+ " " +:+ PyStr.str_of_opt lid)
                         (progressDetail_get line pd_total)
                         (progressDetail_get line pd_current) true (Some lid)
        | Some j =>
            i = j
            ∧ ∃ r0, tasks (progress t) !! j = Some r0
                    ∧ r = mkTask (description r0) (total r0)
                                 (progressDetail_get line pd_current)
                                 (started r0) (layer r0)
        end
      ∧ (∀ k, k ≠ i → k ≠ task_layers_extract t →
              tasks (progress t') !! k = tasks (progress t) !! k)
      ∧ is_Some (tasks (progress t') !! task_layers_extract t).
Proof.
  intros Hwf Hrun.
  destruct (wf_two_rows t Hwf) as (rd & re & Hd & He & _).
  destruct Hwf as [Hsh _].
  pose proof (sh_rows_distinct t Hsh) as Hne.
  destruct (start_extract_ok t (String.eqb status "Extracting") re He)
    as (re' & Hstart & _).
  unfold layer_progress in Hrun. rewrite Hstart in Hrun. simpl in Hrun.
  change (if String.eqb status "Extracting" then extracting t else downloading t)
    with (task_pool (String.eqb status "Extracting") t) in Hrun.
  destruct (task_pool (String.eqb status "Extracting") t !! lid) as [j|] eqn:Hl.
  - destruct (sh_pool t Hsh _ lid j Hl) as ([rj Hj] & Hjd & Hje).
    simpl in Hrun.
    erewrite update_Some in Hrun; last first.
    { rewrite setTask_lookup, decide_False by done. exact Hj. }
    simpl in Hrun. injection Hrun as <-. simpl. split_and!; try done.
    eexists j, _. split_and!.
    + by destruct (String.eqb status "Extracting").
    + apply lookup_insert_eq.
    + done.
    + by exists rj.
    + intros k Hk1 Hk2. by rewrite !lookup_insert_ne.
    + rewrite lookup_insert_ne, lookup_insert_eq by done. by eexists.
  - simpl in Hrun.
    erewrite update_Some in Hrun; last by (simpl; apply lookup_insert_eq).
    simpl in Hrun. injection Hrun as <-. simpl.
    assert (Hfresh : tasks (progress t) !! task_index (progress t) = None).
    { destruct (tasks (progress t) !! task_index (progress t)) eqn:E; [|done].
      assert (task_index (progress t) < task_index (progress t))%nat
        by (apply (sh_bound t Hsh); eauto). lia. }
    assert (Hnx : task_index (progress t) ≠ task_layers_extract t) by congruence.
    split_and!; try done.
    eexists (task_index (progress t)), _. split_and!.
    + destruct (String.eqb status "Extracting"); simpl; apply lookup_insert_eq.
    + apply lookup_insert_eq.
    + done.
    + done.
    + intros k Hk1 Hk2. by rewrite !lookup_insert_ne.
    + rewrite !lookup_insert_ne, lookup_insert_eq by done. by eexists.
Qed.

(** Every row stays an aggregate row or the task of a layer of a pool. *)
Lemma track_no_orphan line t t' :
  tracker_wf t → no_orphan_rows t → track line t = Ok t' → no_orphan_rows t'.
Proof.
  intros Hwf Hno Hrun. unfold track in Hrun.
  destruct (is_discover line).
  { destruct (pulling_fs_layer_ok t (l_id line) Hwf) as (t1 & Hrun1 & _ & _ & _ & HT & _).
    rewrite Hrun1 in Hrun. injection Hrun as ->.
    destruct (pulling_fs_layer_dom _ _ _ Hwf Hrun1) as (Hd & He & Hdom).
    intros i Hi. rewrite Hd, He. apply Hdom in Hi.
    destruct (Hno i Hi) as [?|[?|(ph & l & Hp)]]; [by left | by right; left |].
    right; right. exists ph, l. by rewrite HT. }
  destruct (PyStr.contains "Pulling from " (status_of line)).
  { destruct (pulling_from_ok t (status_of line) line Hwf)
      as (t1 & Hrun1 & _ & _ & _ & HT & _).
    rewrite Hrun1 in Hrun. injection Hrun as ->.
    destruct (pulling_from_dom _ _ _ _ Hwf Hrun1) as (Hd & He & Hdom).
    intros i Hi. rewrite Hd, He. apply Hdom in Hi.
    destruct (Hno i Hi) as [?|[?|(ph & l & Hp)]]; [by left | by right; left |].
    right; right. exists ph, l. by rewrite HT. }
  destruct (is_finish line).
  { destruct (layer_complete_ok t (status_of line) (l_id line) Hwf)
      as (t1 & Hrun1 & _ & _ & _ & _ & HT1 & HT2 & _).
    rewrite Hrun1 in Hrun. injection Hrun as ->.
    destruct (layer_complete_dom _ _ _ _ Hwf Hrun1) as (Hd & He & Hdom).
    intros i Hi. rewrite Hd, He. apply Hdom in Hi as [Hi Hgone].
    destruct (Hno i Hi) as [?|[?|(ph & l & Hp)]]; [by left | by right; left |].
    right; right. exists ph, l.
    destruct (decide (ph = String.eqb (status_of line) "Pull complete")) as [->|Hph].
    - rewrite HT1. rewrite lookup_delete_ne; [done|]. by intros <-.
    - assert (ph = negb (String.eqb (status_of line) "Pull complete")) as ->
        by (destruct ph, (String.eqb (status_of line) "Pull complete");
            simpl; congruence).
      by rewrite HT2. }
  destruct (is_progress line); [|by injection Hrun as <-].
  destruct (layer_progress_ok t (status_of line) (l_id line) line Hwf)
    as (t1 & i0 & r0 & Hrun1 & _ & _ & _ & HT1 & HT2 & _).
  rewrite Hrun1 in Hrun. injection Hrun as ->.
  destruct (layer_progress_rows _ _ _ _ _ Hwf Hrun1)
    as (Hd & He & i1 & r1 & Hp1 & Hr1 & Hcase & Hframe & _).
  assert (i1 = i0) as ->.
  { rewrite HT1, lookup_insert_eq in Hp1. by injection Hp1. }
  intros i Hi. rewrite Hd, He.
  destruct (decide (i = task_layers_extract t)) as [->|Hie]; [by right; left|].
  destruct (decide (i = i0)) as [->|Hi0].
  { right; right. by exists (String.eqb (status_of line) "Extracting"), (l_id line). }
  rewrite Hframe in Hi by done.
  destruct (Hno i Hi) as [?|[?|(ph & l & Hp)]]; [by left | by right; left |].
  right; right. exists ph, l.
  destruct (decide (ph = String.eqb (status_of line) "Extracting")) as [->|Hph].
  - rewrite HT1. rewrite lookup_insert_ne; [done|].
    intros <-. rewrite Hp in Hcase. by destruct Hcase as [-> _].
  - assert (ph = negb (String.eqb (status_of line) "Extracting")) as ->
      by (destruct ph, (String.eqb (status_of line) "Extracting");
          simpl; congruence).
    by rewrite HT2.
Qed.

Lemma tracks_no_orphan stream t t' :
  tracker_wf t → no_orphan_rows t → tracks stream t = Ok t' → no_orphan_rows t'.
Proof.
  revert t. induction stream as [|line stream IH]; intros t Hwf Hno Hrun.
  - by injection Hrun as <-.
  - simpl in Hrun. destruct (track_ok line t Hwf) as (t1 & Ht & Hwf1 & _).
    rewrite Ht in Hrun. simpl in Hrun.
    apply (IH t1); [done | by apply (track_no_orphan line t) | done].
Qed.

Lemma initial_no_orphan : no_orphan_rows initial.
Proof.
  intros i [r Hi]. unfold initial in Hi; simpl in Hi.
  destruct (decide (i = 1%nat)) as [->|]; [by right; left|].
  rewrite lookup_insert_ne in Hi by done.
  destruct (decide (i = 0%nat)) as [->|]; [by left|].
  by rewrite lookup_insert_ne in Hi.
Qed.

(** The aggregate rows after a ["Pulling from "] event: new descriptions,
    the rest as it was. *)
Lemma pulling_from_rows t status line t' rd re :
  tracker_wf t → pulling_from status line t = Ok t' →
  download_row t = Some rd → extract_row t = Some re →
  download_row t'
  = Some (mkTask ("[bold red]Downloading "
                    +:+ PyStr.replace "Pulling from " "" status +:+ ":"
                    +:+ default "latest" (l_id line))
                 (total rd) (completed rd) (started rd) (layer rd))
  ∧ extract_row t'
    = Some (mkTask ("[bold gold1]Extracting "
                      +:+ PyStr.replace "Pulling from " "" status +:+ ":"
                      +:+ default "latest" (l_id line))
                   (total re) (completed re) (started re) (layer re)).
Proof.
  intros Hwf Hrun Hd He. unfold download_row, extract_row in *.
  pose proof (sh_rows_distinct t (proj1 Hwf)) as Hne.
  unfold pulling_from in Hrun.
  rewrite (set_description_Some _ _ _ _ Hd) in Hrun; simpl in Hrun.
  erewrite set_description_Some in Hrun; last first.
  { rewrite setTask_lookup. rewrite decide_False by done. exact He. }
  simpl in Hrun. injection Hrun as <-. simpl.
  rewrite lookup_insert_ne, !lookup_insert_eq by done. done.
Qed.

(** Removing the occurrences of a word from the word followed by a text
    without it leaves the text. *)
Lemma replace_from_skip old s1 s2 :
  PyStr.replace_from old "" (String.length s1) (s1 +:+ s2)
  = PyStr.replace_from old "" 0 s2.
Proof. induction s1 as [|c s1 IH]; simpl; [reflexivity | exact IH]. Qed.

Lemma prefix_append (s1 s2 : string) : String.prefix s1 (s1 +:+ s2) = true.
Proof.
  induction s1 as [|c s1 IH]; simpl; [by destruct s2|].
  destruct (Ascii.ascii_dec c c); [exact IH | done].
Qed.

Lemma contains_cons needle c hay :
  PyStr.contains needle (String c hay)
  = if String.prefix needle (String c hay) then true
    else PyStr.contains needle hay.
Proof. reflexivity. Qed.

Lemma replace_from_cons old c s :
  PyStr.replace_from old "" 0 (String c s)
  = if String.prefix old (String c s)
    then PyStr.replace_from old "" (Nat.pred (String.length old)) s
    else String c (PyStr.replace_from old "" 0 s).
Proof. reflexivity. Qed.

Lemma replace_none old s :
  PyStr.contains old s = false → PyStr.replace_from old "" 0 s = s.
Proof.
  induction s as [|c s IH]; [intros _; reflexivity|].
  rewrite contains_cons, replace_from_cons.
  destruct (String.prefix old (String c s)); [done|].
  intros Hc. f_equal. by apply IH.
Qed.

Lemma replace_prefix (c : ascii) (old name : string) :
  PyStr.contains (String c old) name = false →
  PyStr.replace (String c old) "" (String c old +:+ name) = name.
Proof.
  intros Hc. unfold PyStr.replace.
  change (String c old +:+ name) with (String c (old +:+ name)).
  rewrite replace_from_cons.
  change (String c (old +:+ name)) with (String c old +:+ name).
  rewrite prefix_append.
  change (Nat.pred (String.length (String c old))) with (String.length old).
  rewrite replace_from_skip. by apply replace_none.
Qed.

End Rows.

(** X7. The two phases are tracked apart: a finish event of one phase
    leaves the pool, the set of finished layers and the counters of the
    other phase as they were, and the task the layer has in the other pool
    stays a row of the display. *)
Theorem finish_event_leaves_the_other_phase
    (stream : list Line) (extract : bool) (lid : LayerId)
    (pd : option ProgressDetail) (text : option string) (w : World) :
  ∃ t0 w0 t1 w1 row0 row1,
    downloadDockerLayer stream false w = (Ok (t0, []), w0)
    ∧ downloadDockerLayer (stream ++ [finish_event extract lid pd text]) false w
      = (Ok (t1, []), w1)
    ∧ task_pool (negb extract) t1 = task_pool (negb extract) t0
    ∧ layer_pool (negb extract) t1 = layer_pool (negb extract) t0
    ∧ (∀ i, task_pool (negb extract) t0 !! lid = Some i →
            is_Some (tasks (progress t1) !! i))
    ∧ phase_row (negb extract) t0 = Some row0
    ∧ phase_row (negb extract) t1 = Some row1
    ∧ total row1 = total row0
    ∧ completed row1 = completed row0.
Proof.
  set (line := finish_event extract lid pd text).
  assert (Hfin : is_finish line = true) by (by destruct extract).
  assert (Hph : String.eqb (status_of line) "Pull complete" = extract)
    by (by destruct extract).
  destruct (downloadDockerLayer_snoc stream line w)
    as (t0 & w0 & t1 & w1 & Hrun0 & Hwf0 & _ & Hbody & Hrun1).
  rewrite loop_body_finish in Hbody by done.
  destruct (layer_complete_ok t0 (status_of line) lid Hwf0)
    as (t1' & Hlc & Hwf1 & HL & _ & HP & _ & HT & _ & _ & _).
  rewrite Hph in HP, HT.
  unfold mbind, M_bind, bind, lift in Hbody.
  change (l_id line) with lid in Hbody.
  rewrite Hlc in Hbody. simpl in Hbody. injection Hbody as <- <-.
  destruct (proj2 Hwf0 (negb extract)) as (row0 & Hrow0 & Ht0 & Hc0).
  destruct (proj2 Hwf1 (negb extract)) as (row1 & Hrow1 & Ht1 & Hc1).
  exists t0, w0, t1', w0, row0, row1. split_and!; try done.
  - intros i Hi. rewrite <- HT in Hi.
    by destruct (sh_pool t1' (proj1 Hwf1) _ _ _ Hi) as (? & _).
  - by rewrite Ht1, Ht0, HL.
  - by rewrite Hc1, Hc0, HP.
Qed.

(** X8. A progress event for a layer without a task in the pool of its
    phase adds a started row labelled with the phase and the layer, whose
    total and completed count are those of the event (100 where it has
    none); for a layer with a task it changes the completed count of its
    row and nothing else of it, so the total of a row is the one of the
    first progress event. No row of another layer changes. *)
Theorem progress_event_row
    (stream : list Line) (extract : bool) (lid : LayerId)
    (pd : option ProgressDetail) (text : option string) (w : World) :
  ∃ t0 w0 t1 w1 i r,
    downloadDockerLayer stream false w = (Ok (t0, []), w0)
    ∧ downloadDockerLayer (stream ++ [progress_event extract lid pd text]) false w
      = (Ok (t1, []), w1)
    ∧ task_pool extract t1 !! lid = Some i
    ∧ tasks (progress t1) !! i = Some r
    ∧ match task_pool extract t0 !! lid with
      | None =>
          tasks (progress t0) !! i = None
          ∧ r = mkTask ((if extract then "[green]Extracting " else "[blue]Downloading ")
                          +:+ PyStr.str_of_opt lid)
                       (default 100 (pd ≫= pd_total))
                       (default 100 (pd ≫= pd_current)) true (Some lid)
      | Some j =>
          i = j
          ∧ ∃ r0, tasks (progress t0) !! j = Some r0
                  ∧ r = mkTask (description r0) (total r0)
                               (default 100 (pd ≫= pd_current))
                               (started r0) (layer r0)
      end
    ∧ (∀ k, k ≠ i → k ≠ task_layers_extract t0 →
            tasks (progress t1) !! k = tasks (progress t0) !! k).
Proof.
  set (line := progress_event extract lid pd text).
  assert (Hpro : is_progress line = true) by (by destruct extract).
  assert (Hph : String.eqb (status_of line) "Extracting" = extract)
    by (by destruct extract).
  assert (Hget : ∀ key, progressDetail_get line key = default 100 (pd ≫= key)).
  { intros key. unfold progressDetail_get. simpl. by destruct pd. }
  destruct (downloadDockerLayer_snoc stream line w)
    as (t0 & w0 & t1 & w1 & Hrun0 & Hwf0 & _ & Hbody & Hrun1).
  rewrite loop_body_progress in Hbody by done.
  unfold mbind, M_bind, bind, lift in Hbody.
  change (l_id line) with lid in Hbody.
  destruct (layer_progress (status_of line) lid line t0) as [t1'|] eqn:Hlp; [|done].
  simpl in Hbody. injection Hbody as <- <-.
  destruct (layer_progress_rows _ _ _ _ _ Hwf0 Hlp)
    as (_ & _ & i & r & Hp & Hr & Hcase & Hframe & _).
  rewrite Hph in Hp, Hcase. rewrite !Hget in Hcase.
  exists t0, w0, t1', w0, i, r. split_and!; try done.
  destruct (task_pool extract t0 !! lid) as [j|]; [done|].
  destruct Hcase as [-> ->]. split.
  - destruct (tasks (progress t0) !! task_index (progress t0)) eqn:E; [|done].
    assert (task_index (progress t0) < task_index (progress t0))%nat
      by (apply (sh_bound t0 (proj1 Hwf0)); eauto). lia.
  - by destruct extract.
Qed.

(** X9. A ["Pulling from <name>"] event relabels both aggregate rows with
    the name and the tag of the event, ["latest"] when the event has no id,
    and changes nothing else of them. *)
Theorem pulling_from_relabels_the_aggregate_rows
    (stream : list Line) (name : string) (tag : option string)
    (pd : option ProgressDetail) (text : option string) (w : World) :
  PyStr.contains "Pulling from " name = false →
  ∃ t0 w0 t1 w1 rd re,
    downloadDockerLayer stream false w = (Ok (t0, []), w0)
    ∧ downloadDockerLayer
        (stream ++ [mkLine (Some ("Pulling from " +:+ name)) tag pd text]) false w
      = (Ok (t1, []), w1)
    ∧ download_row t0 = Some rd
    ∧ extract_row t0 = Some re
    ∧ download_row t1
      = Some (mkTask ("[bold red]Downloading " +:+ name +:+ ":" +:+ default "latest" tag)
                     (total rd) (completed rd) (started rd) (layer rd))
    ∧ extract_row t1
      = Some (mkTask ("[bold gold1]Extracting " +:+ name +:+ ":" +:+ default "latest" tag)
                     (total re) (completed re) (started re) (layer re))
    ∧ layers t1 = layers t0
    ∧ (∀ ph, layer_pool ph t1 = layer_pool ph t0)
    ∧ (∀ ph, task_pool ph t1 = task_pool ph t0).
Proof.
  intros Hname.
  set (line := mkLine (Some ("Pulling from " +:+ name)) tag pd text).
  destruct (downloadDockerLayer_snoc stream line w)
    as (t0 & w0 & t1 & w1 & Hrun0 & Hwf0 & _ & Hbody & Hrun1).
  rewrite loop_body_track in Hbody. unfold track in Hbody.
  assert (Hdis : is_discover line = false) by reflexivity.
  assert (Hpf : PyStr.contains "Pulling from " (status_of line) = true).
  { change (status_of line) with (String "P" ("ulling from " +:+ name)).
    rewrite contains_cons.
    change (String "P" ("ulling from " +:+ name)) with ("Pulling from " +:+ name).
    by rewrite prefix_append. }
  rewrite Hdis, Hpf in Hbody.
  destruct (pulling_from_ok t0 (status_of line) line Hwf0)
    as (t1' & Hrun & _ & HL & HP & HT & _).
  rewrite Hrun in Hbody. injection Hbody as <- _.
  destruct (wf_two_rows t0 Hwf0) as (rd & re & Hd & He & _).
  destruct (pulling_from_rows t0 (status_of line) line t1' rd re Hwf0 Hrun Hd He)
    as [Hd1 He1].
  change (status_of line) with ("Pulling from " +:+ name) in Hd1, He1.
  rewrite (replace_prefix "P" "ulling from " name Hname) in Hd1, He1.
  exists t0, w0, t1', w1, rd, re. by split_and!.
Qed.

(** X10. No row lingers: at exit every row of the display is one of the
    two aggregate rows or the task of a layer in one of the two pools, so
    that with both pools empty the aggregate rows are the only rows. *)
Theorem display_rows_are_aggregates_or_pool_tasks
    (stream : list Line) (quick_exit : bool) (w : World) :
  ∃ t unread w',
    downloadDockerLayer stream quick_exit w = (Ok (t, unread), w')
    ∧ no_orphan_rows t
    ∧ (downloading t = ∅ → extracting t = ∅ →
       ∀ i, is_Some (tasks (progress t) !! i) ↔
            i = task_layers_download t ∨ i = task_layers_extract t).
Proof.
  destruct (downloadDockerLayer_tracks stream quick_exit w) as (t & Hts & Hwf & Hrun).
  pose proof (tracks_no_orphan _ _ _ initial_wf initial_no_orphan Hts) as Hno.
  eexists t, _, _. split_and!; try done.
  intros Hd He i. split.
  - intros Hi. destruct (Hno i Hi) as [?|[?|(ph & l & Hp)]]; [by left | by right|].
    destruct ph; simpl in Hp; [rewrite He in Hp | rewrite Hd in Hp];
      by rewrite lookup_empty in Hp.
  - intros [->| ->].
    + apply (sh_rows t (proj1 Hwf) false).
    + apply (sh_rows t (proj1 Hwf) true).
Qed.

(** ** The build loop *)

Section BuildLog.

Implicit Types (w : World) (stream : list Line).

Lemma logged_nil w : logged w [] = w.
Proof. unfold logged. rewrite app_nil_r. by destruct w. Qed.

(** A line of the build stream causes at most one log call. *)
Lemma log_build_line_logs text w :
  ∃ entries, log_build_line text w = (Ok tt, logged w entries)
             ∧ (length entries ≤ 1)%nat.
Proof.
  unfold log_build_line.
  repeat (match goal with |- context [if ?b then _ else _] => destruct b end);
    first [ by (eexists [_]; split; [reflexivity | simpl; lia])
          | by (exists []; rewrite logged_nil; split; [reflexivity | simpl; lia]) ].
Qed.

Lemma buildDockerImage_logs_upto n stream w :
  (length stream ≤ n)%nat →
  ∃ entries, buildDockerImage stream w = (Ok tt, logged w entries).
Proof.
  revert stream w. induction n as [|n IH]; intros stream w Hlen.
  - destruct stream; [|simpl in Hlen; lia]. exists []. by rewrite logged_nil.
  - destruct stream as [|line stream]; [exists []; by rewrite logged_nil|].
    simpl in Hlen. rewrite buildDockerImage_cons. unfold build_step.
    unfold mbind, M_bind, bind.
    destruct (log_build_line_logs (default "" (l_stream line)) w) as (e1 & -> & _).
    destruct (PyStr.contains ": FROM " (default "" (l_stream line))).
    + unfold logger at 1. cbv beta iota.
      match goal with
      | |- context [downloadDockerLayer stream true ?w'] =>
          destruct (downloadDockerLayer_tracks stream true w') as (t & _ & _ & ->);
          destruct (IH (events_unread true stream)
                      (logged w' (flat_map line_log (events_read true stream))))
            as (e2 & ->)
      end.
      { pose proof (events_read_unread true stream) as Hs.
        apply (f_equal length) in Hs. rewrite length_app in Hs. lia. }
      eexists. unfold logged. simpl. rewrite <- !(assoc_L (++)). reflexivity.
    + destruct (IH stream (logged w e1)) as (e2 & ->); [lia|].
      exists (e1 ++ e2). by rewrite logged_logged.
Qed.

End BuildLog.

(** X11. [buildDockerImage] raises on no stream, with or without nested
    pulls, and its only effect on the world is to add calls to the log. *)
Theorem buildDockerImage_only_logs (stream : list Line) (w : World) :
  ∃ entries, buildDockerImage stream w = (Ok tt, logged w entries).
Proof. by apply (buildDockerImage_logs_upto (length stream)). Qed.

(** X12. When the events after a [": FROM "] line hold no
    operation-complete event, the nested pull reads the stream to its end:
    the build loop gets no further line, and what follows is logged as
    pull events are. *)
Theorem from_line_without_completion_gives_the_rest_to_the_pull
    (line : Line) (rest : list Line) (w : World) :
  PyStr.contains ": FROM " (default "" (l_stream line)) = true →
  Forall (λ x, is_operation_complete x = false) rest →
  ∃ w1,
    (_ ← log_build_line (default "" (l_stream line));
     logger log_info (MsgText "Downloading docker image")) w = (Ok tt, w1)
    ∧ buildDockerImage (line :: rest) w
      = (Ok tt, logged w1 (flat_map line_log rest)).
Proof.
  intros Hfrom Hno.
  rewrite buildDockerImage_cons. unfold build_step. rewrite Hfrom.
  unfold mbind, M_bind, bind.
  destruct (log_build_line_logs (default "" (l_stream line)) w) as (e1 & -> & _).
  unfold logger at 1 2. cbv beta iota.
  eexists. split; [reflexivity|].
  match goal with
  | |- context [downloadDockerLayer rest true ?w'] =>
      destruct (downloadDockerLayer_tracks rest true w') as (t & _ & _ & ->)
  end.
  destruct (events_read_no_complete rest Hno) as [-> ->].
  reflexivity.
Qed.

(** ** The tables built *)

Section Built.

Implicit Types (table : Table) (w : World).

(** A row as wide as the header, added to rows as wide, is added as it is:
    nothing is padded and no column is added. *)
Lemma add_row_fit cells table :
  length cells = length (tb_columns table) →
  Forall (λ row, length row = length cells) (tb_rows table) →
  RichTable.add_row cells table
  = mkTable (tb_title table) (tb_columns table) (tb_rows table ++ [cells]).
Proof.
  intros Hc Hrows. unfold RichTable.add_row. rewrite <- Hc, Nat.max_id.
  rewrite Nat.sub_diag. simpl. rewrite app_nil_r. f_equal. f_equal.
  - clear Hc. induction Hrows as [|row rows Hrow _ IH]; [done|]. simpl.
    rewrite IH. f_equal. unfold RichTable.pad.
    rewrite Hrow, Nat.sub_diag. simpl. by rewrite app_nil_r.
  - unfold RichTable.pad. rewrite Nat.sub_diag. simpl. by rewrite app_nil_r.
Qed.

Lemma add_image_rows_fit verbose_mode images title rows :
  Forall (λ row, length row = length (image_columns verbose_mode)) rows →
  add_image_rows verbose_mode (map OImage images)
    (mkTable title (image_columns verbose_mode) rows)
  = Ok (mkTable title (image_columns verbose_mode)
          (rows ++ map (image_row verbose_mode) images)).
Proof.
  revert rows. induction images as [|i images IH]; intros rows Hrows.
  - simpl. by rewrite app_nil_r.
  - change (map OImage (i :: images)) with (OImage i :: map OImage images).
    cbn [add_image_rows]. fold (image_row verbose_mode i).
    rewrite add_row_fit; simpl tb_columns; simpl tb_rows; simpl tb_title.
    + rewrite IH.
      * by rewrite <- (assoc_L (++)).
      * apply Forall_app. split; [done|]. apply Forall_singleton.
        by destruct verbose_mode.
    + by destruct verbose_mode.
    + eapply Forall_impl; [exact Hrows|]. intros row ->. by destruct verbose_mode.
Qed.

Lemma add_container_rows_fit verbose_mode debug_mode containers title rows :
  Forall (λ row, length row = length (container_columns verbose_mode)) rows →
  add_container_rows verbose_mode debug_mode (map OContainer containers)
    (mkTable title (container_columns verbose_mode) rows)
  = Ok (mkTable title (container_columns verbose_mode)
          (rows ++ map (container_row verbose_mode debug_mode) containers)).
Proof.
  revert rows. induction containers as [|c containers IH]; intros rows Hrows.
  - simpl. by rewrite app_nil_r.
  - change (map OContainer (c :: containers))
      with (OContainer c :: map OContainer containers).
    cbn [add_container_rows]. fold (container_row verbose_mode debug_mode c).
    rewrite add_row_fit; simpl tb_columns; simpl tb_rows; simpl tb_title.
    + rewrite IH.
      * by rewrite <- (assoc_L (++)).
      * apply Forall_app. split; [done|]. apply Forall_singleton.
        by destruct verbose_mode.
    + by destruct verbose_mode.
    + eapply Forall_impl; [exact Hrows|]. intros row ->. by destruct verbose_mode.
Qed.

Lemma add_string_rows_fit (strings : list string) title header rows :
  Forall (λ row, length row = 1%nat) rows →
  add_string_rows (map OStr strings) (mkTable title [header] rows)
  = Ok (mkTable title [header] (rows ++ map (λ s, [s]) strings)).
Proof.
  revert rows. induction strings as [|s strings IH]; intros rows Hrows.
  - simpl. by rewrite app_nil_r.
  - change (map OStr (s :: strings)) with (OStr s :: map OStr strings).
    cbn [add_string_rows].
    rewrite add_row_fit; simpl tb_columns; simpl tb_rows; simpl tb_title;
      [|done|done].
    rewrite IH.
    + by rewrite <- (assoc_L (++)).
    + apply Forall_app. split; [done|]. by apply Forall_singleton.
Qed.

End Built.

(** X13. Without data that it supports [printTable] prints nothing: on an
    empty list it logs a notice and returns, and on a list whose first
    element is neither an image, a container nor a string it logs an error
    and raises [NotImplementedError]. *)
Theorem printTable_without_supported_data
    (title : Arg (option string)) (w : World) :
  printTable [] title w
  = (Ok tt, logged w [(log_info, MsgText "No data supplied")])
  ∧ ∀ type_repr others,
      printTable (OOther type_repr :: others) title w
      = (Raise NotImplementedError,
         logged w [(log_error,
                    MsgText ("Print table of " +:+ type_repr +:+ " is not implemented"))]).
Proof. by split. Qed.

(** X14. The table of a non-empty list of images, at any verbosity: the
    fixed title, the columns of the verbosity, and one row for each image,
    in the order of the list, each with one cell for each column. *)
Theorem image_table_has_a_row_per_image
    (i : ExegolImage.t) (images : list ExegolImage.t)
    (title : Arg (option string)) (w : World) :
  printTable (map OImage (i :: images)) title w
  = (Ok tt,
     printed w
       (mkTable (Some "Available images")
          (image_columns (isEnabledFor (w_verbosity w) LVL_VERBOSE))
          (map (image_row (isEnabledFor (w_verbosity w) LVL_VERBOSE)) (i :: images))))
  ∧ Forall (λ row, length row
                   = length (image_columns (isEnabledFor (w_verbosity w) LVL_VERBOSE)))
      (map (image_row (isEnabledFor (w_verbosity w) LVL_VERBOSE)) (i :: images)).
Proof.
  split.
  - change (map OImage (i :: images)) with (OImage i :: map OImage images).
    unfold printTable, __buildImageTable, logger_isEnabledFor.
    unfold mbind, M_bind, bind, lift. cbv beta iota zeta.
    change (OImage i :: map OImage images) with (map OImage (i :: images)).
    pose proof (add_image_rows_fit (isEnabledFor (w_verbosity w) LVL_VERBOSE)
                  (i :: images) (Some "Available images") [] (Forall_nil_2 _)) as H.
    destruct (isEnabledFor (w_verbosity w) LVL_VERBOSE);
      match goal with
      | |- context [add_image_rows ?v ?d ?tbl] =>
          change tbl with (mkTable (Some "Available images") (image_columns v) [])
      end; by rewrite H.
  - apply Forall_forall. intros row [x [-> _]]%list_elem_of_fmap.
    by destruct (isEnabledFor (w_verbosity w) LVL_VERBOSE).
Qed.

(** X15. The table of a non-empty list of containers, at any verbosity:
    the fixed title, four columns, or eight from verbose on, and one row
    for each container with one cell for each column; the mounts, devices
    and environment are asked for in full at debug level only. *)
Theorem container_table_has_a_row_per_container
    (c : ExegolContainer.t) (containers : list ExegolContainer.t)
    (title : Arg (option string)) (w : World) :
  printTable (map OContainer (c :: containers)) title w
  = (Ok tt,
     printed w
       (mkTable (Some "[gold3][g]Available containers[/g][/gold3]")
          (container_columns (isEnabledFor (w_verbosity w) LVL_VERBOSE))
          (map (container_row (isEnabledFor (w_verbosity w) LVL_VERBOSE)
                              (isEnabledFor (w_verbosity w) LVL_DEBUG))
               (c :: containers))))
  ∧ Forall (λ row, length row
                   = length (container_columns (isEnabledFor (w_verbosity w) LVL_VERBOSE)))
      (map (container_row (isEnabledFor (w_verbosity w) LVL_VERBOSE)
                          (isEnabledFor (w_verbosity w) LVL_DEBUG))
           (c :: containers)).
Proof.
  split.
  - change (map OContainer (c :: containers))
      with (OContainer c :: map OContainer containers).
    unfold printTable, __buildContainerTable, logger_isEnabledFor.
    unfold mbind, M_bind, bind, lift. cbv beta iota zeta.
    change (OContainer c :: map OContainer containers)
      with (map OContainer (c :: containers)).
    pose proof (add_container_rows_fit (isEnabledFor (w_verbosity w) LVL_VERBOSE)
                  (isEnabledFor (w_verbosity w) LVL_DEBUG)
                  (c :: containers) (Some "[gold3][g]Available containers[/g][/gold3]")
                  [] (Forall_nil_2 _)) as H.
    destruct (isEnabledFor (w_verbosity w) LVL_VERBOSE);
      match goal with
      | |- context [add_container_rows ?v ?d ?data ?tbl] =>
          change tbl with (mkTable (Some "[gold3][g]Available containers[/g][/gold3]")
                             (container_columns v) [])
      end; by rewrite H.
  - apply Forall_forall. intros row [x [-> _]]%list_elem_of_fmap.
    by destruct (isEnabledFor (w_verbosity w) LVL_VERBOSE).
Qed.

Lemma printTable_strings
    (s : string) (strings : list string) (header : string) (w : World) :
  printTable (map OStr (s :: strings)) (Given (Some header)) w
  = (Ok tt,
     printed w (mkTable None [Some header] (map (λ x, [x]) (s :: strings)))).
Proof.
  change (map OStr (s :: strings)) with (OStr s :: map OStr strings).
  unfold printTable, __buildStringTable. unfold mbind, M_bind, bind, lift.
  cbv beta iota zeta.
  change (arg_or (Given (arg_or (Given (Some header)) None)) (Some "Key"))
    with (Some header).
  change (arg_or (Given (Some header)) None) with (Some header).
  change (OStr s :: map OStr strings) with (map OStr (s :: strings)).
  pose proof (add_string_rows_fit (s :: strings) None (Some header) []
                (Forall_nil_2 _)) as H.
  match goal with
  | |- context [add_string_rows ?d ?tbl] =>
      change tbl with (mkTable None [Some header] [])
  end.
  by rewrite H.
Qed.

(** Without a text as title the header of the column is [None] and the
    console refuses the table. *)
Lemma printTable_strings_no_header
    (s : string) (strings : list string) (title : Arg (option string)) (w : World) :
  arg_or title None = None →
  printTable (map OStr (s :: strings)) title w = (Raise NotRenderableError, w).
Proof.
  intros Htitle.
  change (map OStr (s :: strings)) with (OStr s :: map OStr strings).
  unfold printTable, __buildStringTable. unfold mbind, M_bind, bind, lift.
  cbv beta iota zeta.
  change (arg_or (Given (arg_or title None)) (Some "Key")) with (arg_or title None).
  rewrite Htitle.
  change (OStr s :: map OStr strings) with (map OStr (s :: strings)).
  pose proof (add_string_rows_fit (s :: strings) None None [] (Forall_nil_2 _)) as H.
  match goal with
  | |- context [add_string_rows ?d ?tbl] =>
      change tbl with (mkTable None [@None string] [])
  end.
  by rewrite H.
Qed.

(** X16. The table of a non-empty list of strings, when the title given to
    [printTable] is a text: no title, one column with that text as header,
    and one row of one cell for each string, in the order of the list.
    When the title is omitted or [None] the header is [None]: the console
    raises [NotRenderableError] and nothing is printed. *)
Theorem string_table_has_a_row_per_string
    (s : string) (strings : list string) (w : World) :
  (∀ header : string,
     printTable (map OStr (s :: strings)) (Given (Some header)) w
     = (Ok tt,
        printed w (mkTable None [Some header] (map (λ x, [x]) (s :: strings)))))
  ∧ printTable (map OStr (s :: strings)) Omitted w = (Raise NotRenderableError, w)
  ∧ printTable (map OStr (s :: strings)) (Given None) w
    = (Raise NotRenderableError, w).
Proof.
  split; [intros header; apply printTable_strings|].
  split; by apply printTable_strings_no_header.
Qed.

(** ** selectFromList *)

Section FromList.

Context {V : Type}.

Implicit Types (w : World) (d : list (string * V)).

Lemma selectFromList_run (data : ListOrDict V) first others subject title
    default_choice w c rest :
  match data with PyList l => l | PyDict d => map fst d end = first :: others →
  read_answer (default first default_choice) (first :: others) (w_stdin w)
  = (Ok c, rest) →
  selectFromList data subject title default_choice w
  = match data with
    | PyList _ =>
        (Ok (SelString c),
         asked w (first :: others) subject title (default first default_choice) rest)
    | PyDict d =>
        match dict_getitem d c with
        | Ok v =>
            (Ok (SelValue v),
             asked w (first :: others) subject title (default first default_choice) rest)
        | Raise e =>
            (Raise e,
             asked w (first :: others) subject title (default first default_choice) rest)
        end
    end.
Proof.
  intros Hitems Hans. unfold selectFromList. rewrite Hitems.
  unfold mbind, M_bind, bind.
  rewrite (printTable_strings first others (arg_or title "Options") w).
  unfold Prompt_ask. simpl w_stdin. rewrite Hans.
  destruct data as [l|d]; [reflexivity|].
  unfold lift. by destruct (dict_getitem d c).
Qed.

Lemma dict_getitem_key d key :
  key ∈ map fst d → ∃ v, dict_getitem d key = Ok v ∧ (key, v) ∈ d.
Proof.
  induction d as [|[k v] d IH]; simpl; [by intros ?%elem_of_nil|].
  destruct (String.eqb_spec k key) as [->|Hne].
  - intros _. exists v. split; [done|]. apply elem_of_cons. by left.
  - intros [?|Hin]%elem_of_cons; [congruence|].
    destruct (IH Hin) as (v' & -> & Hv). exists v'. split; [done|].
    apply elem_of_cons. by right.
Qed.

Lemma dict_getitem_missing d key :
  key ∉ map fst d → dict_getitem d key = Raise KeyError.
Proof.
  induction d as [|[k v] d IH]; simpl; [done|].
  intros Hnot. destruct (String.eqb_spec k key) as [->|Hne].
  - destruct Hnot. apply elem_of_cons. by left.
  - apply IH. intros Hin. apply Hnot. apply elem_of_cons. by right.
Qed.

End FromList.

(** X17. On a non-empty list of strings [selectFromList] shows the strings
    in a table under the title as header, asks with the strings as choices
    and the first of them as default when none is given, and returns the
    answer of the prompt: one of the strings, or the default. *)
Theorem selectFromList_list_returns_the_answer
    (V : Type) (first : string) (others : list string) (subject title : Arg string)
    (default_choice : option string) (w : World) (c : string) (rest : list string) :
  read_answer (default first default_choice) (first :: others) (w_stdin w)
  = (Ok c, rest) →
  selectFromList (@PyList V (first :: others)) subject title default_choice w
  = (Ok (SelString c),
     asked w (first :: others) subject title (default first default_choice) rest)
  ∧ (c = default first default_choice ∨ c ∈ first :: others)
  ∧ (default_choice = None → c ∈ first :: others).
Proof.
  intros Hans. split.
  - by rewrite (selectFromList_run (PyList (first :: others)) first others
                  subject title default_choice w c rest eq_refl Hans).
  - pose proof (read_answer_choice _ _ _ _ _ Hans) as Hc. split; [done|].
    intros ->. destruct Hc as [->|?]; [|done]. apply elem_of_cons. by left.
Qed.

(** X18. On a non-empty dict [selectFromList] shows the keys, in the order
    of the dict, and returns the value the dict maps the answer of the
    prompt to, whenever the answer is a key; it is one when no default is
    given. *)
Theorem selectFromList_dict_returns_the_mapped_value
    (V : Type) (key0 : string) (value0 : V) (d : list (string * V))
    (subject title : Arg string) (default_choice : option string)
    (w : World) (c : string) (rest : list string) :
  read_answer (default key0 default_choice) (key0 :: map fst d) (w_stdin w)
  = (Ok c, rest) →
  default_choice = None ∨ c ∈ key0 :: map fst d →
  ∃ v,
    selectFromList (PyDict ((key0, value0) :: d)) subject title default_choice w
    = (Ok (SelValue v),
       asked w (key0 :: map fst d) subject title (default key0 default_choice) rest)
    ∧ dict_getitem ((key0, value0) :: d) c = Ok v
    ∧ (c, v) ∈ (key0, value0) :: d.
Proof.
  intros Hans Hc.
  assert (Hin : c ∈ map fst ((key0, value0) :: d)).
  { simpl. destruct Hc as [->|?]; [|done].
    apply read_answer_choice in Hans as [->|?]; [|done]. apply elem_of_cons. by left. }
  destruct (dict_getitem_key _ _ Hin) as (v & Hget & Hv).
  exists v. split; [|done].
  rewrite (selectFromList_run (PyDict ((key0, value0) :: d)) key0 (map fst d)
             subject title default_choice w c rest eq_refl Hans).
  by rewrite Hget.
Qed.

(** X19. A default that is no key of the dict is not checked: when the
    user answers with an empty line the prompt returns it, and the lookup
    in the dict raises [KeyError], after the table and the prompt were
    shown. *)
Theorem selectFromList_dict_default_not_a_key_raises_KeyError
    (V : Type) (key0 : string) (value0 : V) (d : list (string * V))
    (subject title : Arg string) (default_value : string)
    (w : World) (rest : list string) :
  default_value ∉ key0 :: map fst d →
  w_stdin w = "" :: rest →
  selectFromList (PyDict ((key0, value0) :: d)) subject title (Some default_value) w
  = (Raise KeyError,
     asked w (key0 :: map fst d) subject title default_value rest).
Proof.
  intros Hnot Hin.
  rewrite (selectFromList_run (PyDict ((key0, value0) :: d)) key0 (map fst d)
             subject title (Some default_value) w default_value rest eq_refl).
  - by rewrite (dict_getitem_missing ((key0, value0) :: d) default_value Hnot).
  - by rewrite Hin.
Qed.

(** ** The pools *)

Section Pools.

Implicit Types (t : Tracker) (line : Line) (ph : bool).

Lemma track_pool_dom line t t' :
  tracker_wf t → track line t = Ok t' →
  ∀ ph, dom (task_pool ph t') =
        if is_finish line && bool_decide (ph = phase_of line)
        then dom (task_pool ph t) ∖ {[l_id line]}
        else if is_progress line && bool_decide (ph = phase_of line)
             then {[l_id line]} ∪ dom (task_pool ph t)
             else dom (task_pool ph t).
Proof.
  intros Hwf Hrun ph. unfold track in Hrun.
  destruct (is_discover line) eqn:Hdis.
  { destruct (pulling_fs_layer_ok t (l_id line) Hwf) as (t1 & Hrun1 & _ & _ & _ & HT & _).
    rewrite Hrun1 in Hrun. injection Hrun as ->. rewrite HT.
    unfold is_discover in Hdis. apply String.eqb_eq in Hdis.
    unfold is_finish, is_progress. by rewrite Hdis. }
  destruct (PyStr.contains "Pulling from " (status_of line)) eqn:Hpf.
  { destruct (pulling_from_ok t (status_of line) line Hwf)
      as (t1 & Hrun1 & _ & _ & _ & HT & _).
    rewrite Hrun1 in Hrun. injection Hrun as ->. rewrite HT.
    assert (is_finish line = false ∧ is_progress line = false) as [-> ->]; [|done].
    unfold is_finish, is_progress.
    destruct (String.eqb_spec (status_of line) "Download complete") as [E|_];
      [by rewrite E in Hpf|].
    destruct (String.eqb_spec (status_of line) "Pull complete") as [E|_];
      [by rewrite E in Hpf|].
    destruct (String.eqb_spec (status_of line) "Downloading") as [E|_];
      [by rewrite E in Hpf|].
    destruct (String.eqb_spec (status_of line) "Extracting") as [E|_];
      [by rewrite E in Hpf|].
    done. }
  destruct (is_finish line) eqn:Hfin.
  { destruct (layer_complete_ok t (status_of line) (l_id line) Hwf)
      as (t1 & Hrun1 & _ & _ & _ & _ & HT1 & HT2 & _).
    rewrite Hrun1 in Hrun. injection Hrun as ->.
    assert (Hph : String.eqb (status_of line) "Pull complete" = phase_of line).
    { unfold is_finish in Hfin. unfold phase_of.
      apply orb_true_iff in Hfin as [E|E]; apply String.eqb_eq in E; by rewrite E. }
    rewrite Hph in HT1, HT2. simpl. case_bool_decide as Hc.
    - subst ph. by rewrite HT1, dom_delete_L.
    - assert (ph = negb (phase_of line)) as ->
        by (destruct ph, (phase_of line); simpl; congruence).
      rewrite HT2.
      assert (is_progress line = false) as ->; [|done].
      unfold is_finish in Hfin. unfold is_progress.
      apply orb_true_iff in Hfin as [E|E]; apply String.eqb_eq in E; by rewrite E. }
  destruct (is_progress line) eqn:Hpro; [|by injection Hrun as <-].
  destruct (layer_progress_ok t (status_of line) (l_id line) line Hwf)
    as (t1 & i0 & r0 & Hrun1 & _ & _ & _ & HT1 & HT2 & _).
  rewrite Hrun1 in Hrun. injection Hrun as ->.
  assert (Hph : String.eqb (status_of line) "Extracting" = phase_of line).
  { unfold is_progress in Hpro. unfold phase_of.
    apply orb_true_iff in Hpro as [E|E]; apply String.eqb_eq in E; by rewrite E. }
  rewrite Hph in HT1, HT2. simpl. case_bool_decide as Hc.
  - subst ph. by rewrite HT1, dom_insert_L.
  - assert (ph = negb (phase_of line)) as ->
      by (destruct ph, (phase_of line); simpl; congruence).
    by rewrite HT2.
Qed.

Lemma tracks_pool_dom stream t t' :
  tracker_wf t → tracks stream t = Ok t' →
  ∀ ph, dom (task_pool ph t') = in_progress_from ph (dom (task_pool ph t)) stream.
Proof.
  revert t. induction stream as [|line stream IH]; intros t Hwf Hrun ph.
  - by injection Hrun as <-.
  - simpl in Hrun. destruct (track_ok line t Hwf) as (t1 & Ht & Hwf1 & _).
    rewrite Ht in Hrun. simpl in Hrun.
    rewrite (IH t1 Hwf1 Hrun ph). simpl.
    by rewrite (track_pool_dom line t t1 Hwf Ht ph).
Qed.

End Pools.

(** X20. At exit the layers with a task in the pool of a phase are the
    layers in progress in that phase: those whose last progress or finish
    event of the phase, among the events read, is a progress event. *)
Theorem pools_hold_the_layers_in_progress
    (stream : list Line) (quick_exit : bool) (w : World) :
  ∃ t unread w',
    downloadDockerLayer stream quick_exit w = (Ok (t, unread), w')
    ∧ dom (downloading t) = in_progress_from false ∅ (events_read quick_exit stream)
    ∧ dom (extracting t) = in_progress_from true ∅ (events_read quick_exit stream).
Proof.
  destruct (downloadDockerLayer_tracks stream quick_exit w) as (t & Hts & _ & Hrun).
  pose proof (tracks_pool_dom _ _ _ initial_wf Hts) as Hdom.
  eexists t, _, _. split; [done|].
  split; [exact (Hdom false) | exact (Hdom true)].
Qed.

(** ** The further properties at the samples *)

(** X5 at the sample pull stream. *)
Lemma quick_exit_without_completion_at_sample :
  Forall (λ x, is_operation_complete x = false) sample_pull
  ∧ downloadDockerLayer sample_pull true sample_world
    = downloadDockerLayer sample_pull false sample_world
  ∧ ∃ t w', downloadDockerLayer sample_pull true sample_world = (Ok (t, []), w').
Proof.
  assert (H : Forall (λ x, is_operation_complete x = false) sample_pull)
    by (repeat constructor).
  split; [exact H|].
  exact (quick_exit_without_completion_reads_all sample_pull sample_world H).
Defined.

(** X9 at the image ["library/ubuntu"] with the tag ["focal"]. *)
Lemma pulling_from_at_sample :
  PyStr.contains "Pulling from " "library/ubuntu" = false
  ∧ ∃ t0 w0 t1 w1 rd re,
      downloadDockerLayer [] false sample_world = (Ok (t0, []), w0)
      ∧ downloadDockerLayer
          ([] ++ [mkLine (Some ("Pulling from " +:+ "library/ubuntu"))
                         (Some "focal") None None]) false sample_world
        = (Ok (t1, []), w1)
      ∧ download_row t0 = Some rd
      ∧ extract_row t0 = Some re
      ∧ download_row t1
        = Some (mkTask ("[bold red]Downloading " +:+ "library/ubuntu" +:+ ":"
                          +:+ default "latest" (Some "focal"))
                       (total rd) (completed rd) (started rd) (layer rd))
      ∧ extract_row t1
        = Some (mkTask ("[bold gold1]Extracting " +:+ "library/ubuntu" +:+ ":"
                          +:+ default "latest" (Some "focal"))
                       (total re) (completed re) (started re) (layer re))
      ∧ layers t1 = layers t0
      ∧ (∀ ph, layer_pool ph t1 = layer_pool ph t0)
      ∧ (∀ ph, task_pool ph t1 = task_pool ph t0).
Proof.
  assert (H : PyStr.contains "Pulling from " "library/ubuntu" = false)
    by (vm_compute; reflexivity).
  split; [exact H|].
  exact (pulling_from_relabels_the_aggregate_rows
           [] "library/ubuntu" (Some "focal") None None sample_world H).
Defined.

(** X12 at a build whose base image never reports completion. *)
Lemma from_line_without_completion_at_sample :
  PyStr.contains ": FROM "
    (default "" (l_stream (build_event "Step 1/3 : FROM ubuntu"))) = true
  ∧ Forall (λ x, is_operation_complete x = false)
      [pull_event "Pulling fs layer" (Some "a"); build_event "Step 2/3 : RUN true"]
  ∧ ∃ w1,
      (_ ← log_build_line (default "" (l_stream (build_event "Step 1/3 : FROM ubuntu")));
       logger log_info (MsgText "Downloading docker image")) sample_world = (Ok tt, w1)
      ∧ buildDockerImage
          (build_event "Step 1/3 : FROM ubuntu"
           :: [pull_event "Pulling fs layer" (Some "a");
               build_event "Step 2/3 : RUN true"]) sample_world
        = (Ok tt,
           logged w1
             (flat_map line_log
                [pull_event "Pulling fs layer" (Some "a");
                 build_event "Step 2/3 : RUN true"])).
Proof.
  assert (H1 : PyStr.contains ": FROM "
                 (default "" (l_stream (build_event "Step 1/3 : FROM ubuntu"))) = true)
    by (vm_compute; reflexivity).
  assert (H2 : Forall (λ x, is_operation_complete x = false)
                 [pull_event "Pulling fs layer" (Some "a");
                  build_event "Step 2/3 : RUN true"])
    by (repeat constructor).
  split; [exact H1|]. split; [exact H2|].
  exact (from_line_without_completion_gives_the_rest_to_the_pull
           (build_event "Step 1/3 : FROM ubuntu")
           [pull_event "Pulling fs layer" (Some "a"); build_event "Step 2/3 : RUN true"]
           sample_world H1 H2).
Defined.

(** X17 at a list of two shells, the user typing the second. *)
Lemma selectFromList_list_at_sample :
  read_answer (default "zsh" None) ["zsh"; "bash"]
              (w_stdin (mkWorld Normal [] [] [] ["bash"]))
  = (Ok "bash", [])
  ∧ selectFromList (@PyList nat ["zsh"; "bash"]) Omitted Omitted None
      (mkWorld Normal [] [] [] ["bash"])
    = (Ok (SelString "bash"),
       asked (mkWorld Normal [] [] [] ["bash"]) ["zsh"; "bash"] Omitted Omitted
             (default "zsh" None) [])
  ∧ ("bash" = default "zsh" None ∨ "bash" ∈ ["zsh"; "bash"])
  ∧ (@None string = None → "bash" ∈ ["zsh"; "bash"]).
Proof.
  assert (H : read_answer (default "zsh" None) ["zsh"; "bash"]
                (w_stdin (mkWorld Normal [] [] [] ["bash"])) = (Ok "bash", []))
    by (vm_compute; reflexivity).
  split; [exact H|].
  exact (selectFromList_list_returns_the_answer nat "zsh" ["bash"] Omitted Omitted
           None (mkWorld Normal [] [] [] ["bash"]) "bash" [] H).
Defined.

(** X18 at the dict that maps ["a"] to 1 and ["b"] to 2, the user typing
    ["b"]. *)
Lemma selectFromList_dict_at_sample :
  read_answer (default "a" None) ("a" :: map fst [("b", 2%nat)])
              (w_stdin (mkWorld Normal [] [] [] ["b"]))
  = (Ok "b", [])
  ∧ (@None string = None ∨ "b" ∈ "a" :: map fst [("b", 2%nat)])
  ∧ ∃ v,
      selectFromList (PyDict [("a", 1%nat); ("b", 2%nat)]) Omitted Omitted None
        (mkWorld Normal [] [] [] ["b"])
      = (Ok (SelValue v),
         asked (mkWorld Normal [] [] [] ["b"]) ("a" :: map fst [("b", 2%nat)])
               Omitted Omitted (default "a" None) [])
      ∧ dict_getitem [("a", 1%nat); ("b", 2%nat)] "b" = Ok v
      ∧ ("b", v) ∈ [("a", 1%nat); ("b", 2%nat)].
Proof.
  assert (H : read_answer (default "a" None) ("a" :: map fst [("b", 2%nat)])
                (w_stdin (mkWorld Normal [] [] [] ["b"])) = (Ok "b", []))
    by (vm_compute; reflexivity).
  split; [exact H|]. split; [by left|].
  exact (selectFromList_dict_returns_the_mapped_value nat "a" 1%nat [("b", 2%nat)]
           Omitted Omitted None (mkWorld Normal [] [] [] ["b"]) "b" [] H
           (or_introl eq_refl)).
Defined.

(** X19 at the same dict with the default ["c"], the user typing nothing. *)
Lemma selectFromList_bad_default_at_sample :
  ("c" ∉ "a" :: map fst [("b", 2%nat)])
  ∧ w_stdin (mkWorld Normal [] [] [] [""]) = "" :: []
  ∧ selectFromList (PyDict [("a", 1%nat); ("b", 2%nat)]) Omitted Omitted (Some "c")
      (mkWorld Normal [] [] [] [""])
    = (Raise KeyError,
       asked (mkWorld Normal [] [] [] [""]) ("a" :: map fst [("b", 2%nat)])
             Omitted Omitted "c" []).
Proof.
  assert (H : "c" ∉ "a" :: map fst [("b", 2%nat)]).
  { simpl. intros Hin. apply elem_of_cons in Hin as [?|Hin]; [done|].
    apply elem_of_cons in Hin as [?|Hin]; [done|]. by apply elem_of_nil in Hin. }
  split; [exact H|]. split; [reflexivity|].
  exact (selectFromList_dict_default_not_a_key_raises_KeyError nat "a" 1%nat
           [("b", 2%nat)] Omitted Omitted "c" (mkWorld Normal [] [] [] [""]) [] H eq_refl).
Defined.
